(** * DemandIQ: the stock-planning optimizer (server/utils/optimizer.py)

    A shallow embedding of [StockOptimizer] and of the [/plan] route that
    drives it, then of the routes beside it ([/predict], [/upload],
    [/products]) and of their helpers, followed by the properties of the
    specification and further properties read off the code.

    Numbers.  The program computes on Python floats.  They are modelled by
    exact rationals ([Q]): every arithmetic operation is the exact one and
    [round(x, k)] is decimal rounding, ties to even.  Two rationals are
    compared with [==] ([Qeq]), the value comparison that Python performs.
    [numpy.std] is library code outside the repository: the allocator is
    written over an arbitrary function [np_std], and the properties proved
    for it hold whatever that function returns; [population_std] is the
    instance used to run the allocator on concrete series.

    One property turns on the last bit of a float: the status of a stock
    whose ratio to the demand lies on a threshold.  For it, module [IEEE]
    writes out what the doubles do: the quotient rounded to 53 bits, and the
    thresholds as the doubles their literals denote. *)

From Stdlib Require Import QArith Qround Qabs Qpower ZArith List Bool Lia Lqa.
From Stdlib Require String Ascii DecimalString Sorted.
Import ListNotations.
Open Scope Q_scope.

(** ** Python built-ins on numbers and lists *)

Module Py.

(** [a < b] as a boolean. *)
Definition Qltb (a b : Q) : bool := negb (Qle_bool b a).

(** [max(a, b)]: the second argument only when it is strictly greater. *)
Definition max (a b : Q) : Q := if Qltb a b then b else a.

(** [min(a, b)]: the second argument only when it is strictly smaller. *)
Definition min (a b : Q) : Q := if Qltb b a then b else a.

(** [sum(l)]: left-to-right accumulation from [0]. *)
Definition sum (l : list Q) : Q := fold_left Qplus l 0.

(** [len(l)] as a number. *)
Definition len {A} (l : list A) : Z := Z.of_nat (length l).

(** [range(n)]: empty when [n <= 0]. *)
Definition range (n : Z) : list nat := seq 0 (Z.to_nat n).

(** [[x] * n]: empty when [n <= 0]. *)
Definition replicate {A} (x : A) (n : Z) : list A := repeat x (Z.to_nat n).

(** Nearest integer, ties to the even one. *)
Definition round_half_even (x : Q) : Z :=
  let f := Qfloor x in
  match Qcompare (x - inject_Z f) (1 # 2) with
  | Lt => f
  | Gt => (f + 1)%Z
  | Eq => if Z.even f then f else (f + 1)%Z
  end.

(** [10 ** ndigits]. *)
Definition scale (ndigits : nat) : Q := inject_Z (10 ^ Z.of_nat ndigits).

(** [round(x, ndigits)]. *)
Definition round (x : Q) (ndigits : nat) : Q :=
  inject_Z (round_half_even (x * scale ndigits)) / scale ndigits.

(** [x] has at most [ndigits] decimals. *)
Definition has_decimals (ndigits : nat) (x : Q) : Prop :=
  exists k : Z, x * scale ndigits == inject_Z k.

End Py.

(** ** numpy.std *)

(** Population variance: the mean of the squared deviations from the mean. *)
Definition variance (l : list Q) : Q :=
  let n := inject_Z (Py.len l) in
  let mean := Py.sum l / n in
  Py.sum (map (fun x => (x - mean) * (x - mean)) l) / n.

(** Square root of a rational to sixteen decimal places, rounded down:
    [sqrt (p/q) = sqrt (p*q) / q].  It is the exact root whenever the
    argument is the square of a rational. *)
Definition Qsqrt (x : Q) : Q :=
  let p := Qnum x in
  let q := Zpos (Qden x) in
  Qred (Z.sqrt (p * q * 10 ^ 32) # (Qden x * 10 ^ 16)).

(** [numpy.std(l)], the population standard deviation. *)
Definition population_std (l : list Q) : Q := Qsqrt (variance l).

(** ** The allocator's result *)

Record Allocation := mkAllocation {
  daily_stock : list Q;
  total_stock : Q;
  wastage_risk : Q;
  service_level : Q
}.

Inductive StockStatus := understock | optimal | overstock.

(** ** StockOptimizer *)

(** [_calculate_wastage_risk(daily_stock, daily_forecast, shelf_life)]. *)
Definition _calculate_wastage_risk
    (daily_stock daily_forecast : list Q) (shelf_life : Z) : Q :=
  match daily_stock, daily_forecast with
  | [], _ | _, [] => 0
  | _, _ =>
    let total_stock := Py.sum daily_stock in
    let total_demand := Py.sum daily_forecast in
    if Qeq_bool total_demand 0 then
      (if Py.Qltb 0 total_stock then 1 else 0)
    else
      let excess_ratio := Py.max 0 ((total_stock - total_demand) / total_demand) in
      let shelf_life_risk := Py.max 0 (inject_Z (14 - shelf_life) / 14) in
      let horizon_days := Py.len daily_stock in
      let horizon_risk :=
        Py.max 0 (inject_Z (horizon_days - shelf_life)
                  / inject_Z (Z.max horizon_days 1)) in
      let wastage_risk :=
        excess_ratio * (5 # 10) + shelf_life_risk * (3 # 10)
        + horizon_risk * (2 # 10) in
      Py.min 1 wastage_risk
  end.

(** [_determine_stock_status(recommended_stock, predicted_demand, shelf_life)]. *)
Definition _determine_stock_status
    (recommended_stock predicted_demand : Q) (shelf_life : Z) : StockStatus :=
  if Qeq_bool predicted_demand 0 then
    (if Qeq_bool recommended_stock 0 then optimal else overstock)
  else
    let stock_ratio := recommended_stock / predicted_demand in
    let '(understock_threshold, overstock_threshold) :=
      if (shelf_life <=? 3)%Z then (9 # 10, 12 # 10)
      else if (shelf_life <=? 7)%Z then (85 # 100, 13 # 10)
      else (8 # 10, 14 # 10) in
    if Py.Qltb stock_ratio understock_threshold then understock
    else if Py.Qltb overstock_threshold stock_ratio then overstock
    else optimal.

(** ** The classifier on doubles *)

(** Binary64 arithmetic, round to nearest, ties to even, for the values of
    the normal range (no overflow, no subnormal number).  A double is the
    rational it stands for. *)
Module IEEE.

(** [2 ** e]. *)
Definition pow2 (e : Z) : Q := 2 ^ e.

(** The binary exponent [k] of a positive rational: [2^k <= x < 2^(k+1)]. *)
Definition exponent (x : Q) : Z :=
  let k := (Z.log2 (Qnum x) - Z.log2 (Zpos (Qden x)))%Z in
  if Qle_bool (pow2 k) x then k else (k - 1)%Z.

(** The double nearest to [x]: 53 significant bits. *)
Definition to_double (x : Q) : Q :=
  if Qeq_bool x 0 then 0
  else
    let ulp := pow2 (exponent (Qabs x) - 52) in
    Qred (inject_Z (Py.round_half_even (x / ulp)) * ulp).

(** A float literal such as [0.85]: the double nearest to its decimal value. *)
Definition literal (decimal : Q) : Q := to_double decimal.

(** [a / b] on two doubles, [b] not zero: the exact quotient, rounded. *)
Definition div (a b : Q) : Q := to_double (a / b).

(** [_determine_stock_status(recommended_stock, predicted_demand, shelf_life)]
    on two doubles. *)
Definition _determine_stock_status
    (recommended_stock predicted_demand : Q) (shelf_life : Z) : StockStatus :=
  if Qeq_bool predicted_demand 0 then
    (if Qeq_bool recommended_stock 0 then optimal else overstock)
  else
    let stock_ratio := div recommended_stock predicted_demand in
    let '(understock_threshold, overstock_threshold) :=
      if (shelf_life <=? 3)%Z then (literal (9 # 10), literal (12 # 10))
      else if (shelf_life <=? 7)%Z then (literal (85 # 100), literal (13 # 10))
      else (literal (8 # 10), literal (14 # 10)) in
    if Py.Qltb stock_ratio understock_threshold then understock
    else if Py.Qltb overstock_threshold stock_ratio then overstock
    else optimal.

End IEEE.

Section Allocator.

(** [numpy.std], whatever it computes. *)
Variable np_std : list Q -> Q.

Definition avg_demand (daily_forecast : list Q) : Q :=
  Py.sum daily_forecast / inject_Z (Py.len daily_forecast).

Definition demand_std (daily_forecast : list Q) : Q :=
  if (1 <? Py.len daily_forecast)%Z then np_std daily_forecast
  else avg_demand daily_forecast * (2 # 10).

Definition safety_stock_factor (daily_forecast : list Q) : Q :=
  Py.min (5 # 10)
         (demand_std daily_forecast / Py.max (avg_demand daily_forecast) 1).

Definition shelf_life_factor (shelf_life : Z) : Q :=
  Py.max (1 # 10) (Py.min 1 (inject_Z shelf_life / 30)).

(** The body of the loop [for day in range(n_days)]: the value appended to
    [daily_stock] for [day].  [avg_demand] and [safety_stock_factor] are the
    locals computed before the loop. *)
Definition loop_body (daily_forecast : list Q) (avg_demand safety_stock_factor : Q)
    (shelf_life : Z) (day : nat) : Q :=
  let in_forecast := (Z.of_nat day <? Py.len daily_forecast)%Z in
  let day_demand := if in_forecast then nth day daily_forecast 0 else avg_demand in
  let base_stock := day_demand in
  let shelf_life_factor := shelf_life_factor shelf_life in
  let safety_stock := base_stock * safety_stock_factor * shelf_life_factor in
  let base_stock :=
    if in_forecast then
      if Py.Qltb (avg_demand * (12 # 10)) day_demand then base_stock * (11 # 10)
      else if Py.Qltb day_demand (avg_demand * (8 # 10)) then base_stock * (9 # 10)
      else base_stock
    else base_stock in
  let recommended_stock := base_stock + safety_stock in
  Py.max 0 (Py.round recommended_stock 2).

(** The local variables [daily_stock], [total_stock], [wastage_risk] and
    [service_level] once the loop has run (lines 136-142). *)
Definition before_correction
    (daily_forecast : list Q) (shelf_life n_days : Z) : Allocation :=
  let total_demand := Py.sum daily_forecast in
  let daily_stock :=
    map (loop_body daily_forecast (avg_demand daily_forecast)
           (safety_stock_factor daily_forecast) shelf_life)
        (Py.range n_days) in
  let total_stock := Py.sum daily_stock in
  let wastage_risk := _calculate_wastage_risk daily_stock daily_forecast shelf_life in
  let service_level := Py.min 100 (total_stock / Py.max total_demand 1 * 100) in
  mkAllocation daily_stock total_stock wastage_risk service_level.

(** The branch [if service_level < 80] (lines 145-150). *)
Definition correction
    (daily_forecast : list Q) (shelf_life : Z) (a : Allocation) : Allocation :=
  if Py.Qltb (service_level a) 80 then
    let total_demand := Py.sum daily_forecast in
    let adjustment_factor := 80 / Py.max (service_level a) 1 in
    let daily_stock := map (fun stock => stock * adjustment_factor) (daily_stock a) in
    let total_stock := Py.sum daily_stock in
    let service_level := Py.min 100 (total_stock / Py.max total_demand 1 * 100) in
    let wastage_risk := _calculate_wastage_risk daily_stock daily_forecast shelf_life in
    mkAllocation daily_stock total_stock wastage_risk service_level
  else a.

(** The returned dictionary (lines 152-157). *)
Definition rounded (a : Allocation) : Allocation :=
  mkAllocation (map (fun stock => Py.round stock 2) (daily_stock a))
               (Py.round (total_stock a) 2)
               (Py.round (wastage_risk a) 3)
               (Py.round (service_level a) 2).

(** [_optimize_single_product(daily_forecast, shelf_life, horizon, product_id)];
    [product_id] is not used by the body. *)
Definition _optimize_single_product
    (daily_forecast : list Q) (shelf_life horizon : Z) : Allocation :=
  let n_days := Z.min horizon (Py.len daily_forecast) in
  if (n_days =? 0)%Z || match daily_forecast with [] => true | _ => false end then
    mkAllocation (Py.replicate 0 (Z.max 1 n_days)) 0 0 0
  else
    rounded (correction daily_forecast shelf_life
               (before_correction daily_forecast shelf_life n_days)).

End Allocator.

(** The allocator run with the population standard deviation. *)
Definition allocate := _optimize_single_product population_std.

(** What a standard deviation does when one value [x] of a series is raised
    to [y], the others kept: it stays non-negative, it does not fall if [x]
    and [y] together are at or above the two means, and it never falls by
    more than half the raise.  [mean] and [std] belong to the series with
    [x], [mean'] and [std'] to the series with [y]. *)
Definition follows_raise (x y mean mean' std std' : Q) : Prop :=
  0 <= std /\ 0 <= std' /\
  (mean + mean' <= x + y -> std <= std') /\
  std - std' <= (y - x) / 2.

(** ** The specification's step 5 *)

(** The daily stock as the specification words it: the safety stock is taken
    from the base stock after its peak or trough adjustment. *)
Definition spec_step5 (avg_demand safety_stock_factor shelf_life_factor day_demand : Q) : Q :=
  let base_stock :=
    if Py.Qltb (avg_demand * (12 # 10)) day_demand then day_demand * (11 # 10)
    else if Py.Qltb day_demand (avg_demand * (8 # 10)) then day_demand * (9 # 10)
    else day_demand in
  let safety_stock := base_stock * safety_stock_factor * shelf_life_factor in
  Py.max 0 (Py.round (base_stock + safety_stock) 2).

(** The daily stock with the safety stock taken from the day's demand before
    the adjustment of the base stock. *)
Definition step5 (avg_demand safety_stock_factor shelf_life_factor day_demand : Q) : Q :=
  let safety_stock := day_demand * safety_stock_factor * shelf_life_factor in
  let base_stock :=
    if Py.Qltb (avg_demand * (12 # 10)) day_demand then day_demand * (11 # 10)
    else if Py.Qltb day_demand (avg_demand * (8 # 10)) then day_demand * (9 # 10)
    else day_demand in
  Py.max 0 (Py.round (base_stock + safety_stock) 2).

(** ** The plan operation: routes/plan.py over StockOptimizer and DemandForecaster *)

Module Plan.

Import String.

(** *** Exceptions *)

Inductive Exn := FileNotFoundError | OtherException.

Definition result (A : Type) : Type := Exn + A.

Definition bind {A B} (r : result A) (k : A -> result B) : result B :=
  match r with
  | inl e => inl e
  | inr a => k a
  end.

Notation "x <- r ;; k" := (bind r (fun x => k))
  (at level 61, r at next level, right associativity).

(** *** The files under data/ and models/ *)

(** A row of data/products.csv; the two optional columns may be missing. *)
Record Product := mkProduct {
  product_id : string;
  product_name : option string;
  shelf_life_days : option Z
}.

(** The fitted regressor: its prediction for a product and a day offset,
    [None] when [model.predict] raises. *)
Definition Model := string -> nat -> option Q.

(** [None] is a file that does not exist.  [fit] is what [XGBRegressor.fit]
    produces from the two data files, [None] when [train_model] raises its
    [ValueError] (columns missing, fewer than ten samples). *)
Record Files := mkFiles {
  products_csv : option (list Product);
  sales_csv : option (list (string * Q));
  model_pkl : option Model;
  fit : option Model
}.

Definition read_products (fs : Files) : result (list Product) :=
  match products_csv fs with
  | None => inl FileNotFoundError
  | Some rows => inr rows
  end.

(** *** DemandForecaster *)

Definition train_model (fs : Files) : result Model :=
  match sales_csv fs, products_csv fs with
  | Some _, Some _ =>
    match fit fs with
    | Some m => inr m
    | None => inl OtherException
    end
  | _, _ => inl FileNotFoundError
  end.

(** [load_model]: a missing pickle leads to training, whose exception is
    raised again by the handler's second attempt. *)
Definition load_model (fs : Files) : result Model :=
  match model_pkl fs with
  | Some m => inr m
  | None => train_model fs
  end.

(** [sales_df.groupby('product_id')['quantity_sold'].mean()] read with
    [.get(product_id, 30.0)]. *)
Definition historical_avg (fs : Files) (pid : string) : Q :=
  match sales_csv fs with
  | None => 30
  | Some rows =>
    match map snd (filter (fun r => String.eqb (fst r) pid) rows) with
    | [] => 30
    | qs => Py.sum qs / inject_Z (Py.len qs)
    end
  end.

Definition lookup (rows : list Product) (pid : string) : option Product :=
  find (fun p => String.eqb (product_id p) pid) rows.

Record Forecast := mkForecast {
  daily_forecast : list Q;
  total_forecast : Q
}.

(** A Python dict keyed by product id. *)
Definition dict (V : Type) := list (string * V).

Definition dict_set {V} (k : string) (v : V) (d : dict V) : dict V :=
  (k, v) :: filter (fun kv => negb (String.eqb (fst kv) k)) d.

Definition dict_get {V} (k : string) (d : dict V) : option V :=
  option_map snd (find (fun kv => String.eqb (fst kv) k) d).

Definition daily_predictions (fs : Files) (m : Model) (pid : string) (days_ahead : Z)
    : list Q :=
  map (fun day =>
         match m pid day with
         | Some pred => Py.max 0 (Py.round pred 2)
         | None => Py.max 0 (Py.round (historical_avg fs pid) 2)
         end)
      (Py.range days_ahead).

(** One turn of the loop over [product_ids]: an id without a row in the
    products data is skipped, any other gets its entry in [predictions]. *)
Definition predict_product (fs : Files) (m : Model) (products_df : list Product)
    (days_ahead : Z) (predictions : dict Forecast) (pid : string) : dict Forecast :=
  match lookup products_df pid with
  | None => predictions
  | Some _ =>
    let daily := daily_predictions fs m pid days_ahead in
    dict_set pid (mkForecast daily (Py.sum daily)) predictions
  end.

Definition predict_demand (fs : Files) (product_ids : list string) (days_ahead : Z)
    : result (dict Forecast) :=
  m <- load_model fs ;;
  products_df <- read_products fs ;;
  inr (fold_left (predict_product fs m products_df days_ahead) product_ids []).

(** *** StockOptimizer.optimize_stock_plan *)

(** An entry of [stock_plan]; [recommendations] and [cost_analysis], which
    are texts and amounts derived from the fields below, are left out. *)
Record PlanRecord := mkPlanRecord {
  rec_product_id : string;
  rec_product_name : string;
  rec_shelf_life_days : Z;
  rec_predicted_demand : Q;
  rec_recommended_stock : Q;
  rec_daily_stock_plan : list Q;
  rec_stock_status : StockStatus;
  rec_wastage_risk : Q;
  rec_service_level : Q
}.

(** [Series.unique()]: first occurrences, in order. *)
Fixpoint unique (l : list string) : list string :=
  match l with
  | [] => []
  | x :: r => x :: filter (fun y => negb (String.eqb x y)) (unique r)
  end.

Definition plan_record (p : Product) (f : Forecast) (planning_horizon : Z) : PlanRecord :=
  let shelf_life := match shelf_life_days p with Some d => d | None => 7%Z end in
  let optimized_plan :=
    _optimize_single_product population_std (daily_forecast f) shelf_life planning_horizon in
  let stock_status :=
    _determine_stock_status (total_stock optimized_plan) (total_forecast f) shelf_life in
  mkPlanRecord
    (product_id p)
    (match product_name p with
     | Some n => n
     | None => String.append "Product "%string (product_id p)
     end)
    shelf_life
    (Py.round (total_forecast f) 2)
    (total_stock optimized_plan)
    (daily_stock optimized_plan)
    stock_status
    (wastage_risk optimized_plan)
    (service_level optimized_plan).

(** The loop over [product_ids]: an id is skipped when it has no prediction
    or no row in the products data. *)
Definition stock_plan_loop (predictions : dict Forecast) (products_df : list Product)
    (planning_horizon : Z) (product_ids : list string) : list PlanRecord :=
  flat_map
    (fun pid =>
       match dict_get pid predictions with
       | None => []
       | Some f =>
         match lookup products_df pid with
         | None => []
         | Some p => [plan_record p f planning_horizon]
         end
       end)
    product_ids.

(** [optimize_stock_plan(product_ids, planning_horizon)]; of the returned
    dictionary only [stock_plan] is kept ([total_products] is its length and
    [summary] aggregates it). *)
Definition optimize_stock_plan (fs : Files) (product_ids : option (list string))
    (planning_horizon : Z) : result (list PlanRecord) :=
  product_ids <-
    match product_ids with
    | None =>
      products_df <- read_products fs ;;
      inr (firstn 10 (unique (map product_id products_df)))
    | Some ids => inr ids
    end ;;
  predictions <- predict_demand fs product_ids planning_horizon ;;
  products_df <- read_products fs ;;
  inr (stock_plan_loop predictions products_df planning_horizon product_ids).

(** *** The route POST /plan *)

(** The JSON body: both keys are optional. *)
Record Request := mkRequest {
  req_product_ids : option (list string);
  req_planning_horizon : option Z
}.

Inductive Response :=
| Created (stock_plan : list PlanRecord)   (* 200 *)
| BadRequest                               (* 400 *)
| NotFound                                 (* 404 *)
| ServerError.                             (* 500 *)


(** [make_json_serializable] on a record: every float is rounded to two
    decimals. *)
Definition make_json_serializable (r : PlanRecord) : PlanRecord :=
  mkPlanRecord
    (rec_product_id r) (rec_product_name r) (rec_shelf_life_days r)
    (Py.round (rec_predicted_demand r) 2)
    (Py.round (rec_recommended_stock r) 2)
    (map (fun x => Py.round x 2) (rec_daily_stock_plan r))
    (rec_stock_status r)
    (Py.round (rec_wastage_risk r) 2)
    (Py.round (rec_service_level r) 2).


End Plan.

(** ** Recommendations, costs and summary (optimizer.py, lines 210-287) *)

Module Report.
Import String.

(** [int(x)]: truncation toward zero. *)
Definition py_int (x : Q) : Z := Z.quot (Qnum x) (Zpos (Qden x)).

(** [str(n)] of an integer, as an f-string prints it. *)
Definition str (n : Z) : string := DecimalString.NilZero.string_of_int (Z.to_int n).

(** [sum([30] * len(optimized_plan['daily_stock']))]. *)
Definition baseline (optimized_plan : Allocation) : Q :=
  Py.sum (Py.replicate 30 (Py.len (daily_stock optimized_plan))).

(** [_generate_recommendations(optimized_plan, stock_status, shelf_life,
    product_info)]; [product_info] is not used by the body.  The three
    groups are appended in this order and the first four entries kept. *)
Definition _generate_recommendations
    (optimized_plan : Allocation) (stock_status : StockStatus) (shelf_life : Z)
    : list string :=
  let recommendations :=
    match stock_status with
    | overstock =>
      [("Consider reducing order quantity by "
        ++ str (Z.max 5 (py_int ((total_stock optimized_plan - baseline optimized_plan) / 2)))
        ++ " units")%string]
      ++ (if (shelf_life <=? 7)%Z
          then ["Monitor closely for spoilage due to short shelf life"%string]
          else [])
      ++ ["Consider promotional pricing to move excess inventory"%string]
    | understock =>
      let deficit :=
        Z.max 10 (py_int (baseline optimized_plan - total_stock optimized_plan)) in
      [("Increase order quantity by approximately " ++ str deficit ++ " units")%string;
       "Monitor sales closely to avoid stockouts"%string]
    | optimal =>
      ["Stock level appears optimal for forecasted demand"%string]
      ++ (if Py.Qltb (3 # 10) (wastage_risk optimized_plan)
          then ["Monitor inventory turnover to minimize waste"%string]
          else [])
    end in
  let recommendations :=
    recommendations
    ++ (if (shelf_life <=? 3)%Z then
          ["Use FIFO (First In, First Out) inventory management"%string;
           "Consider daily delivery for very perishable items"%string]
        else if (shelf_life <=? 7)%Z then
          ["Implement proper cold chain management"%string]
        else []) in
  let recommendations :=
    recommendations
    ++ (if Py.Qltb (service_level optimized_plan) 90 then
          ["Consider increasing safety stock to improve service level"%string]
        else if Py.Qltb 120 (service_level optimized_plan) then
          ["Review forecasting accuracy - may be over-forecasting"%string]
        else []) in
  firstn 4 recommendations.

Record Costs := mkCosts {
  estimated_inventory_value : Q;
  weekly_holding_cost : Q;
  potential_spoilage_cost : Q;
  total_cost_risk : Q
}.

(** [_calculate_costs(optimized_plan, product_info)]; [product_info] is not
    used by the body. *)
Definition _calculate_costs (optimized_plan : Allocation) : Costs :=
  let unit_cost := 5 in
  let holding_cost_rate := 2 # 100 in
  let spoilage_cost_rate := wastage_risk optimized_plan in
  let total_stock := total_stock optimized_plan in
  let inventory_value := total_stock * unit_cost in
  let holding_cost := inventory_value * holding_cost_rate * 7 in
  let potential_spoilage_cost := inventory_value * spoilage_cost_rate in
  mkCosts (Py.round inventory_value 2)
          (Py.round holding_cost 2)
          (Py.round potential_spoilage_cost 2)
          (Py.round (holding_cost + potential_spoilage_cost) 2).

(** The dictionary [status_counts], in insertion order. *)
Definition status_eqb (a b : StockStatus) : bool :=
  match a, b with
  | understock, understock | optimal, optimal | overstock, overstock => true
  | _, _ => false
  end.

(** [status_counts.get(status, 0)]. *)
Fixpoint counts_get (status : StockStatus) (counts : list (StockStatus * Z)) : Z :=
  match counts with
  | [] => 0%Z
  | (s, n) :: rest => if status_eqb s status then n else counts_get status rest
  end.

(** [status_counts[status] = n]: in place for a key already there, at the
    end for a new one. *)
Fixpoint counts_set (status : StockStatus) (n : Z) (counts : list (StockStatus * Z))
    : list (StockStatus * Z) :=
  match counts with
  | [] => [(status, n)]
  | (s, m) :: rest =>
    if status_eqb s status then (s, n) :: rest
    else (s, m) :: counts_set status n rest
  end.

Definition count_statuses (stock_plan : list Plan.PlanRecord) : list (StockStatus * Z) :=
  fold_left
    (fun status_counts item =>
       let status := Plan.rec_stock_status item in
       counts_set status (counts_get status status_counts + 1)%Z status_counts)
    stock_plan [].

(** The summary; [optimization_date], the clock's reading, is left out. *)
Record Summary := mkSummary {
  total_recommended_stock : Q;
  total_predicted_demand : Q;
  overall_service_level : Q;
  average_wastage_risk : Q;
  stock_status_distribution : list (StockStatus * Z)
}.

(** [_generate_summary(stock_plan)]; [None] is the empty dictionary. *)
Definition _generate_summary (stock_plan : list Plan.PlanRecord) : option Summary :=
  match stock_plan with
  | [] => None
  | _ =>
    let total_stock := Py.sum (map Plan.rec_recommended_stock stock_plan) in
    let total_demand := Py.sum (map Plan.rec_predicted_demand stock_plan) in
    let avg_service_level :=
      Py.sum (map Plan.rec_service_level stock_plan) / inject_Z (Py.len stock_plan) in
    let avg_wastage_risk :=
      Py.sum (map Plan.rec_wastage_risk stock_plan) / inject_Z (Py.len stock_plan) in
    Some (mkSummary (Py.round total_stock 2)
                    (Py.round total_demand 2)
                    (Py.round avg_service_level 2)
                    (Py.round avg_wastage_risk 3)
                    (count_statuses stock_plan))
  end.

End Report.

(** ** The route POST /predict (routes/predict.py) *)

Module PredictRoute.
Import String Plan.

(** The JSON body: both keys are optional; a missing [product_ids] reads as
    the empty list. *)
Record Request := mkRequest {
  req_product_ids : option (list string);
  req_days_ahead : option Z
}.

Inductive Response :=
| Predicted (predictions : dict Forecast)  (* 200 *)
| BadRequest                               (* 400 *)
| NotFound                                 (* 404 *)
| ServerError.                             (* 500 *)

(** [make_json_serializable] on the entry of a product: every float is
    rounded to two decimals. *)
Definition make_json_serializable (f : Forecast) : Forecast :=
  mkForecast (map (fun x => Py.round x 2) (daily_forecast f))
             (Py.round (total_forecast f) 2).

Definition predict_demand (fs : Files) (data : Request) : Response :=
  let product_ids := match req_product_ids data with Some l => l | None => [] end in
  let days_ahead := match req_days_ahead data with Some d => d | None => 7%Z end in
  let defaulted :=
    match product_ids with
    | [] =>
      match products_csv fs with
      | None => None
      | Some products_df => Some (firstn 10 (unique (map product_id products_df)))
      end
    | _ => Some product_ids
    end in
  match defaulted with
  | None => BadRequest
  | Some [] => BadRequest
  | Some product_ids =>
    match Plan.predict_demand fs product_ids days_ahead with
    | inl FileNotFoundError => NotFound
    | inl OtherException => ServerError
    | inr [] => ServerError
    | inr predictions =>
      Predicted (map (fun kv : string * Forecast =>
                        let (pid, preds) := kv in (pid, make_json_serializable preds))
                     predictions)
    end
  end.

End PredictRoute.

(** ** The upload route (routes/upload.py) *)

Module Upload.
Import String Ascii.

Definition ALLOWED_EXTENSIONS : list string := ["csv"%string].

(** ['.' in s]. *)
Fixpoint contains_dot (s : string) : bool :=
  match s with
  | EmptyString => false
  | String c rest => Ascii.eqb c "." || contains_dot rest
  end.

(** [s.rsplit('.', 1)]: the text before and the text after the last dot, or
    [s] alone when it has no dot. *)
Fixpoint rsplit_dot (s : string) : list string :=
  match s with
  | EmptyString => [EmptyString]
  | String c rest =>
    match rsplit_dot rest with
    | [head; tail] => [String c head; tail]
    | _ => if Ascii.eqb c "." then [EmptyString; rest] else [String c rest]
    end
  end.

(** [c.lower()] on a letter A-Z; any other byte is kept. *)
Definition lower_char (c : ascii) : ascii :=
  let n := nat_of_ascii c in
  if (65 <=? n)%nat && (n <=? 90)%nat then ascii_of_nat (n + 32) else c.

(** [s.lower()]. *)
Fixpoint lower (s : string) : string :=
  match s with
  | EmptyString => EmptyString
  | String c rest => String (lower_char c) (lower rest)
  end.

(** [allowed_file(filename)]. *)
Definition allowed_file (filename : string) : bool :=
  contains_dot filename
  && match nth_error (rsplit_dot filename) 1 with
     | Some extension => existsb (String.eqb (lower extension)) ALLOWED_EXTENSIONS
     | None => false
     end.

(** A parsed CSV: its header and its rows. *)
Record DataFrame := mkDataFrame {
  columns : list string;
  rows : list (list string)
}.

Definition required_columns : list (string * list string) :=
  [("sales"%string,
    ["date"; "product_id"; "quantity_sold"; "day_of_week"; "promotion"]%string);
   ("products"%string,
    ["product_id"; "product_name"; "shelf_life_days"; "category"]%string);
   ("weather"%string,
    ["date"; "temperature"; "humidity"; "precipitation"]%string)].

(** The pair returned by [validate_csv_structure]; the message of a failure
    is kept as its cause. *)
Inductive Validation :=
| Valid
| UnknownFileType
| MissingColumns (missing_cols : list string).

(** [validate_csv_structure(df, file_type)]. *)
Definition validate_csv_structure (df : DataFrame) (file_type : string) : Validation :=
  match find (fun entry => String.eqb (fst entry) file_type) required_columns with
  | None => UnknownFileType
  | Some (_, required) =>
    match filter (fun col => negb (existsb (String.eqb col) (columns df))) required with
    | [] => Valid
    | missing_cols => MissingColumns missing_cols
    end
  end.

(** An entry of [request.files]; [stream] is what [pd.read_csv] parses,
    [None] when it raises. *)
Record FileStorage := mkFileStorage {
  filename : string;
  stream : option DataFrame
}.

(** The upload folder, by file name. *)
Definition Folder := string -> option DataFrame.

(** [df.to_csv(filepath, index=False)]. *)
Definition to_csv (folder : Folder) (name : string) (df : DataFrame) : Folder :=
  fun n => if String.eqb n name then Some df else folder n.

Record FileInfo := mkFileInfo {
  info_filename : string;
  info_rows : Z;
  info_columns : list string
}.

(** The causes of a 400 answer. *)
Inductive Rejection :=
| InvalidFileType (file_type : string)
| InvalidStructure (file_type : string) (v : Validation)
| ProcessingError (file_type : string)
| NoValidFiles.

(** The loop over the three file types: the answer, when the loop returns
    one, or the files uploaded so far, and the folder as the loop leaves it. *)
Fixpoint upload_loop (file_types : list string) (files : string -> option FileStorage)
    (folder : Folder) (uploaded_files : list (string * FileInfo))
    : (Rejection + list (string * FileInfo)) * Folder :=
  match file_types with
  | [] => (inr uploaded_files, folder)
  | file_type :: rest =>
    match files file_type with
    | None => upload_loop rest files folder uploaded_files
    | Some file =>
      if String.eqb (filename file) "" then upload_loop rest files folder uploaded_files
      else if negb (allowed_file (filename file)) then (inl (InvalidFileType file_type), folder)
      else
        match stream file with
        | None => (inl (ProcessingError file_type), folder)
        | Some df =>
          match validate_csv_structure df file_type with
          | Valid =>
            let name := (file_type ++ ".csv")%string in
            upload_loop rest files (to_csv folder name df)
              (uploaded_files
               ++ [(file_type, mkFileInfo name (Py.len (rows df)) (columns df))])
          | v => (inl (InvalidStructure file_type v), folder)
          end
        end
    end
  end.

Inductive Response :=
| Uploaded (uploaded_files : list (string * FileInfo))  (* 200 *)
| Rejected (cause : Rejection).                         (* 400 *)

(** [upload_files()]: the answer and the folder afterwards. *)
Definition upload_files (files : string -> option FileStorage) (folder : Folder)
    : Response * Folder :=
  match upload_loop ["sales"; "products"; "weather"]%string files folder [] with
  | (inl cause, folder) => (Rejected cause, folder)
  | (inr [], folder) => (Rejected NoValidFiles, folder)
  | (inr uploaded_files, folder) => (Uploaded uploaded_files, folder)
  end.

(** What an entry of [uploaded_files] reports: the file of that type was
    parsed, found valid and is in the folder under its name, with the rows
    and columns reported. *)
Definition stored (files : string -> option FileStorage) (folder : Folder)
    (file_type : string) (info : FileInfo) : Prop :=
  exists file df,
    files file_type = Some file /\
    stream file = Some df /\
    validate_csv_structure df file_type = Valid /\
    folder (file_type ++ ".csv")%string = Some df /\
    info = mkFileInfo (file_type ++ ".csv")%string (Py.len (rows df)) (columns df).

End Upload.

(** ** make_json_serializable (routes/plan.py and routes/predict.py) *)

Module Json.
Import String.

(** The Python values the function tells apart.  [Str] and [NoneValue] are
    the JSON values it has no branch for.  [Unhandled] is any other object
    without a branch, named by its type: a NumPy scalar of another width
    ([np.int16], [np.float16]), [np.bool_], a date.  All three fall through
    to [return obj] at line 27. *)
#[warnings="-register-all"]
Inductive value :=
| NpFloat (x : Q)
| Float (x : Q)
| NpInt (n : Z)
| Int (n : Z)
| NdArray (items : list value)
| List (items : list value)
| Tuple (items : list value)
| Dict (entries : list (string * value))
| Str (s : string)
| NoneValue
| Unhandled (type_name : string).

Fixpoint make_json_serializable (obj : value) : value :=
  match obj with
  | NpFloat x => Float (Py.round x 2)
  | Float x => Float (Py.round x 2)
  | NpInt n => Int n
  | Int n => Int n
  | NdArray items => List (map make_json_serializable items)
  | List items | Tuple items => List (map make_json_serializable items)
  | Dict entries =>
    Dict (map (fun kv : string * value =>
                 let (k, v) := kv in (k, make_json_serializable v))
              entries)
  | Str _ | NoneValue | Unhandled _ => obj
  end.

(** Values made of JSON types only, every float with at most two decimals. *)
Fixpoint serializable (obj : value) : bool :=
  match obj with
  | Float x => Qeq_bool (Py.round x 2) x
  | Int _ | Str _ | NoneValue => true
  | List items => forallb serializable items
  | Dict entries => forallb (fun kv : string * value => let (_, v) := kv in serializable v) entries
  | NpFloat _ | NpInt _ | NdArray _ | Tuple _ | Unhandled _ => false
  end.


End Json.

(** ** The product list (routes/products.py, lines 13-64) *)

Module Products.
Import String.

(** The products data as read from the CSV file: a cell is the value as
    [str] prints it, [None] is NaN. *)
Record DataFrame := mkDataFrame {
  columns : list string;
  rows : list (list (option string))
}.

Definition possible_columns : list string :=
  ["product_id"; "Product_ID"; "ProductID"; "product"; "Product"; "id"; "ID"]%string.

(** The loop that picks the first possible column present in the data. *)
Definition product_column (df : DataFrame) : option string :=
  find (fun col => existsb (String.eqb col) (columns df)) possible_columns.

(** The position of a column in the header. *)
Fixpoint position (col : string) (header : list string) : nat :=
  match header with
  | [] => O
  | c :: rest => if String.eqb c col then O else S (position col rest)
  end.

(** [df[col]]. *)
Definition series (df : DataFrame) (col : string) : list (option string) :=
  map (fun row => nth (position col (columns df)) row None) (rows df).

Definition cell_eqb (a b : option string) : bool :=
  match a, b with
  | Some x, Some y => String.eqb x y
  | None, None => true
  | _, _ => false
  end.

(** [Series.unique()]: first occurrences, in order; NaN counts as a value. *)
Fixpoint unique (l : list (option string)) : list (option string) :=
  match l with
  | [] => []
  | x :: rest => x :: filter (fun y => negb (cell_eqb x y)) (unique rest)
  end.

(** [[str(prod) for prod in l if pd.notna(prod)]]. *)
Definition notna_str (l : list (option string)) : list string :=
  flat_map (fun prod => match prod with Some s => [s] | None => [] end) l.

(** [list.sort()] on strings: the ascending arrangement, here reached by
    insertion. *)
Fixpoint insert (x : string) (l : list string) : list string :=
  match l with
  | [] => [x]
  | y :: rest => if String.leb x y then x :: y :: rest else y :: insert x rest
  end.

Definition sort (l : list string) : list string := fold_right insert [] l.

Inductive Response :=
| Retrieved (products : list string) (total_count : Z)  (* 200 *)
| NotFound                                              (* 404 *)
| ServerError.                                          (* 500 *)

(** [get_available_products()]; [file] is data/products.csv, [None] when it
    does not exist. *)
Definition get_available_products (file : option DataFrame) : Response :=
  match file with
  | None => NotFound
  | Some df =>
    match product_column df with
    | None => ServerError
    | Some product_column =>
      let unique_products := unique (series df product_column) in
      let unique_products := sort (notna_str unique_products) in
      Retrieved unique_products (Py.len unique_products)
    end
  end.

End Products.

(** ** Facts about the Python built-ins *)

Module PyFacts.
Import Py.

Lemma Qltb_lt a b : Qltb a b = true <-> a < b.
Proof.
  unfold Qltb. rewrite negb_true_iff, <- not_true_iff_false, Qle_bool_iff.
  split; [apply Qnot_le_lt | apply Qlt_not_le].
Qed.

Lemma Qltb_ge a b : Qltb a b = false <-> b <= a.
Proof.
  unfold Qltb. rewrite negb_false_iff. apply Qle_bool_iff.
Qed.

Lemma Qeq_bool_false x y : ~ x == y -> Qeq_bool x y = false.
Proof.
  intros H. destruct (Qeq_bool x y) eqn:E; [|reflexivity].
  apply Qeq_bool_eq in E. contradiction.
Qed.

Lemma max_spec a b : (a < b /\ max a b = b) \/ (b <= a /\ max a b = a).
Proof.
  unfold max. destruct (Qltb a b) eqn:E.
  - left. split; [now apply Qltb_lt | reflexivity].
  - right. split; [now apply Qltb_ge | reflexivity].
Qed.

Lemma min_spec a b : (b < a /\ min a b = b) \/ (a <= b /\ min a b = a).
Proof.
  unfold min. destruct (Qltb b a) eqn:E.
  - left. split; [now apply Qltb_lt | reflexivity].
  - right. split; [now apply Qltb_ge | reflexivity].
Qed.

Lemma max_l a b : a <= max a b.
Proof. destruct (max_spec a b) as [[H ->] | [H ->]]; lra. Qed.

Lemma max_r a b : b <= max a b.
Proof. destruct (max_spec a b) as [[H ->] | [H ->]]; lra. Qed.

Lemma min_l a b : min a b <= a.
Proof. destruct (min_spec a b) as [[H ->] | [H ->]]; lra. Qed.

Lemma min_r a b : min a b <= b.
Proof. destruct (min_spec a b) as [[H ->] | [H ->]]; lra. Qed.

Lemma min_glb c a b : c <= a -> c <= b -> c <= min a b.
Proof. intros. destruct (min_spec a b) as [[H1 ->] | [H1 ->]]; lra. Qed.

Lemma max_lub c a b : a <= c -> b <= c -> max a b <= c.
Proof. intros. destruct (max_spec a b) as [[H1 ->] | [H1 ->]]; lra. Qed.

Lemma max_mono_r a b c : b <= c -> max a b <= max a c.
Proof.
  intros. destruct (max_spec a b) as [[H1 ->] | [H1 ->]];
    destruct (max_spec a c) as [[H2 ->] | [H2 ->]]; lra.
Qed.

(** *** sum *)

Lemma fold_left_Qplus l : forall a, fold_left Qplus l a == a + sum l.
Proof.
  unfold sum. induction l as [|x l IH]; intros a; simpl.
  - lra.
  - rewrite (IH (a + x)), (IH (0 + x)). lra.
Qed.

Lemma sum_cons x l : sum (x :: l) == x + sum l.
Proof. unfold sum at 1. simpl. rewrite fold_left_Qplus. lra. Qed.

Lemma sum_nil : sum [] = 0.
Proof. reflexivity. Qed.

Lemma sum_nonneg l : Forall (fun x => 0 <= x) l -> 0 <= sum l.
Proof.
  induction 1 as [|x l Hx Hl IH].
  - rewrite sum_nil. lra.
  - rewrite sum_cons. lra.
Qed.

Lemma sum_Forall2_le l1 l2 : Forall2 Qle l1 l2 -> sum l1 <= sum l2.
Proof.
  induction 1 as [|x y l1 l2 Hxy Hl IH].
  - lra.
  - rewrite !sum_cons. lra.
Qed.

Lemma sum_Forall2_eq l1 l2 : Forall2 Qeq l1 l2 -> sum l1 == sum l2.
Proof.
  induction 1 as [|x y l1 l2 Hxy Hl IH].
  - reflexivity.
  - rewrite !sum_cons, Hxy, IH. reflexivity.
Qed.

(** *** round *)

Lemma round_half_even_cases x :
  (round_half_even x = Qfloor x /\ x - inject_Z (Qfloor x) <= 1 # 2) \/
  (round_half_even x = (Qfloor x + 1)%Z /\ 1 # 2 <= x - inject_Z (Qfloor x)).
Proof.
  unfold round_half_even.
  destruct (Qcompare_spec (x - inject_Z (Qfloor x)) (1 # 2)) as [E | E | E].
  - destruct (Z.even (Qfloor x)); [left | right]; split; auto; lra.
  - left. split; auto. lra.
  - right. split; auto. lra.
Qed.

Lemma round_half_even_near x :
  inject_Z (round_half_even x) - (1 # 2) <= x /\
  x <= inject_Z (round_half_even x) + (1 # 2).
Proof.
  pose proof (Qfloor_le x) as Hlo. pose proof (Qlt_floor x) as Hhi.
  rewrite inject_Z_plus in Hhi. change (inject_Z 1) with 1 in Hhi.
  destruct (round_half_even_cases x) as [[-> H] | [-> H]].
  - lra.
  - rewrite inject_Z_plus. change (inject_Z 1) with 1. lra.
Qed.

Lemma round_half_even_mono x y : x <= y -> (round_half_even x <= round_half_even y)%Z.
Proof.
  intros Hxy. pose proof (Qfloor_resp_le _ _ Hxy) as Hf.
  destruct (Z.eq_dec (Qfloor x) (Qfloor y)) as [Heq | Hne].
  - unfold round_half_even. rewrite <- Heq.
    destruct (Qcompare_spec (x - inject_Z (Qfloor x)) (1 # 2)) as [Ex | Ex | Ex];
      destruct (Qcompare_spec (y - inject_Z (Qfloor x)) (1 # 2)) as [Ey | Ey | Ey];
      try (exfalso; lra); destruct (Z.even (Qfloor x)); lia.
  - destruct (round_half_even_cases x) as [[-> _] | [-> _]];
      destruct (round_half_even_cases y) as [[-> _] | [-> _]]; lia.
Qed.

Lemma round_half_even_Z x k : x == inject_Z k -> round_half_even x = k.
Proof.
  intros H. unfold round_half_even.
  assert (Hf : Qfloor x = k) by (rewrite H; apply Qfloor_Z).
  rewrite Hf.
  assert (E : Qcompare (x - inject_Z k) (1 # 2) = Lt) by (rewrite <- Qlt_alt; lra).
  now rewrite E.
Qed.

Lemma scale_pos n : 0 < scale n.
Proof.
  unfold scale. replace 0 with (inject_Z 0) by reflexivity.
  rewrite <- Zlt_Qlt. apply Z.pow_pos_nonneg; lia.
Qed.

Lemma round_scaled x n : round x n * scale n == inject_Z (round_half_even (x * scale n)).
Proof.
  unfold round. pose proof (scale_pos n). field. lra.
Qed.

(** [round(x, n)] is within half a unit of the last kept digit of [x]. *)
Lemma round_near x n :
  Qabs (round x n - x) * scale n <= 1 # 2.
Proof.
  pose proof (scale_pos n) as Hs.
  pose proof (round_scaled x n) as Hr.
  pose proof (round_half_even_near (x * scale n)) as [Hlo Hhi].
  rewrite <- Hr in Hlo, Hhi.
  apply Qabs_case; intros _; lra.
Qed.

Lemma round_mono x y n : x <= y -> round x n <= round y n.
Proof.
  intros Hxy. pose proof (scale_pos n) as Hs.
  assert (H : round x n * scale n <= round y n * scale n).
  { rewrite !round_scaled, <- Zle_Qle. apply round_half_even_mono.
    apply Qmult_le_compat_r; lra. }
  apply Qmult_le_r in H; assumption.
Qed.

(** A number with at most [n] decimals is left unchanged. *)
Lemma round_fix x n k : x * scale n == inject_Z k -> round x n == x.
Proof.
  intros H. pose proof (scale_pos n) as Hs.
  assert (E : round x n * scale n == x * scale n).
  { rewrite round_scaled, (round_half_even_Z _ _ H), H. reflexivity. }
  apply Qmult_inj_r in E; [assumption | lra].
Qed.

Lemma round_decimal x n : has_decimals n (round x n).
Proof. eexists. apply round_scaled. Qed.

Lemma round_id x n : has_decimals n x -> round x n == x.
Proof. intros [k Hk]. exact (round_fix x n k Hk). Qed.

Lemma zero_decimal n : has_decimals n 0.
Proof. exists 0%Z. change (inject_Z 0) with 0. ring. Qed.

Lemma sum_decimal n l : Forall (has_decimals n) l -> has_decimals n (sum l).
Proof.
  induction 1 as [|x l [k Hk] _ [j Hj]].
  - apply zero_decimal.
  - exists (k + j)%Z. rewrite sum_cons, inject_Z_plus, <- Hk, <- Hj. ring.
Qed.

Lemma round_0 n : round 0 n == 0.
Proof. apply (round_fix 0 n 0). change (inject_Z 0) with 0. ring. Qed.

Lemma round_nonneg x n : 0 <= x -> 0 <= round x n.
Proof. intros H. rewrite <- (round_0 n). now apply round_mono. Qed.

Lemma nth_error_map_range {A} (f : nat -> A) n day :
  (Z.of_nat day < n)%Z -> nth_error (map f (range n)) day = Some (f day).
Proof.
  intros H. unfold range. rewrite nth_error_map.
  rewrite nth_error_nth' with (d := O) by (rewrite length_seq; lia).
  rewrite seq_nth by lia. reflexivity.
Qed.

Lemma scale_2 : scale 2 == 100.
Proof. reflexivity. Qed.

Lemma round2_near x : - (5 # 1000) <= round x 2 - x /\ round x 2 - x <= 5 # 1000.
Proof.
  pose proof (round_near x 2) as H. rewrite scale_2 in H.
  revert H. apply Qabs_case; intros; lra.
Qed.

Lemma sum_round2_near l :
  - (inject_Z (len l) * (5 # 1000)) <= sum (map (fun s => round s 2) l) - sum l /\
  sum (map (fun s => round s 2) l) - sum l <= inject_Z (len l) * (5 # 1000).
Proof.
  induction l as [|x l [IHlo IHhi]].
  - split; now vm_compute.
  - simpl map. rewrite !sum_cons.
    assert (E : inject_Z (len (x :: l)) == inject_Z (len l) + 1).
    { unfold len. simpl length. rewrite Nat2Z.inj_succ, <- Z.add_1_r, inject_Z_plus.
      reflexivity. }
    rewrite E. destruct (round2_near x). lra.
Qed.

Lemma map_round_id n l :
  Forall (has_decimals n) l -> Forall2 Qeq (map (fun s => round s n) l) l.
Proof.
  induction 1; simpl; constructor; auto using round_id.
Qed.

End PyFacts.

(** ** The risk function and the status classifier *)

Module RiskFacts.
Import Py PyFacts.

Lemma Qdiv_nonneg a b : 0 <= a -> 0 < b -> 0 <= a / b.
Proof. intros Ha Hb. apply Qle_shift_div_l; [assumption | lra]. Qed.

Lemma risk_empty_stock df sl : _calculate_wastage_risk [] df sl = 0.
Proof. reflexivity. Qed.

Lemma risk_empty_forecast ds sl : _calculate_wastage_risk ds [] sl = 0.
Proof. destruct ds; reflexivity. Qed.

(** The risk on non-empty arguments, as one expression. *)
Lemma risk_unfold ds df sl :
  ds <> [] -> df <> [] ->
  _calculate_wastage_risk ds df sl =
  if Qeq_bool (sum df) 0 then (if Qltb 0 (sum ds) then 1 else 0)
  else min 1 (max 0 ((sum ds - sum df) / sum df) * (5 # 10)
              + max 0 (inject_Z (14 - sl) / 14) * (3 # 10)
              + max 0 (inject_Z (len ds - sl) / inject_Z (Z.max (len ds) 1)) * (2 # 10)).
Proof.
  intros Hs Hf. destruct ds as [|s ds]; [congruence|].
  destruct df as [|f df]; [congruence|]. reflexivity.
Qed.

Lemma risk_range ds df sl :
  0 <= _calculate_wastage_risk ds df sl /\ _calculate_wastage_risk ds df sl <= 1.
Proof.
  destruct ds as [|s ds]; [rewrite risk_empty_stock; lra|].
  destruct df as [|f df]; [rewrite risk_empty_forecast; lra|].
  rewrite risk_unfold by discriminate.
  destruct (Qeq_bool (sum (f :: df)) 0).
  - destruct (Qltb 0 (sum (s :: ds))); lra.
  - split; [|apply min_l].
    apply min_glb; [lra|].
    pose proof (max_l 0 ((sum (s :: ds) - sum (f :: df)) / sum (f :: df))).
    pose proof (max_l 0 (inject_Z (14 - sl) / 14)).
    pose proof (max_l 0 (inject_Z (len (s :: ds) - sl)
                         / inject_Z (Z.max (len (s :: ds)) 1))).
    lra.
Qed.

End RiskFacts.

(** ** The allocator *)

Module AllocFacts.
Import Py PyFacts RiskFacts.

Section WithStd.

Variable np_std : list Q -> Q.

Lemma loop_body_nonneg df avg ssf sl d : 0 <= loop_body df avg ssf sl d.
Proof. apply max_l. Qed.

Lemma loop_body_decimal df avg ssf sl d : has_decimals 2 (loop_body df avg ssf sl d).
Proof.
  unfold loop_body.
  match goal with |- has_decimals 2 (max 0 ?r) =>
    destruct (max_spec 0 r) as [[_ ->] | [_ ->]] end.
  - apply round_decimal.
  - apply zero_decimal.
Qed.

Lemma before_daily_nonneg df sl n :
  Forall (fun x => 0 <= x) (daily_stock (before_correction np_std df sl n)).
Proof.
  simpl. apply Forall_forall. intros x Hx. apply in_map_iff in Hx.
  destruct Hx as [d [<- _]]. apply loop_body_nonneg.
Qed.

Lemma before_daily_decimal df sl n :
  Forall (has_decimals 2) (daily_stock (before_correction np_std df sl n)).
Proof.
  simpl. apply Forall_forall. intros x Hx. apply in_map_iff in Hx.
  destruct Hx as [d [<- _]]. apply loop_body_decimal.
Qed.

Lemma Forall2_round_ge n l1 l2 :
  Forall2 Qle l1 l2 -> Forall (has_decimals n) l1 ->
  Forall2 Qle l1 (map (fun stock => round stock n) l2).
Proof.
  induction 1 as [|x y l1 l2 Hxy Hl IH]; intros Hdec; simpl.
  - constructor.
  - inversion Hdec; subst. constructor; [|now apply IH].
    rewrite <- (round_id x n) by assumption. now apply round_mono.
Qed.

Lemma max_1_pos x : 0 < max x 1.
Proof. pose proof (max_r x 1). lra. Qed.

(** [min(100, total_stock / max(total_demand, 1) * 100)] is a percentage. *)
Lemma service_level_range ts td :
  0 <= ts ->
  0 <= min 100 (ts / max td 1 * 100) /\ min 100 (ts / max td 1 * 100) <= 100.
Proof.
  intros Hts. split; [|apply min_l].
  apply min_glb; [lra|].
  pose proof (Qdiv_nonneg ts (max td 1) Hts (max_1_pos td)). lra.
Qed.

(** The factor of the correction pass is at least one when the pass runs. *)
Lemma adjustment_factor_ge_1 sl : sl < 80 -> 1 <= 80 / max sl 1.
Proof.
  intros H. apply Qle_shift_div_l; [apply max_1_pos|].
  destruct (max_spec sl 1) as [[_ ->] | [_ ->]]; lra.
Qed.

Lemma scaled_ge s c : 0 <= s -> 1 <= c -> s <= s * c.
Proof. intros Hs Hc. nra. Qed.

Lemma scaled_nonneg s c : 0 <= s -> 1 <= c -> 0 <= s * c.
Proof. intros Hs Hc. nra. Qed.

Lemma Forall2_scaled c l :
  1 <= c -> Forall (fun x => 0 <= x) l ->
  Forall2 Qle l (map (fun stock => stock * c) l).
Proof.
  intros Hc. induction 1; simpl; constructor; auto using scaled_ge.
Qed.

Lemma Forall_scaled_nonneg c l :
  1 <= c -> Forall (fun x => 0 <= x) l ->
  Forall (fun x => 0 <= x) (map (fun stock => stock * c) l).
Proof.
  intros Hc. induction 1; simpl; constructor; auto using scaled_nonneg.
Qed.

(** The correction pass, when it runs. *)
Lemma correction_runs df sl a :
  service_level a < 80 ->
  correction df sl a =
  let adjustment_factor := 80 / max (service_level a) 1 in
  let daily_stock := map (fun stock => stock * adjustment_factor) (daily_stock a) in
  mkAllocation daily_stock (sum daily_stock)
    (_calculate_wastage_risk daily_stock df sl)
    (min 100 (sum daily_stock / max (sum df) 1 * 100)).
Proof.
  intros H. unfold correction. apply Qltb_lt in H. now rewrite H.
Qed.

Lemma correction_skipped df sl a :
  80 <= service_level a -> correction df sl a = a.
Proof.
  intros H. unfold correction. apply Qltb_ge in H. now rewrite H.
Qed.

Lemma correction_cases df sl a :
  (service_level a < 80 /\ correction df sl a =
     let adjustment_factor := 80 / max (service_level a) 1 in
     let daily_stock := map (fun stock => stock * adjustment_factor) (daily_stock a) in
     mkAllocation daily_stock (sum daily_stock)
       (_calculate_wastage_risk daily_stock df sl)
       (min 100 (sum daily_stock / max (sum df) 1 * 100)))
  \/ (80 <= service_level a /\ correction df sl a = a).
Proof.
  destruct (Qlt_le_dec (service_level a) 80) as [H | H].
  - left. split; [assumption | now apply correction_runs].
  - right. split; [assumption | now apply correction_skipped].
Qed.

Lemma correction_daily_nonneg df sl a :
  Forall (fun x => 0 <= x) (daily_stock a) ->
  Forall (fun x => 0 <= x) (daily_stock (correction df sl a)).
Proof.
  intros Ha. destruct (correction_cases df sl a) as [[H ->] | [H ->]]; [|assumption].
  simpl. apply Forall_scaled_nonneg; [now apply adjustment_factor_ge_1 | assumption].
Qed.

(** The two branches of [_optimize_single_product]. *)
Lemma optimize_guard_cases df sl horizon :
  let n_days := Z.min horizon (len df) in
  ((n_days = 0%Z \/ df = []) /\
   _optimize_single_product np_std df sl horizon = mkAllocation [0] 0 0 0)
  \/ (n_days <> 0%Z /\ df <> [] /\
      _optimize_single_product np_std df sl horizon
      = rounded (correction df sl (before_correction np_std df sl n_days))).
Proof.
  intros n_days. unfold _optimize_single_product. fold n_days.
  destruct (n_days =? 0)%Z eqn:En.
  - left. apply Z.eqb_eq in En. split; [now left|]. rewrite En. reflexivity.
  - apply Z.eqb_neq in En. destruct df as [|x df].
    + left. split; [now right|]. simpl orb. cbv iota. f_equal.
      unfold replicate. subst n_days. unfold len. simpl length.
      replace (Z.max 1 (Z.min horizon (Z.of_nat 0))) with 1%Z by lia. reflexivity.
    + right. split; [assumption|]. split; [discriminate | reflexivity].
Qed.

End WithStd.

Lemma rounded_total_near c :
  total_stock c == sum (daily_stock c) ->
  Qabs (total_stock (rounded c) - sum (daily_stock (rounded c)))
    <= inject_Z (len (daily_stock (rounded c)) + 1) * (5 # 1000).
Proof.
  destruct c as [ds ts wr sl]. unfold rounded. cbn [daily_stock total_stock].
  intros Ht. unfold len. rewrite length_map. fold (len ds).
  rewrite inject_Z_plus. change (inject_Z 1) with 1.
  destruct (round2_near ts) as [H1 H2].
  destruct (sum_round2_near ds) as [H3 H4].
  apply Qabs_Qle_condition. split; lra.
Qed.

Lemma rounded_total_exact c :
  total_stock c == sum (daily_stock c) ->
  Forall (has_decimals 2) (daily_stock c) ->
  total_stock (rounded c) == sum (daily_stock (rounded c)).
Proof.
  destruct c as [ds ts wr sl]. unfold rounded. cbn [daily_stock total_stock].
  intros Ht Hdec.
  rewrite (sum_Forall2_eq _ _ (map_round_id 2 _ Hdec)), <- Ht.
  apply round_id. destruct (sum_decimal 2 ds Hdec) as [k Hk].
  exists k. rewrite Ht. exact Hk.
Qed.

Lemma correction_total df sl a :
  total_stock a == sum (daily_stock a) ->
  total_stock (correction df sl a) == sum (daily_stock (correction df sl a)).
Proof.
  intros Ha. destruct (correction_cases df sl a) as [[_ ->] | [_ ->]].
  - reflexivity.
  - exact Ha.
Qed.


End AllocFacts.

(** ** Properties of the specification *)

Import Py PyFacts RiskFacts AllocFacts.

(** C3. For every input of the allocator the wastage risk lies in [0, 1] and
    the service level in [0, 100]: on the values computed before the
    correction pass, on those the correction pass leaves, and on the
    returned (rounded) ones. *)
Theorem wastage_risk_and_service_level_bounds
    (np_std : list Q -> Q) (daily_forecast : list Q) (shelf_life horizon : Z) :
  let n_days := Z.min horizon (len daily_forecast) in
  let b := before_correction np_std daily_forecast shelf_life n_days in
  let c := correction daily_forecast shelf_life b in
  let r := _optimize_single_product np_std daily_forecast shelf_life horizon in
  (0 <= wastage_risk b <= 1 /\ 0 <= service_level b <= 100) /\
  (0 <= wastage_risk c <= 1 /\ 0 <= service_level c <= 100) /\
  (0 <= wastage_risk r <= 1 /\ 0 <= service_level r <= 100).
Proof.
  intros n_days b c r.
  assert (Hb : (0 <= wastage_risk b <= 1) /\ (0 <= service_level b <= 100)).
  { split; [apply risk_range|].
    apply service_level_range, sum_nonneg, before_daily_nonneg. }
  assert (Hc : (0 <= wastage_risk c <= 1) /\ (0 <= service_level c <= 100)).
  { subst c. destruct (correction_cases daily_forecast shelf_life b)
      as [[Hlow E] | [_ ->]]; [|exact Hb].
    pose proof (correction_daily_nonneg daily_forecast shelf_life b
                  (before_daily_nonneg np_std _ _ _)) as Hnn.
    rewrite E in Hnn |- *. simpl in Hnn |- *.
    split; [apply risk_range|].
    apply service_level_range, sum_nonneg, Hnn. }
  split; [exact Hb|]. split; [exact Hc|].
  destruct (optimize_guard_cases np_std daily_forecast shelf_life horizon)
    as [[_ E] | [_ [_ E]]]; subst r; rewrite E.
  - cbn [wastage_risk service_level]. lra.
  - fold n_days b c. destruct Hc as [[Hw0 Hw1] [Hs0 Hs1]].
    clearbody c. unfold rounded. cbn [wastage_risk service_level].
    repeat split.
    + now apply round_nonneg.
    + apply Qle_trans with (round 1 3); [now apply round_mono|].
      now vm_compute.
    + now apply round_nonneg.
    + apply Qle_trans with (round 100 2); [now apply round_mono|].
      now vm_compute.
Qed.

(** C10. When the correction pass runs (service level below 80 before it),
    its factor [80 / max(service_level, 1)] is at least 1, and every daily
    stock entry and the total stock are at least what they were before the
    pass, both as the pass leaves them and as they are returned. *)
Theorem correction_never_reduces_stock
    (np_std : list Q -> Q) (daily_forecast : list Q) (shelf_life horizon : Z) :
  let n_days := Z.min horizon (len daily_forecast) in
  let b := before_correction np_std daily_forecast shelf_life n_days in
  let c := correction daily_forecast shelf_life b in
  service_level b < 80 ->
  1 <= 80 / max (service_level b) 1 /\
  Forall2 Qle (daily_stock b) (daily_stock c) /\
  total_stock b <= total_stock c /\
  Forall2 Qle (daily_stock b) (daily_stock (rounded c)) /\
  total_stock b <= total_stock (rounded c).
Proof.
  intros n_days b c Hlow.
  pose proof (adjustment_factor_ge_1 _ Hlow) as Hf.
  pose proof (before_daily_nonneg np_std daily_forecast shelf_life n_days) as Hnn.
  pose proof (before_daily_decimal np_std daily_forecast shelf_life n_days) as Hdec.
  fold b in Hnn, Hdec.
  assert (Hd : Forall2 Qle (daily_stock b) (daily_stock c)).
  { subst c. rewrite (correction_runs _ _ _ Hlow). simpl.
    now apply Forall2_scaled. }
  assert (Ht : total_stock b <= total_stock c).
  { subst c. rewrite (correction_runs _ _ _ Hlow). simpl.
    apply sum_Forall2_le. now apply Forall2_scaled. }
  repeat split; try assumption.
  - now apply Forall2_round_ge.
  - assert (E : round (total_stock b) 2 == total_stock b)
      by (apply round_id, sum_decimal; exact Hdec).
    apply Qle_trans with (round (total_stock b) 2).
    + rewrite E. apply Qle_refl.
    + apply round_mono. exact Ht.
Qed.

(** C10, on the one-day series [0.5]: the service level before the pass is
    50 and the pass runs. *)
Lemma correction_never_reduces_stock_witness :
  let b := before_correction population_std [1 # 2] 7 1 in
  let c := correction [1 # 2] 7 b in
  service_level b < 80 /\
  1 <= 80 / max (service_level b) 1 /\
  Forall2 Qle (daily_stock b) (daily_stock c) /\
  total_stock b <= total_stock c /\
  Forall2 Qle (daily_stock b) (daily_stock (rounded c)) /\
  total_stock b <= total_stock (rounded c).
Proof.
  assert (H : service_level (before_correction population_std [1 # 2] 7 1) < 80)
    by (vm_compute; reflexivity).
  split; [exact H|].
  exact (correction_never_reduces_stock population_std [1 # 2] 7 1 H).
Defined.

(** C8. On an empty demand series, or when the effective day count is
    zero, the allocator returns the zero allocation [[0.0]] with total
    stock, wastage risk and service level 0, whatever the shelf life and the
    horizon. *)
Theorem empty_demand_zero_allocation
    (np_std : list Q -> Q) (daily_forecast : list Q) (shelf_life horizon : Z) :
  daily_forecast = [] \/ Z.min horizon (len daily_forecast) = 0%Z ->
  _optimize_single_product np_std daily_forecast shelf_life horizon
  = mkAllocation [0] 0 0 0.
Proof.
  intros H.
  destruct (optimize_guard_cases np_std daily_forecast shelf_life horizon)
    as [[_ E] | [Hn [Hd _]]]; [exact E|].
  destruct H; contradiction.
Qed.

(** C8, on the empty series with horizon 7 and on a three-day series with
    horizon 0. *)
Lemma empty_demand_zero_allocation_witness :
  _optimize_single_product population_std [] 5 7 = mkAllocation [0] 0 0 0 /\
  _optimize_single_product population_std [40; 45; 50] 5 0 = mkAllocation [0] 0 0 0.
Proof.
  split.
  - apply (empty_demand_zero_allocation population_std [] 5 7). left. reflexivity.
  - apply (empty_demand_zero_allocation population_std [40; 45; 50] 5 0).
    right. reflexivity.
Defined.

(** ** Facts about the doubles *)

Module IEEEFacts.
Import Py PyFacts IEEE.

Lemma pow2_pos e : 0 < pow2 e.
Proof. apply Qpower_0_lt. lra. Qed.

Lemma pow2_succ e : pow2 (e + 1) == 2 * pow2 e.
Proof.
  unfold pow2. rewrite Qpower_plus by lra. rewrite Qpower_1_r. ring.
Qed.

Lemma pow2_sub a b : pow2 (a - b) * pow2 b == pow2 a.
Proof.
  unfold pow2. rewrite Qpower_minus by lra. field.
  apply Qpower_not_0. lra.
Qed.

(** [2 ^ log2 n <= n < 2 * 2 ^ log2 n]. *)
Lemma log2_bounds (n : Z) :
  (0 < n)%Z ->
  pow2 (Z.log2 n) <= inject_Z n /\ inject_Z n < 2 * pow2 (Z.log2 n).
Proof.
  intros Hn. destruct (Z.log2_spec n Hn) as [Hlo Hhi].
  pose proof (Z.log2_nonneg n) as Hl.
  assert (E : pow2 (Z.log2 n) == inject_Z (2 ^ Z.log2 n)).
  { unfold pow2. change 2 with (inject_Z 2). now rewrite Zpower_Qpower. }
  rewrite E. split.
  - now rewrite <- Zle_Qle.
  - change 2 with (inject_Z 2). rewrite <- inject_Z_mult, <- Zlt_Qlt.
    rewrite Z.pow_succ_r in Hhi by assumption. exact Hhi.
Qed.

(** The exponent of a positive number is that of its leading bit. *)
Lemma exponent_spec x :
  0 < x -> pow2 (exponent x) <= x /\ x < pow2 (exponent x + 1).
Proof.
  intros Hx. destruct x as [n d]. unfold exponent. cbn [Qnum Qden].
  assert (Hn : (0 < n)%Z).
  { unfold Qlt in Hx. cbn in Hx. lia. }
  destruct (log2_bounds n Hn) as [HNlo HNhi].
  destruct (log2_bounds (Zpos d) (Pos2Z.is_pos d)) as [HDlo HDhi].
  pose proof (pow2_sub (Z.log2 n) (Z.log2 (Zpos d))) as Hk.
  pose proof (pow2_pos (Z.log2 n)) as HA. pose proof (pow2_pos (Z.log2 (Zpos d))) as HB.
  pose proof (pow2_pos (Z.log2 n - Z.log2 (Zpos d))) as HK.
  assert (Hxd : (n # d) * inject_Z (Zpos d) == inject_Z n).
  { rewrite (Qmake_Qdiv n d). field. change 0 with (inject_Z 0).
    rewrite inject_Z_injective. discriminate. }
  set (k := (Z.log2 n - Z.log2 (Zpos d))%Z) in *.
  set (x := n # d) in *. set (N := inject_Z n) in *. set (D := inject_Z (Zpos d)) in *.
  set (A := pow2 (Z.log2 n)) in *. set (B := pow2 (Z.log2 (Zpos d))) in *.
  destruct (Qle_bool (pow2 k) x) eqn:E.
  - apply Qle_bool_iff in E. split; [exact E|].
    rewrite pow2_succ. set (K := pow2 k) in *. clearbody K x N D A B.
    assert (H1 : x * D < 2 * K * D) by nra.
    nra.
  - assert (E' : x < pow2 k).
    { apply Qnot_le_lt. intros H. apply Qle_bool_iff in H. congruence. }
    replace (k - 1 + 1)%Z with k by lia. split; [|exact E'].
    pose proof (pow2_succ (k - 1)) as Hs. replace (k - 1 + 1)%Z with k in Hs by lia.
    pose proof (pow2_pos (k - 1)) as HK1.
    set (K := pow2 k) in *. set (K1 := pow2 (k - 1)) in *. clearbody K K1 x N D A B.
    assert (H1 : K1 * D <= x * D) by nra.
    nra.
Qed.

Lemma abs_cases x : (0 <= x /\ Qabs x == x) \/ (x <= 0 /\ Qabs x == - x).
Proof.
  destruct (Qlt_le_dec x 0) as [H | H].
  - right. split; [lra | apply Qabs_neg; lra].
  - left. split; [assumption | now apply Qabs_pos].
Qed.

(** [to_double x] is a multiple of the unit in the last place of [x], with
    a significand of 53 bits, at most half a unit from [x]. *)
Lemma to_double_nearest x :
  ~ x == 0 ->
  let ulp := pow2 (exponent (Qabs x) - 52) in
  let m := round_half_even (x / ulp) in
  to_double x == inject_Z m * ulp /\
  Qabs (to_double x - x) <= ulp / 2 /\
  (2 ^ 52 <= Z.abs m <= 2 ^ 53)%Z.
Proof.
  intros Hx ulp m. unfold to_double. rewrite (Qeq_bool_false _ _ Hx). fold ulp m.
  rewrite Qred_correct.
  pose proof (pow2_pos (exponent (Qabs x) - 52)) as Hu. fold ulp in Hu.
  split; [reflexivity|]. split.
  - destruct (round_half_even_near (x / ulp)) as [Hlo Hhi]. fold m in Hlo, Hhi.
    assert (Hq : x / ulp * ulp == x) by (field; lra).
    apply Qabs_Qle_condition. clearbody m ulp. split.
    + assert (H : (x / ulp) * ulp <= (inject_Z m + (1 # 2)) * ulp)
        by (apply Qmult_le_compat_r; lra).
      rewrite Hq in H.
      setoid_replace (ulp / 2) with ((1 # 2) * ulp) by field. lra.
    + assert (H : (inject_Z m - (1 # 2)) * ulp <= (x / ulp) * ulp)
        by (apply Qmult_le_compat_r; lra).
      rewrite Hq in H.
      setoid_replace (ulp / 2) with ((1 # 2) * ulp) by field. lra.
  - assert (Ha : 0 < Qabs x).
    { pose proof (Qabs_nonneg x). destruct (Qeq_dec (Qabs x) 0) as [E | E]; [|lra].
      exfalso. apply Hx. destruct (abs_cases x) as [[H1 H2] | [H1 H2]]; lra. }
    destruct (exponent_spec (Qabs x) Ha) as [Hlo Hhi].
    pose proof (pow2_sub (exponent (Qabs x)) 52) as H52. fold ulp in H52.
    pose proof (pow2_succ (exponent (Qabs x))) as Hs.
    assert (E52 : pow2 52 == inject_Z (2 ^ 52)) by now vm_compute.
    assert (E53 : 2 * pow2 52 == inject_Z (2 ^ 53)) by now vm_compute.
    assert (Hr : inject_Z (2 ^ 52) <= Qabs x / ulp /\ Qabs x / ulp <= inject_Z (2 ^ 53)).
    { split.
      - apply Qle_shift_div_l; [assumption|]. rewrite <- E52. lra.
      - apply Qle_shift_div_r; [assumption|]. rewrite <- E53. nra. }
    destruct Hr as [Hr1 Hr2].
    destruct (abs_cases x) as [[H0 E] | [H0 E]]; rewrite E in Hr1, Hr2.
    + apply round_half_even_mono in Hr1, Hr2. fold m in Hr1, Hr2.
      rewrite (round_half_even_Z _ _ (Qeq_refl _)) in Hr1.
      rewrite (round_half_even_Z _ _ (Qeq_refl _)) in Hr2. lia.
    + assert (Hn1 : x / ulp <= inject_Z (- 2 ^ 52)).
      { rewrite inject_Z_opp.
        setoid_replace (x / ulp) with (- (- x / ulp)) by (field; lra). lra. }
      assert (Hn2 : inject_Z (- 2 ^ 53) <= x / ulp).
      { rewrite inject_Z_opp.
        setoid_replace (x / ulp) with (- (- x / ulp)) by (field; lra). lra. }
      apply round_half_even_mono in Hn1, Hn2. fold m in Hn1, Hn2.
      rewrite (round_half_even_Z _ _ (Qeq_refl _)) in Hn1.
      rewrite (round_half_even_Z _ _ (Qeq_refl _)) in Hn2. lia.
Qed.

(** The doubles of 0.1 and 0.85, and the quotient of 4.59 by 5.4, bit for
    bit: 0x1.999999999999ap-4, 0x1.b333333333333p-1 and
    0x1.b333333333332p-1. *)
Lemma doubles_known :
  literal (1 # 10) == 3602879701896397 # 36028797018963968 /\
  literal (85 # 100) == 7656119366529843 # 9007199254740992 /\
  div (literal (459 # 100)) (literal (54 # 10))
  == 7656119366529842 # 9007199254740992.
Proof. split; [|split]; now vm_compute. Qed.

End IEEEFacts.




(** C5, counterexample.  With an empty demand series and a stock of 5 units
    the risk function returns 0.0, not the 1.0 that the claim requires when
    sum(daily_stock) > 0. *)
Lemma risk_empty_demand_counterexample :
  let daily_stock := [5] in
  let daily_forecast := @nil Q in
  daily_forecast = [] /\ 0 < sum daily_stock /\
  _calculate_wastage_risk daily_stock daily_forecast 7 = 0 /\
  ~ _calculate_wastage_risk daily_stock daily_forecast 7 == 1.
Proof.
  intros daily_stock daily_forecast.
  split; [|split; [|split]]; now vm_compute.
Qed.

(** C5, amended.  For every daily_stock list the risk function returns 0.0
    when the demand series is empty; when the demand series is not empty and
    its total is zero it returns 1.0 if sum(daily_stock) > 0 and 0.0
    otherwise. *)
Theorem risk_degenerate_demand (daily_stock daily_forecast : list Q) (shelf_life : Z) :
  let risk := _calculate_wastage_risk daily_stock daily_forecast shelf_life in
  (daily_forecast = [] -> risk = 0) /\
  (daily_forecast <> [] -> sum daily_forecast == 0 ->
     (0 < sum daily_stock -> risk = 1) /\
     (sum daily_stock <= 0 -> risk = 0)).
Proof.
  intros risk. subst risk. split.
  - intros ->. apply risk_empty_forecast.
  - intros Hne Hz. destruct daily_stock as [|s ds].
    + rewrite risk_empty_stock. split; [|reflexivity].
      rewrite sum_nil. intros H. exfalso. lra.
    + rewrite risk_unfold by (discriminate || assumption).
      apply Qeq_bool_iff in Hz. rewrite Hz. split; intros H.
      * apply Qltb_lt in H. now rewrite H.
      * apply Qltb_ge in H. now rewrite H.
Qed.

(** C5, on an empty demand series, and on the all-zero series [0, 0] with
    a positive and with a zero stock. *)
Lemma risk_degenerate_demand_witness :
  _calculate_wastage_risk [5] [] 7 = 0 /\
  _calculate_wastage_risk [5; 0] [0; 0] 7 = 1 /\
  _calculate_wastage_risk [0; 0] [0; 0] 7 = 0.
Proof.
  split; [|split].
  - exact (proj1 (risk_degenerate_demand [5] [] 7) eq_refl).
  - refine (proj1 (proj2 (risk_degenerate_demand [5; 0] [0; 0] 7) _ _) _);
      [discriminate | now vm_compute | now vm_compute].
  - refine (proj2 (proj2 (risk_degenerate_demand [0; 0] [0; 0] 7) _ _) _);
      [discriminate | now vm_compute | now vm_compute].
Defined.

(** C1, counterexample.  On the series [10, 10, 10, 40] with a shelf life
    of 30 the last day is a peak day (40 > 1.2 * 17.5) and the safety factor
    is at its cap 0.5, which the variance alone forces.  The loop gives
    44 + 40 * 0.5 = 64, the specification's step 5 gives 44 + 44 * 0.5 = 66. *)
Lemma step5_safety_stock_counterexample :
  let demand := [10; 10; 10; 40] in
  let avg := avg_demand demand in
  let ssf := safety_stock_factor population_std demand in
  let computed := nth 3 (daily_stock (before_correction population_std demand 30 4)) 0 in
  (max avg 1 * (1 # 2)) * (max avg 1 * (1 # 2)) < variance demand /\
  ssf == 1 # 2 /\
  computed == 64 /\
  spec_step5 avg ssf (shelf_life_factor 30) (nth 3 demand 0) == 66 /\
  ~ computed == spec_step5 avg ssf (shelf_life_factor 30) (nth 3 demand 0).
Proof.
  intros demand avg ssf computed.
  split; [|split; [|split; [|split]]]; now vm_compute.
Qed.

(** C1, amended.  For every day d below the effective day count, the
    daily stock computed by the loop is max(0, round(base_stock +
    safety_stock, 2)) where safety_stock is demand[d] (the day's demand
    before any adjustment) times safety_stock_factor times
    shelf_life_factor, and base_stock is demand[d] multiplied by 1.1 when
    demand[d] > avg_demand * 1.2 or by 0.9 when demand[d] < avg_demand * 0.8. *)
Theorem daily_stock_step5
    (np_std : list Q -> Q) (daily_forecast : list Q) (shelf_life horizon : Z) (d : nat) :
  let n_days := Z.min horizon (len daily_forecast) in
  (Z.of_nat d < n_days)%Z ->
  nth_error (daily_stock (before_correction np_std daily_forecast shelf_life n_days)) d
  = Some (step5 (avg_demand daily_forecast)
                (safety_stock_factor np_std daily_forecast)
                (shelf_life_factor shelf_life)
                (nth d daily_forecast 0)).
Proof.
  intros n_days Hd. simpl. rewrite nth_error_map_range by assumption.
  f_equal. unfold loop_body, step5.
  assert (E : (Z.of_nat d <? len daily_forecast)%Z = true) by (apply Z.ltb_lt; lia).
  rewrite E. reflexivity.
Qed.

(** C1, on the peak day of [10, 10, 10, 40]. *)
Lemma daily_stock_step5_witness :
  nth_error (daily_stock (before_correction population_std [10; 10; 10; 40] 30 4)) 3
  = Some (step5 (avg_demand [10; 10; 10; 40])
                (safety_stock_factor population_std [10; 10; 10; 40])
                (shelf_life_factor 30) 40).
Proof.
  apply (daily_stock_step5 population_std [10; 10; 10; 40] 30 4 3). reflexivity.
Defined.

(** C2, counterexample.  Seven days of demand 0.1: the loop gives 0.1 a day,
    the service level 0.7 / max(0.7, 1) * 100 = 70 triggers the correction by
    80/70, every day becomes 0.1142... and is returned as 0.11, while the
    total 0.8 is returned as such: 0.8 against 0.77. *)
Lemma total_stock_tolerance_counterexample :
  let r := allocate (repeat (1 # 10) 7) 30 7 in
  map Qred (daily_stock r) = repeat (11 # 100) 7 /\
  total_stock r == 80 # 100 /\
  sum (daily_stock r) == 77 # 100 /\
  ~ Qabs (total_stock r - sum (daily_stock r)) <= 1 # 100.
Proof.
  intros r. split; [|split; [|split]]; now vm_compute.
Qed.

(** C2, amended.  The returned total_stock is within 0.005 * (n + 1) of the
    sum of the returned daily_stock entries, n being their number; the two
    are equal whenever the correction pass does not run. *)
Theorem total_stock_matches_daily_sum
    (np_std : list Q -> Q) (daily_forecast : list Q) (shelf_life horizon : Z) :
  let n_days := Z.min horizon (len daily_forecast) in
  let b := before_correction np_std daily_forecast shelf_life n_days in
  let r := _optimize_single_product np_std daily_forecast shelf_life horizon in
  Qabs (total_stock r - sum (daily_stock r))
    <= inject_Z (len (daily_stock r) + 1) * (5 # 1000) /\
  (80 <= service_level b -> total_stock r == sum (daily_stock r)).
Proof.
  intros n_days b r.
  destruct (optimize_guard_cases np_std daily_forecast shelf_life horizon)
    as [[_ E] | [_ [_ E]]]; subst r; rewrite E.
  - split; [now vm_compute | intros _; now vm_compute].
  - fold n_days b.
    assert (Hb : total_stock b == sum (daily_stock b)) by reflexivity.
    pose proof (before_daily_decimal np_std daily_forecast shelf_life n_days) as Hdec.
    fold b in Hdec. clearbody b. split.
    + apply rounded_total_near, correction_total, Hb.
    + intros Hsl. rewrite (correction_skipped _ _ _ Hsl).
      now apply rounded_total_exact.
Qed.

(** C2, on the week [40, 45, 50, 55, 60, 50, 45] with a shelf life of 7:
    the service level before the correction pass is 100. *)
Lemma total_stock_matches_daily_sum_witness :
  let r := allocate [40; 45; 50; 55; 60; 50; 45] 7 7 in
  total_stock r == sum (daily_stock r).
Proof.
  apply (total_stock_matches_daily_sum population_std [40; 45; 50; 55; 60; 50; 45] 7 7).
  now vm_compute.
Defined.

(** ** One day's demand raised *)

Module RaiseFacts.

(** The arithmetic of one value [x] of a series raised to [y]: [n] values,
    the others summing to [S], with the means [a] before and [a'] after. *)
Section Means.

Variables n S x y a a' : Q.
Hypothesis Hn : n == 1 /\ S == 0 \/ 2 <= n.
Hypothesis HS : 0 <= S.
Hypothesis Hx : 0 <= x.
Hypothesis Hxy : x <= y.
Hypothesis Ha : a * n == S + x.
Hypothesis Ha' : a' * n == S + y.

Lemma n_pos : 0 < n.
Proof. destruct Hn as [[H _] | H]; lra. Qed.

Lemma mean_le : a <= a'.
Proof. pose proof n_pos. nra. Qed.

Lemma mean_step : (a' - a) * n == y - x.
Proof. lra. Qed.

Lemma cross_means : a' * x <= a * y.
Proof.
  pose proof n_pos as Hp.
  assert (H : 0 <= (a * y - a' * x) * n).
  { setoid_replace ((a * y - a' * x) * n) with (S * (y - x)).
    - apply Qmult_le_0_compat; lra.
    - setoid_replace ((a * y - a' * x) * n) with ((a * n) * y - (a' * n) * x) by ring.
      rewrite Ha, Ha'. ring. }
  nra.
Qed.

(** A peak stays a peak. *)
Lemma peak_kept : a * (12 # 10) < x -> a' * (12 # 10) < y.
Proof.
  intros H. pose proof n_pos as Hp.
  destruct Hn as [[H1 H0] | H2].
  - assert (a == x) by nra. lra.
  - assert (Hd : (a' - a) * 2 <= y - x).
    { rewrite <- mean_step. pose proof mean_le. nra. }
    lra.
Qed.

(** Only a trough becomes a trough. *)
Lemma trough_was : y < a' * (8 # 10) -> x < a * (8 # 10).
Proof.
  intros Hy. pose proof n_pos as Hp.
  destruct (Qlt_le_dec x (a * (8 # 10))) as [H | H]; [assumption | exfalso].
  assert (Hd : (a' - a) <= y - x).
  { rewrite <- mean_step. pose proof mean_le. destruct Hn as [[H1 _] | H2]; nra. }
  pose proof mean_le. lra.
Qed.

(** The safety stock: [s] and [s'] are the standard deviations, [M] and [M']
    the means floored at 1, [t] and [t'] the safety factors, [f] the
    shelf-life factor. *)
Variables s s' f t t' M M' : Q.
Hypothesis HM1 : 1 <= M.
Hypothesis HMa : a <= M.
Hypothesis HM'1 : 1 <= M'.
Hypothesis HM'a : a' <= M'.
Hypothesis HM' : M' == a' \/ M' == 1.
Hypothesis Hs : 0 <= s.
Hypothesis Hs' : 0 <= s'.
Hypothesis Hfar : a + a' <= x + y -> s <= s'.
Hypothesis Hdrop : s - s' <= (y - x) / 2.
Hypothesis Ht0 : 0 <= t.
Hypothesis Ht2 : t <= 1 # 2.
Hypothesis HtM : t * M <= s.
Hypothesis Ht' : t' == 1 # 2 \/ t' * M' == s'.
Hypothesis Hf0 : 0 <= f.
Hypothesis Hf1 : f <= 1.

Lemma cross_max : x * M' <= y * M.
Proof.
  destruct HM' as [E | E]; rewrite E.
  - pose proof cross_means. nra.
  - nra.
Qed.

Lemma max_step : (M' - M) * n <= y - x.
Proof.
  pose proof n_pos. pose proof mean_step.
  destruct HM' as [E | E]; rewrite E; nra.
Qed.

(** The deviation did not fall: neither does the safety stock. *)
Lemma safety_near : a + a' <= x + y -> x * t <= y * t'.
Proof.
  intros Hf'. specialize (Hfar Hf'). pose proof cross_max as Hc.
  destruct Ht' as [E | E].
  - rewrite E. nra.
  - assert (H : (x * t) * (M * M') <= (y * t') * (M * M')).
    { setoid_replace ((y * t') * (M * M')) with ((t' * M') * (y * M)) by ring.
      rewrite E.
      setoid_replace ((x * t) * (M * M')) with ((t * M) * (x * M')) by ring.
      assert (0 <= x * M') by nra. assert (0 <= y * M) by nra.
      assert ((t * M) * (x * M') <= s * (x * M')) by nra.
      assert (s * (x * M') <= s * (y * M)) by nra.
      assert (s * (y * M) <= s' * (y * M)) by nra.
      lra. }
    assert (0 < M * M') by nra. nra.
Qed.

(** The deviation fell, by half the raise at most: the safety stock falls by
    three quarters of the raise at most. *)
Lemma safety_far : x + y < a + a' -> 2 <= n -> x * t - y * t' <= (3 # 4) * (y - x).
Proof.
  intros Hlt Hn2. pose proof mean_le as Hm. pose proof max_step as Hms.
  assert (HxM : x <= M') by lra.
  destruct Ht' as [E | E].
  - rewrite E. nra.
  - assert (H : (x * t - y * t') * M' <= (3 # 4) * (y - x) * M').
    { setoid_replace ((x * t - y * t') * M') with (x * (t * M') - y * (t' * M')) by ring.
      rewrite E.
      assert (H1 : x * s' <= y * s') by nra.
      assert (H2 : t * M' <= s + t * (M' - M)) by nra.
      assert (H3 : t * (M' - M) * n <= (1 # 2) * (y - x)).
      { destruct (Qlt_le_dec M' M) as [HMM | HMM].
        - assert (t * (M' - M) <= 0) by nra. nra.
        - assert (t * (M' - M) <= (1 # 2) * (M' - M)) by nra. nra. }
      assert (H4 : t * (M' - M) <= (1 # 4) * (y - x)) by nra.
      assert (Hd : s - s' <= (1 # 2) * (y - x)).
      { setoid_replace ((1 # 2) * (y - x)) with ((y - x) / 2) by field. exact Hdrop. }
      assert (H5 : t * M' - s' <= (3 # 4) * (y - x)) by lra.
      assert (H6 : x * (t * M' - s') <= x * ((3 # 4) * (y - x))) by nra.
      assert (H7 : x * ((3 # 4) * (y - x)) <= M' * ((3 # 4) * (y - x))) by nra.
      lra. }
    nra.
Qed.

(** What the safety stock loses is less than what the base stock gains. *)
Lemma safety_raise : x * t * f - y * t' * f <= (9 # 10) * (y - x).
Proof.
  assert (H : x * t - y * t' <= (3 # 4) * (y - x)).
  { destruct (Qlt_le_dec (x + y) (a + a')) as [Hlt | Hge].
    - destruct Hn as [[H1 H0] | H2].
      + pose proof n_pos. assert (a == x) by nra. assert (a' == y) by nra. lra.
      + now apply safety_far.
    - pose proof (safety_near Hge). lra. }
  setoid_replace (x * t * f - y * t' * f) with ((x * t - y * t') * f) by ring.
  destruct (Qlt_le_dec (x * t - y * t') 0) as [Hneg | Hpos].
  - assert ((x * t - y * t') * f <= 0) by nra. lra.
  - assert ((x * t - y * t') * f <= (x * t - y * t')) by nra. lra.
Qed.

End Means.

(** *** The two series *)

Lemma sum_app l1 l2 : sum (l1 ++ l2) == sum l1 + sum l2.
Proof.
  unfold sum at 1. rewrite fold_left_app, fold_left_Qplus.
  fold (sum l1). lra.
Qed.

Lemma sum_middle l1 x l2 : sum (l1 ++ x :: l2) == (sum l1 + sum l2) + x.
Proof. rewrite sum_app, sum_cons. lra. Qed.

Lemma len_middle {A} (l1 : list A) x y l2 : len (l1 ++ y :: l2) = len (l1 ++ x :: l2).
Proof. unfold len. now rewrite !length_app. Qed.

Lemma count_cases l1 (x : Q) l2 :
  Forall (Qle 0) l1 -> Forall (Qle 0) l2 ->
  let n := inject_Z (len (l1 ++ x :: l2)) in
  (n == 1 /\ sum l1 + sum l2 == 0 \/ 2 <= n) /\ 0 <= sum l1 + sum l2.
Proof.
  intros H1 H2 n. split.
  - destruct l1 as [|u l1]; [destruct l2 as [|v l2]|].
    + left. split; now vm_compute.
    + right. subst n. unfold len. cbn [app length].
      change 2 with (inject_Z 2). rewrite <- Zle_Qle. lia.
    + right. subst n. unfold len. cbn [app length]. rewrite length_app. cbn [length].
      change 2 with (inject_Z 2). rewrite <- Zle_Qle. lia.
  - pose proof (sum_nonneg l1 H1). pose proof (sum_nonneg l2 H2). lra.
Qed.

Lemma avg_middle l1 x l2 :
  avg_demand (l1 ++ x :: l2) * inject_Z (len (l1 ++ x :: l2)) == (sum l1 + sum l2) + x.
Proof.
  unfold avg_demand. rewrite sum_middle.
  assert (H : ~ inject_Z (len (l1 ++ x :: l2)) == 0).
  { unfold len. rewrite length_app. cbn [length].
    change 0 with (inject_Z 0). rewrite inject_Z_injective. lia. }
  field. exact H.
Qed.

Lemma in_forecast_middle {A} (l1 : list A) x l2 :
  (Z.of_nat (length l1) <? len (l1 ++ x :: l2))%Z = true.
Proof.
  apply Z.ltb_lt. unfold len. rewrite length_app. cbn [length]. lia.
Qed.

Lemma shelf_life_factor_range sl :
  0 <= shelf_life_factor sl /\ shelf_life_factor sl <= 1.
Proof.
  unfold shelf_life_factor. split.
  - pose proof (max_l (1 # 10) (min 1 (inject_Z sl / 30))). lra.
  - apply max_lub; [lra | apply min_l].
Qed.

Section WithStd.

Variable np_std : list Q -> Q.

(** The loop's value for the raised day, each series with its own average
    and its own safety factor. *)
Lemma raised_entry l1 x y l2 sl :
  let low := l1 ++ x :: l2 in
  let high := l1 ++ y :: l2 in
  Forall (Qle 0) l1 -> Forall (Qle 0) l2 -> 0 <= x -> x <= y ->
  0 <= demand_std np_std low -> 0 <= demand_std np_std high ->
  (avg_demand low + avg_demand high <= x + y ->
   demand_std np_std low <= demand_std np_std high) ->
  demand_std np_std low - demand_std np_std high <= (y - x) / 2 ->
  loop_body low (avg_demand low) (safety_stock_factor np_std low) sl (length l1)
  <= loop_body high (avg_demand high) (safety_stock_factor np_std high) sl (length l1).
Proof.
  intros low high H1 H2 Hx Hxy Hs Hs' Hfar Hdrop.
  unfold loop_body. subst low high. rewrite !in_forecast_middle, !nth_middle.
  apply max_mono_r, round_mono.
  destruct (count_cases l1 x l2 H1 H2) as [Hn HS].
  pose proof (avg_middle l1 x l2) as Ha. pose proof (avg_middle l1 y l2) as Ha'.
  rewrite (len_middle l1 x y l2) in Ha'.
  destruct (shelf_life_factor_range sl) as [Hf0 Hf1].
  unfold safety_stock_factor in *.
  set (low := l1 ++ x :: l2) in *. set (high := l1 ++ y :: l2) in *.
  set (a := avg_demand low) in *. set (a' := avg_demand high) in *.
  set (s := demand_std np_std low) in *. set (s' := demand_std np_std high) in *.
  set (f := shelf_life_factor sl) in *.
  set (n := inject_Z (len low)) in *. set (S := sum l1 + sum l2) in *.
  pose proof (max_1_pos a) as HMp. pose proof (max_1_pos a') as HM'p.
  pose proof (max_r a 1) as HM1. pose proof (max_l a 1) as HMa.
  pose proof (max_r a' 1) as HM'1. pose proof (max_l a' 1) as HM'a.
  assert (HM' : max a' 1 == a' \/ max a' 1 == 1).
  { destruct (max_spec a' 1) as [[_ ->] | [_ ->]]; [right | left]; reflexivity. }
  set (M := max a 1) in *. set (M' := max a' 1) in *.
  assert (Ht0 : 0 <= min (5 # 10) (s / M)).
  { apply min_glb; [lra | apply Qdiv_nonneg; assumption]. }
  assert (Ht2 : min (5 # 10) (s / M) <= 1 # 2).
  { pose proof (min_l (5 # 10) (s / M)). lra. }
  assert (HtM : min (5 # 10) (s / M) * M <= s).
  { pose proof (min_r (5 # 10) (s / M)) as Hr.
    setoid_replace s with (s / M * M) at 2 by (field; lra).
    apply Qmult_le_compat_r; lra. }
  assert (Ht' : min (5 # 10) (s' / M') == 1 # 2 \/ min (5 # 10) (s' / M') * M' == s').
  { destruct (min_spec (5 # 10) (s' / M')) as [[_ ->] | [_ ->]].
    - right. field. lra.
    - left. reflexivity. }
  set (t := min (5 # 10) (s / M)) in *. set (t' := min (5 # 10) (s' / M')) in *.
  pose proof (safety_raise n S x y a a' Hn HS Hx Hxy Ha Ha' s s' f t t' M M'
                HM1 HMa HM'1 HM'a HM' Hs Hs' Hfar Hdrop Ht0 Ht2 HtM Ht' Hf0 Hf1)
    as Hcore.
  pose proof (peak_kept n S x y a a' Hn Hx Hxy Ha Ha') as Hpeak.
  pose proof (trough_was n S x y a a' Hn Hxy Ha Ha') as Htrough.
  clearbody t t' M M' f s s' a a' n S.
  destruct (Qltb (a * (12 # 10)) x) eqn:Ex1;
    [apply Qltb_lt in Ex1 | apply Qltb_ge in Ex1];
    (destruct (Qltb x (a * (8 # 10))) eqn:Ex2;
     [apply Qltb_lt in Ex2 | apply Qltb_ge in Ex2]);
    (destruct (Qltb (a' * (12 # 10)) y) eqn:Ey1;
     [apply Qltb_lt in Ey1 | apply Qltb_ge in Ey1]);
    (destruct (Qltb y (a' * (8 # 10))) eqn:Ey2;
     [apply Qltb_lt in Ey2 | apply Qltb_ge in Ey2]);
    try (specialize (Hpeak Ex1)); try (specialize (Htrough Ey2)); lra.
Qed.

(** Entries of two lists of the same length, compared under a monotone map. *)
Lemma nth_map_le (g : Q -> Q) l l' day :
  (forall u v, u <= v -> g u <= g v) ->
  length l = length l' ->
  nth day l 0 <= nth day l' 0 ->
  nth day (map g l) 0 <= nth day (map g l') 0.
Proof.
  intros Hg Hlen Hle.
  destruct (Nat.lt_ge_cases day (length l)) as [Hin | Hout].
  - rewrite (nth_indep (map g l) 0 (g 0)) by now rewrite length_map.
    rewrite (nth_indep (map g l') 0 (g 0)) by (rewrite length_map; lia).
    rewrite !map_nth. now apply Hg.
  - rewrite !nth_overflow by (rewrite length_map; lia). lra.
Qed.

(** The raised day's entry after the loop. *)
Lemma raised_before_correction l1 x y l2 sl n_days :
  let low := l1 ++ x :: l2 in
  let high := l1 ++ y :: l2 in
  Forall (Qle 0) l1 -> Forall (Qle 0) l2 -> 0 <= x -> x <= y ->
  0 <= demand_std np_std low -> 0 <= demand_std np_std high ->
  (avg_demand low + avg_demand high <= x + y ->
   demand_std np_std low <= demand_std np_std high) ->
  demand_std np_std low - demand_std np_std high <= (y - x) / 2 ->
  nth (length l1) (daily_stock (before_correction np_std low sl n_days)) 0
  <= nth (length l1) (daily_stock (before_correction np_std high sl n_days)) 0.
Proof.
  intros low high H1 H2 Hx Hxy Hs Hs' Hfar Hdrop.
  pose proof (raised_entry l1 x y l2 sl H1 H2 Hx Hxy Hs Hs' Hfar Hdrop) as He.
  fold low high in He. cbn [before_correction daily_stock].
  clearbody low high.
  destruct (Z_lt_ge_dec (Z.of_nat (length l1)) n_days) as [Hin | Hout].
  - rewrite (nth_error_nth _ _ _ (nth_error_map_range _ n_days (length l1) Hin)).
    rewrite (nth_error_nth _ _ _ (nth_error_map_range _ n_days (length l1) Hin)).
    exact He.
  - rewrite !nth_overflow by (rewrite length_map; unfold range; rewrite length_seq; lia).
    lra.
Qed.

(** The correction pass lowers no entry. *)
Lemma nth_correction_ge df sl a day :
  Forall (fun v => 0 <= v) (daily_stock a) ->
  nth day (daily_stock a) 0 <= nth day (daily_stock (correction df sl a)) 0.
Proof.
  intros Ha. destruct (correction_cases df sl a) as [[H ->] | [H ->]]; [|lra].
  cbn [daily_stock]. set (c := 80 / max (service_level a) 1).
  assert (Hc : 1 <= c) by now apply adjustment_factor_ge_1.
  destruct (Nat.lt_ge_cases day (length (daily_stock a))) as [Hin | Hout].
  - rewrite (nth_indep (map _ _) 0 (0 * c)) by now rewrite length_map.
    rewrite (map_nth (fun stock => stock * c)).
    apply scaled_ge; [|assumption].
    rewrite Forall_forall in Ha. apply Ha. now apply nth_In.
  - rewrite !nth_overflow by (rewrite ?length_map; lia). lra.
Qed.

Lemma correction_length df sl a :
  length (daily_stock (correction df sl a)) = length (daily_stock a).
Proof.
  destruct (correction_cases df sl a) as [[H ->] | [H ->]]; [|reflexivity].
  cbn [daily_stock]. now rewrite length_map.
Qed.

Lemma before_length df sl n_days :
  length (daily_stock (before_correction np_std df sl n_days)) = Z.to_nat n_days.
Proof. cbn [before_correction daily_stock]. unfold range. now rewrite length_map, length_seq. Qed.

End WithStd.

(** *** The standard deviation of the two series *)

Lemma sum_map_middle (g : Q -> Q) l1 x l2 :
  sum (map g (l1 ++ x :: l2)) == (sum (map g l1) + sum (map g l2)) + g x.
Proof. rewrite map_app. cbn [map]. apply sum_middle. Qed.

Lemma sum_deviations c l :
  sum (map (fun v => v - c) l) == sum l - inject_Z (len l) * c.
Proof.
  induction l as [|v l IH].
  - now vm_compute.
  - cbn [map]. rewrite !sum_cons, IH. unfold len. cbn [length].
    rewrite Nat2Z.inj_succ, <- Z.add_1_r, inject_Z_plus. change (inject_Z 1) with 1. ring.
Qed.

(** Cauchy-Schwarz against the constant vector. *)
Lemma sum_squared (g : Q -> Q) l :
  sum (map g l) * sum (map g l)
  <= inject_Z (len l) * sum (map (fun v => g v * g v) l).
Proof.
  induction l as [|v l IH].
  - now vm_compute.
  - cbn [map]. rewrite !sum_cons. unfold len in *. cbn [length].
    rewrite Nat2Z.inj_succ, <- Z.add_1_r, inject_Z_plus. change (inject_Z 1) with 1.
    set (k := inject_Z (Z.of_nat (length l))) in *.
    assert (Hk : 0 <= k).
    { subst k. change 0 with (inject_Z 0). rewrite <- Zle_Qle. lia. }
    set (A := sum (map g l)) in *.
    set (B := sum (map (fun v => g v * g v) l)) in *.
    assert (HB : 0 <= B).
    { subst B. apply sum_nonneg. apply Forall_forall. intros u Hu.
      apply in_map_iff in Hu. destruct Hu as [w [<- _]]. nra. }
    set (d := g v) in *. clearbody k A B d.
    destruct (Qlt_le_dec 0 k) as [Hpos | Hzero].
    + assert (H : 0 <= (k * d - A) * (k * d - A)).
      { generalize (k * d - A). intros e. nra. }
      assert (H1 : k * (2 * d * A) <= k * k * (d * d) + A * A).
      { setoid_replace ((k * d - A) * (k * d - A))
          with (k * k * (d * d) + A * A - k * (2 * d * A)) in H by ring. lra. }
      assert (H2 : k * (2 * d * A) <= k * (k * (d * d) + B)).
      { setoid_replace (k * (k * (d * d) + B)) with (k * k * (d * d) + k * B) by ring. lra. }
      assert (H3 : 2 * d * A <= k * (d * d) + B).
      { apply Qmult_le_l with (z := k); assumption. }
      setoid_replace ((d + A) * (d + A)) with (d * d + 2 * d * A + A * A) by ring.
      setoid_replace ((k + 1) * (d * d + B)) with (k * (d * d) + B + d * d + k * B) by ring.
      lra.
    + assert (Hk0 : k == 0) by lra. rewrite Hk0 in IH.
      assert (HA : A * A <= 0) by lra.
      assert (HA0 : A == 0) by nra.
      rewrite Hk0, HA0. nra.
Qed.

Lemma square_nonneg (e : Q) : 0 <= e * e.
Proof. nra. Qed.

(** The deviations [s] and [s'] of the two series, as numbers: [n] values of
    which [k] are the others, [D] and [D'] the others' squared deviations
    from the two means, [V] and [V'] the variances. *)
Section Deviation.

Variables n k S x y a a' D D' V V' s s' : Q.
Hypothesis Hk : 0 <= k.
Hypothesis Hn : n == k + 1.
Hypothesis Hxy : x <= y.
Hypothesis Ha : a * n == S + x.
Hypothesis Ha' : a' * n == S + y.
Hypothesis HD0 : 0 <= D.
Hypothesis HD'0 : 0 <= D'.
Hypothesis HV : V * n == D + (x - a) * (x - a).
Hypothesis HV' : V' * n == D' + (y - a') * (y - a').
Hypothesis HCS : (a - x) * (a - x) <= k * D.
Hypothesis HCS' : (a' - y) * (a' - y) <= k * D'.
Hypothesis HD : D' - D == - (2 * S * (a' - a)) + k * (a' * a' - a * a).
Hypothesis Hs : 0 <= s.
Hypothesis Hs' : 0 <= s'.
Hypothesis HsV : s * s == V.
Hypothesis Hs'V : s' * s' == V'.

Lemma variance_step : (V' - V) * n == (y - x) * (x + y - a - a').
Proof.
  setoid_replace ((V' - V) * n) with (V' * n - V * n) by ring.
  rewrite HV, HV'.
  setoid_replace (D' + (y - a') * (y - a') - (D + (x - a) * (x - a)))
    with ((D' - D) + (y - a') * (y - a') - (x - a) * (x - a)) by ring.
  rewrite HD.
  assert (HS : S == a * n - x) by lra.
  assert (Hy : y == a' * n - a * n + x) by lra.
  assert (Hk' : k == n - 1) by lra.
  rewrite Hk', Hy, HS. ring.
Qed.


Lemma count_pos : 0 < n.
Proof. lra. Qed.

(** A value is within [n / 2] deviations of the mean. *)
Lemma within_half (e u W d : Q) :
  0 <= d -> W * n == d + e * e -> e * e <= k * d -> 0 <= u -> u * u == W ->
  2 * e <= n * u.
Proof.
  intros Hd HW He Hu HuW. pose proof count_pos as Hp.
  assert (H4 : 4 * (e * e) <= n * (d + e * e)).
  { destruct (Qlt_le_dec 0 k) as [Hpos | Hzero].
    - assert (H1 : k * (4 * (e * e)) <= k * (n * (d + e * e))).
      { setoid_replace (k * (n * (d + e * e))) with (n * (k * d) + n * k * (e * e)) by ring.
        assert (n * (e * e) <= n * (k * d)) by nra.
        pose proof (square_nonneg e).
        assert (Hq : 4 * k <= n * n).
        { rewrite Hn. pose proof (square_nonneg (k - 1)) as Hq.
          setoid_replace ((k - 1) * (k - 1)) with ((k + 1) * (k + 1) - 4 * k) in Hq by ring.
          lra. }
        assert (4 * k * (e * e) <= n * n * (e * e)) by nra.
        setoid_replace (n * n * (e * e)) with (n * (e * e) + n * k * (e * e)) in H1
          by (rewrite Hn; ring).
        lra. }
      apply Qmult_le_l with (z := k); assumption.
    - assert (Hk0 : k == 0) by lra. rewrite Hk0 in He.
      assert (e * e <= 0) by lra. pose proof (square_nonneg e). nra. }
  assert (Hsq : (2 * e) * (2 * e) <= (n * u) * (n * u)).
  { setoid_replace ((n * u) * (n * u)) with (n * ((u * u) * n)) by ring.
    rewrite HuW, HW. lra. }
  assert (0 <= n * u) by nra.
  destruct (Qlt_le_dec (n * u) (2 * e)) as [Hgt | Hle]; [exfalso | assumption].
  assert ((n * u) * (n * u) < (2 * e) * (2 * e)) by nra. lra.
Qed.

Lemma std_far : a + a' <= x + y -> s <= s'.
Proof.
  intros H. pose proof count_pos as Hp. pose proof variance_step as Hv.
  assert (0 <= (V' - V) * n).
  { rewrite Hv. apply Qmult_le_0_compat; lra. }
  assert (V <= V') by nra.
  destruct (Qlt_le_dec s' s) as [Hlt | Hle]; [exfalso | assumption].
  assert (s' * s' < s * s) by nra. lra.
Qed.

Lemma std_drop : s - s' <= (y - x) / 2.
Proof.
  pose proof count_pos as Hp. pose proof variance_step as Hv.
  setoid_replace ((y - x) / 2) with ((1 # 2) * (y - x)) by field.
  destruct (Qlt_le_dec s' s) as [Hlt | Hle]; [|lra].
  assert (H1 : 2 * (a - x) <= n * s).
  { apply (within_half (a - x) s V D); try assumption.
    setoid_replace ((a - x) * (a - x)) with ((x - a) * (x - a)) by ring. exact HV. }
  assert (H2 : 2 * (a' - y) <= n * s').
  { apply (within_half (a' - y) s' V' D'); try assumption.
    setoid_replace ((a' - y) * (a' - y)) with ((y - a') * (y - a')) by ring. exact HV'. }
  assert (H3 : (s - s') * (s + s') * n == (y - x) * (a + a' - x - y)).
  { setoid_replace ((s - s') * (s + s') * n) with (- ((s' * s' - s * s) * n)) by ring.
    rewrite HsV, Hs'V, Hv. ring. }
  assert (H4 : (y - x) * (a + a' - x - y) <= (y - x) * ((1 # 2) * (n * (s + s')))).
  { assert (Hle : a + a' - x - y <= (1 # 2) * (n * (s + s'))) by lra.
    assert (Hd : 0 <= y - x) by lra.
    rewrite !(Qmult_comm (y - x)). apply Qmult_le_compat_r; assumption. }
  assert (H5 : (s - s') * ((s + s') * n) <= ((1 # 2) * (y - x)) * ((s + s') * n)).
  { setoid_replace ((s - s') * ((s + s') * n)) with ((s - s') * (s + s') * n) by ring.
    rewrite H3.
    setoid_replace ((1 # 2) * (y - x) * ((s + s') * n))
      with ((y - x) * ((1 # 2) * (n * (s + s')))) by ring.
    exact H4. }
  assert (0 < (s + s') * n) by nra.
  apply Qmult_le_r in H5; assumption.
Qed.

End Deviation.

Lemma sum_squared_deviations c l :
  sum (map (fun v => (v - c) * (v - c)) l)
  == sum (map (fun v => v * v) l) - 2 * c * sum l + inject_Z (len l) * (c * c).
Proof.
  induction l as [|v l IH].
  - cbn [map]. rewrite !sum_nil. change (inject_Z (len (@nil Q))) with 0. ring.
  - cbn [map]. rewrite !sum_cons, IH. unfold len. cbn [length].
    rewrite Nat2Z.inj_succ, <- Z.add_1_r, inject_Z_plus. change (inject_Z 1) with 1. ring.
Qed.

Lemma sum_squares_nonneg (g : Q -> Q) l : 0 <= sum (map (fun v => g v * g v) l).
Proof.
  apply sum_nonneg, Forall_forall. intros u Hu.
  apply in_map_iff in Hu. destruct Hu as [w [<- _]]. apply square_nonneg.
Qed.

Lemma len_others {A} (l1 : list A) x l2 :
  inject_Z (len (l1 ++ x :: l2)) == inject_Z (len (l1 ++ l2)) + 1.
Proof.
  unfold len. rewrite !length_app. cbn [length].
  rewrite Nat.add_succ_r, Nat2Z.inj_succ, <- Z.add_1_r, inject_Z_plus. reflexivity.
Qed.

Lemma variance_middle l1 x l2 :
  let a := avg_demand (l1 ++ x :: l2) in
  variance (l1 ++ x :: l2) * inject_Z (len (l1 ++ x :: l2))
  == sum (map (fun v => (v - a) * (v - a)) (l1 ++ l2)) + (x - a) * (x - a).
Proof.
  intros a. unfold variance. fold (avg_demand (l1 ++ x :: l2)). fold a.
  rewrite sum_map_middle, map_app, sum_app.
  assert (H : ~ inject_Z (len (l1 ++ x :: l2)) == 0).
  { rewrite len_others. unfold len.
    assert (0 <= inject_Z (Z.of_nat (length (l1 ++ l2)))).
    { change 0 with (inject_Z 0). rewrite <- Zle_Qle. lia. }
    lra. }
  field. exact H.
Qed.

(** A standard deviation follows a raise. *)
Lemma exact_std_follows_raise l1 x y l2 s s' :
  let low := l1 ++ x :: l2 in
  let high := l1 ++ y :: l2 in
  x <= y ->
  0 <= s -> s * s == variance low ->
  0 <= s' -> s' * s' == variance high ->
  (avg_demand low + avg_demand high <= x + y -> s <= s') /\
  s - s' <= (y - x) / 2.
Proof.
  intros low high Hxy Hs HsV Hs' Hs'V.
  pose proof (avg_middle l1 x l2) as Ha. pose proof (avg_middle l1 y l2) as Ha'.
  rewrite (len_middle l1 x y l2) in Ha'.
  pose proof (variance_middle l1 x l2) as HV. pose proof (variance_middle l1 y l2) as HV'.
  rewrite (len_middle l1 x y l2) in HV'. cbv zeta in HV, HV'.
  pose proof (len_others l1 x l2) as Hn.
  fold low in Ha, HV, Hn, HsV, Ha', HV'. fold high in Ha', HV', Hs'V.
  set (a := avg_demand low) in *. set (a' := avg_demand high) in *.
  set (others := l1 ++ l2) in *.
  set (n := inject_Z (len low)) in *. set (k := inject_Z (len others)) in *.
  assert (Hk : 0 <= k).
  { subst k. unfold len. change 0 with (inject_Z 0). rewrite <- Zle_Qle. lia. }
  assert (HS : sum others == sum l1 + sum l2) by apply sum_app.
  rewrite <- HS in Ha, Ha'.
  pose proof (sum_squares_nonneg (fun v => v - a) others) as HD0.
  pose proof (sum_squares_nonneg (fun v => v - a') others) as HD'0.
  pose proof (sum_squared (fun v => v - a) others) as HCS.
  pose proof (sum_squared (fun v => v - a') others) as HCS'.
  rewrite sum_deviations in HCS, HCS'. fold k in HCS, HCS'.
  pose proof (sum_squared_deviations a others) as HDa.
  pose proof (sum_squared_deviations a' others) as HDa'.
  fold k in HDa, HDa'.
  set (D := sum (map (fun v => (v - a) * (v - a)) others)) in *.
  set (D' := sum (map (fun v => (v - a') * (v - a')) others)) in *.
  set (S := sum others) in *. set (Q2 := sum (map (fun v => v * v) others)) in *.
  clearbody D D' S Q2 a a' n k. clear HS.
  assert (HCSx : (a - x) * (a - x) <= k * D).
  { setoid_replace (a - x) with (S - k * a); [exact HCS|].
    assert (Hk' : k == n - 1) by lra. rewrite Hk'.
    setoid_replace (S - (n - 1) * a) with (S - a * n + a) by ring. rewrite Ha. ring. }
  assert (HCSy : (a' - y) * (a' - y) <= k * D').
  { setoid_replace (a' - y) with (S - k * a'); [exact HCS'|].
    assert (Hk' : k == n - 1) by lra. rewrite Hk'.
    setoid_replace (S - (n - 1) * a') with (S - a' * n + a') by ring. rewrite Ha'. ring. }
  assert (HD : D' - D == - (2 * S * (a' - a)) + k * (a' * a' - a * a)).
  { rewrite HDa, HDa'. ring. }
  split.
  - apply (std_far n k S x y a a' D D' (variance low) (variance high) s s');
      assumption.
  - apply (std_drop n k S x y a a' D D' (variance low) (variance high) s s');
      assumption.
Qed.


(** [demand_std] over an exact [numpy.std] follows a raise. *)
Lemma exact_demand_std_follows_raise (np_std : list Q -> Q) l1 x y l2 :
  let low := l1 ++ x :: l2 in
  let high := l1 ++ y :: l2 in
  0 <= x -> x <= y ->
  0 <= np_std low -> np_std low * np_std low == variance low ->
  0 <= np_std high -> np_std high * np_std high == variance high ->
  follows_raise x y (avg_demand low) (avg_demand high)
                (demand_std np_std low) (demand_std np_std high).
Proof.
  intros low high Hx Hxy Hs HsV Hs' Hs'V. unfold follows_raise, demand_std.
  subst low high. rewrite (len_middle l1 x y l2).
  destruct (1 <? len (l1 ++ x :: l2))%Z eqn:E.
  - destruct (exact_std_follows_raise l1 x y l2 _ _ Hxy Hs HsV Hs' Hs'V) as [Hfar Hdrop].
    repeat split; assumption.
  - apply Z.ltb_ge in E. unfold len in E. rewrite length_app in E. cbn [length] in E.
    destruct l1 as [|u l1]; [|cbn [length] in E; lia].
    destruct l2 as [|v l2]; [|cbn [length] in E; lia].
    pose proof (avg_middle [] x []) as Ha. pose proof (avg_middle [] y []) as Ha'.
    cbn [app] in *. rewrite sum_nil in Ha, Ha'.
    change (inject_Z (len [x])) with 1 in Ha. change (inject_Z (len [y])) with 1 in Ha'.
    set (a := avg_demand [x]) in *. set (a' := avg_demand [y]) in *.
    clearbody a a'.
    assert (a == x) by lra. assert (a' == y) by lra.
    setoid_replace ((y - x) / 2) with ((1 # 2) * (y - x)) by field.
    repeat split; intros; lra.
Qed.

End RaiseFacts.

(** C6, counterexample.  Raising the second day's demand from 0.19 to 0.21
    while the first stays at 0.10 (shelf life 30, horizon 2) lowers the
    second day's returned stock from 0.57 to 0.56.  Both series have an
    exact standard deviation (0.045 and 0.055).  The loop gives [0.09, 0.22]
    (9/100 and 11/50) and then [0.10, 0.24] (1/10 and 6/25); the correction
    pass rescales either to a total
    of 0.8, and the second day's share 0.22/0.31 exceeds 0.24/0.34. *)
Lemma single_day_monotonicity_counterexample :
  let low := [10 # 100; 19 # 100] in
  let high := [10 # 100; 21 # 100] in
  population_std low * population_std low == variance low /\
  population_std high * population_std high == variance high /\
  nth 0 low 0 == nth 0 high 0 /\
  nth 1 low 0 <= nth 1 high 0 /\
  map Qred (daily_stock (before_correction population_std low 30 2))
    = [9 # 100; 11 # 50] /\
  map Qred (daily_stock (before_correction population_std high 30 2))
    = [1 # 10; 6 # 25] /\
  nth 1 (daily_stock (allocate low 30 2)) 0 == 57 # 100 /\
  nth 1 (daily_stock (allocate high 30 2)) 0 == 56 # 100 /\
  ~ nth 1 (daily_stock (allocate low 30 2)) 0
    <= nth 1 (daily_stock (allocate high 30 2)) 0.
Proof.
  intros low high.
  split; [|split; [|split; [|split; [|split; [|split; [|split; [|split]]]]]]];
    now vm_compute.
Qed.

(** C6, amended.  Two demand series differ in one day only, [x] in the one
    and a larger [y] in the other, with no negative demand, and
    [numpy.std] follows the raise as a standard deviation does
    ([follows_raise]; [exact_demand_std_follows_raise] has it of every exact
    standard deviation).  Then the stock that the loop computes for that day
    is no smaller for the series with [y], each series with its own average
    and its own safety factor, and neither is the entry returned for that
    day, unless the correction pass runs on the series with [x]. *)
Theorem raised_day_stock_monotone
    (np_std : list Q -> Q) (earlier later : list Q) (x y : Q)
    (shelf_life horizon : Z) :
  let low := earlier ++ x :: later in
  let high := earlier ++ y :: later in
  let day := length earlier in
  let n_days := Z.min horizon (len low) in
  Forall (Qle 0) earlier -> Forall (Qle 0) later -> 0 <= x -> x <= y ->
  follows_raise x y (avg_demand low) (avg_demand high)
                (demand_std np_std low) (demand_std np_std high) ->
  nth day (daily_stock (before_correction np_std low shelf_life n_days)) 0
  <= nth day (daily_stock (before_correction np_std high shelf_life n_days)) 0 /\
  (80 <= service_level (before_correction np_std low shelf_life n_days) ->
   nth day (daily_stock (_optimize_single_product np_std low shelf_life horizon)) 0
   <= nth day (daily_stock (_optimize_single_product np_std high shelf_life horizon)) 0).
Proof.
  intros low high day n_days H1 H2 Hx Hxy [Hs [Hs' [Hfar Hdrop]]].
  pose proof (RaiseFacts.raised_before_correction np_std earlier x y later shelf_life
                n_days H1 H2 Hx Hxy Hs Hs' Hfar Hdrop) as Hloop.
  fold low high day in Hloop. split; [exact Hloop|]. intros Hlevel.
  assert (Hlen : len high = len low) by apply RaiseFacts.len_middle.
  pose proof (optimize_guard_cases np_std low shelf_life horizon) as Hl.
  pose proof (optimize_guard_cases np_std high shelf_life horizon) as Hh.
  cbv zeta in Hl, Hh. rewrite Hlen in Hh. fold n_days in Hl, Hh.
  destruct Hl as [[Hg ->] | [Hn [_ ->]]]; destruct Hh as [[Hg' ->] | [Hn' [_ ->]]].
  - apply Qle_refl.
  - exfalso. destruct Hg as [Hg | Hg]; [contradiction|].
    subst low. now destruct earlier.
  - exfalso. destruct Hg' as [Hg' | Hg']; [contradiction|].
    subst high. now destruct earlier.
  - rewrite (correction_skipped low shelf_life _ Hlevel).
    set (b := before_correction np_std low shelf_life n_days) in *.
    set (b' := before_correction np_std high shelf_life n_days) in *.
    cbn [rounded daily_stock].
    apply RaiseFacts.nth_map_le.
    + intros u v Huv. now apply round_mono.
    + rewrite RaiseFacts.correction_length. subst b b'.
      now rewrite !RaiseFacts.before_length.
    + apply Qle_trans with (nth day (daily_stock b') 0); [exact Hloop|].
      apply RaiseFacts.nth_correction_ge. subst b'. apply before_daily_nonneg.
Qed.

(** C6, on the second day of [50, 40] raised to 45 (the standard deviation
    falls from 5 to 2.5) and on the third day of [40, 45, 50] raised to 60
    (the standard deviations are irrational), shelf life 5. *)
Lemma raised_day_stock_monotone_witness :
  (nth 1 (daily_stock (before_correction population_std [50; 40] 5 2)) 0
   <= nth 1 (daily_stock (before_correction population_std [50; 45] 5 2)) 0 /\
   nth 1 (daily_stock (allocate [50; 40] 5 2)) 0
   <= nth 1 (daily_stock (allocate [50; 45] 5 2)) 0) /\
  (nth 2 (daily_stock (before_correction population_std [40; 45; 50] 5 3)) 0
   <= nth 2 (daily_stock (before_correction population_std [40; 45; 60] 5 3)) 0 /\
   nth 2 (daily_stock (allocate [40; 45; 50] 5 3)) 0
   <= nth 2 (daily_stock (allocate [40; 45; 60] 5 3)) 0).
Proof.
  split.
  - destruct (raised_day_stock_monotone population_std [50] [] 40 45 5 2) as [Hloop Hret].
    + repeat constructor. now vm_compute.
    + constructor.
    + now vm_compute.
    + now vm_compute.
    + split; [now vm_compute | split; [now vm_compute | split]].
      * intros H. exfalso. vm_compute in H. now apply H.
      * now vm_compute.
    + split; [exact Hloop | apply Hret; now vm_compute].
  - destruct (raised_day_stock_monotone population_std [40; 45] [] 50 60 5 3)
      as [Hloop Hret].
    + repeat constructor; now vm_compute.
    + constructor.
    + now vm_compute.
    + now vm_compute.
    + split; [now vm_compute | split; [now vm_compute | split]].
      * intros _. now vm_compute.
      * now vm_compute.
    + split; [exact Hloop | apply Hret; now vm_compute].
Defined.




(** ** The plan operation *)

Module PlanFacts.
Import String Plan.

Lemma dict_get_set_same {V} k (v : V) d : dict_get k (dict_set k v d) = Some v.
Proof. unfold dict_get, dict_set. simpl. now rewrite String.eqb_refl. Qed.

Lemma dict_get_set_other {V} k k' (v : V) d :
  k <> k' -> dict_get k (dict_set k' v d) = dict_get k d.
Proof.
  intros Hne. unfold dict_get, dict_set. simpl.
  assert (E : String.eqb k' k = false) by (apply String.eqb_neq; congruence).
  rewrite E. f_equal.
  induction d as [|[j w] d IH]; simpl; [reflexivity|].
  destruct (String.eqb j k') eqn:Ej; simpl.
  - apply String.eqb_eq in Ej. subst j. now rewrite E.
  - destruct (String.eqb j k); [reflexivity | exact IH].
Qed.

Lemma lookup_id rows pid p : lookup rows pid = Some p -> product_id p = pid.
Proof.
  intros H. apply find_some in H. destruct H as [_ H]. now apply String.eqb_eq.
Qed.

(** An id of the catalog that was requested has its entry in the
    predictions. *)
Lemma predictions_known fs m rows days pid p ids :
  lookup rows pid = Some p ->
  forall acc,
    In pid ids \/ (exists f, dict_get pid acc = Some f) ->
    exists f, dict_get pid (fold_left (predict_product fs m rows days) ids acc) = Some f.
Proof.
  intros Hsome. induction ids as [|x ids IH]; intros acc H; simpl.
  - destruct H as [[] | H]. exact H.
  - apply IH. destruct (string_dec x pid) as [-> | Hne].
    + right. unfold predict_product. rewrite Hsome. eexists. apply dict_get_set_same.
    + destruct H as [[Hx | Hin] | Hacc]; [congruence | now left |].
      right. unfold predict_product. destruct (lookup rows x); [|exact Hacc].
      rewrite dict_get_set_other by congruence. exact Hacc.
Qed.

(** The ids of the records built by the loop of [optimize_stock_plan]. *)
Lemma stock_plan_loop_ids predictions rows horizon ids :
  (forall pid p, In pid ids -> lookup rows pid = Some p ->
     exists f, dict_get pid predictions = Some f) ->
  map rec_product_id (stock_plan_loop predictions rows horizon ids)
  = filter (fun pid => match lookup rows pid with Some _ => true | None => false end) ids.
Proof.
  unfold stock_plan_loop. induction ids as [|x ids IH]; intros H; simpl; [reflexivity|].
  rewrite map_app, IH by (intros pid p Hin; apply H; now right).
  destruct (lookup rows x) as [p|] eqn:Ex.
  - destruct (H x p (or_introl eq_refl) Ex) as [f ->]. simpl.
    now rewrite (lookup_id _ _ _ Ex).
  - destruct (dict_get x predictions); reflexivity.
Qed.

Lemma optimize_stock_plan_ids fs ids rows m horizon :
  products_csv fs = Some rows -> load_model fs = inr m ->
  exists stock_plan,
    optimize_stock_plan fs (Some ids) horizon = inr stock_plan /\
    map rec_product_id stock_plan
    = filter (fun pid => match lookup rows pid with Some _ => true | None => false end) ids.
Proof.
  intros Hrows Hm. unfold optimize_stock_plan, predict_demand, read_products.
  rewrite Hm, Hrows. simpl. eexists. split; [reflexivity|].
  apply stock_plan_loop_ids. intros pid p Hin Hp.
  apply (predictions_known fs m rows horizon pid p ids Hp). now left.
Qed.


End PlanFacts.

Import String Plan PlanFacts.




(** ** Further properties of the allocator *)

Module AllocMore.
Import Py PyFacts RiskFacts AllocFacts.

#[export] Instance Qltb_proper : Proper (Qeq ==> Qeq ==> eq) Qltb.
Proof. intros a a' Ha b b' Hb. unfold Qltb. now rewrite Ha, Hb. Qed.

#[export] Instance max_proper : Proper (Qeq ==> Qeq ==> Qeq) max.
Proof.
  intros a a' Ha b b' Hb. unfold max. rewrite Ha, Hb.
  destruct (Qltb a' b'); assumption.
Qed.

#[export] Instance min_proper : Proper (Qeq ==> Qeq ==> Qeq) min.
Proof.
  intros a a' Ha b b' Hb. unfold min. rewrite Ha, Hb.
  destruct (Qltb b' a'); assumption.
Qed.

#[export] Instance round_half_even_proper : Proper (Qeq ==> eq) round_half_even.
Proof.
  intros x y H. unfold round_half_even.
  assert (Ef : Qfloor x = Qfloor y) by (apply Qfloor_comp; exact H).
  rewrite Ef.
  assert (E : Qcompare (x - inject_Z (Qfloor y)) (1 # 2)
              = Qcompare (y - inject_Z (Qfloor y)) (1 # 2))
    by (apply Qcompare_comp; [rewrite H|]; reflexivity).
  now rewrite E.
Qed.

#[export] Instance round_proper : Proper (Qeq ==> eq ==> eq) round.
Proof.
  intros x y H n n' <-. unfold round.
  assert (E : x * scale n == y * scale n) by now rewrite H.
  now rewrite (round_half_even_proper _ _ E).
Qed.

Lemma sum_scale c l : sum (map (fun x => x * c) l) == sum l * c.
Proof.
  induction l as [|x l IH]; simpl map.
  - rewrite sum_nil. ring.
  - rewrite !sum_cons, IH. ring.
Qed.

Lemma sum_all_zero l : Forall (fun x => x == 0) l -> sum l == 0.
Proof.
  induction 1 as [|x l Hx _ IH]; [reflexivity|].
  rewrite sum_cons, Hx, IH. ring.
Qed.

Lemma round_zero x n : x == 0 -> round x n == 0.
Proof. intros H. rewrite (round_proper _ _ H n n eq_refl). apply round_0. Qed.

Lemma rounded_le_of_le x n k :
  x <= inject_Z k -> round x n <= inject_Z k.
Proof.
  intros H. apply Qle_trans with (round (inject_Z k) n); [now apply round_mono|].
  rewrite round_id; [apply Qle_refl|].
  exists (k * 10 ^ Z.of_nat n)%Z. unfold scale. now rewrite inject_Z_mult.
Qed.

Section WithStd.

Variable np_std : list Q -> Q.

(** The state after the correction pass: non-negative stocks whose sum is
    the total, a risk in [0, 1] and a service level in [0, 100]. *)
Lemma corrected_invariants df sl n :
  let c := correction df sl (before_correction np_std df sl n) in
  Forall (fun x => 0 <= x) (daily_stock c) /\
  total_stock c == sum (daily_stock c) /\
  (0 <= wastage_risk c /\ wastage_risk c <= 1) /\
  (0 <= service_level c /\ service_level c <= 100).
Proof.
  intros c.
  pose proof (correction_daily_nonneg df sl _ (before_daily_nonneg np_std df sl n)) as Hnn.
  fold c in Hnn.
  assert (Ht : total_stock c == sum (daily_stock c)) by (apply correction_total; reflexivity).
  split; [exact Hnn|]. split; [exact Ht|].
  subst c. destruct (correction_cases df sl (before_correction np_std df sl n))
    as [[_ E] | [_ E]]; rewrite E in *.
  - cbn [wastage_risk service_level daily_stock] in *.
    split; [apply risk_range|]. apply service_level_range, sum_nonneg, Hnn.
  - cbn [before_correction wastage_risk service_level].
    split; [apply risk_range|].
    apply service_level_range, sum_nonneg, (before_daily_nonneg np_std df sl n).
Qed.

Lemma returned_invariants df sl horizon :
  let r := _optimize_single_product np_std df sl horizon in
  Forall (fun x => 0 <= x /\ has_decimals 2 x) (daily_stock r) /\
  (0 <= total_stock r /\ has_decimals 2 (total_stock r)) /\
  (0 <= wastage_risk r /\ wastage_risk r <= 1 /\ has_decimals 3 (wastage_risk r)) /\
  (0 <= service_level r /\ service_level r <= 100 /\ has_decimals 2 (service_level r)).
Proof.
  intros r. subst r.
  destruct (optimize_guard_cases np_std df sl horizon) as [[_ E] | [_ [_ E]]]; rewrite E.
  - cbn [daily_stock total_stock wastage_risk service_level].
    repeat split; try apply zero_decimal; try apply Qle_refl; try (now vm_compute).
    constructor; [|constructor]. split; [apply Qle_refl | apply zero_decimal].
  - destruct (corrected_invariants df sl (Z.min horizon (len df)))
      as [Hnn [Ht [[Hw0 Hw1] [Hs0 Hs1]]]].
    set (c := correction df sl _) in *. clearbody c.
    unfold rounded. cbn [daily_stock total_stock wastage_risk service_level].
    repeat split; try apply round_decimal; try (now apply round_nonneg).
    + apply Forall_forall. intros x Hx. apply in_map_iff in Hx.
      destruct Hx as [y [<- Hy]]. split; [|apply round_decimal].
      apply round_nonneg. rewrite Forall_forall in Hnn. now apply Hnn.
    + apply round_nonneg. rewrite Ht. now apply sum_nonneg.
    + now apply (rounded_le_of_le _ 3 1).
    + now apply (rounded_le_of_le _ 2 100).
Qed.

End WithStd.

End AllocMore.

Import AllocMore.

(** X1. Whatever the demand series, the shelf life and the horizon, the
    allocation returned has only non-negative daily stocks with at most two
    decimals, and a non-negative total with at most two decimals. *)
Theorem returned_stock_nonneg_two_decimals
    (np_std : list Q -> Q) (daily_forecast : list Q) (shelf_life horizon : Z) :
  let r := _optimize_single_product np_std daily_forecast shelf_life horizon in
  Forall (fun x => 0 <= x /\ has_decimals 2 x) (daily_stock r) /\
  0 <= total_stock r /\ has_decimals 2 (total_stock r).
Proof.
  intros r.
  destruct (returned_invariants np_std daily_forecast shelf_life horizon)
    as [Hd [[Ht Htd] _]].
  repeat split; assumption.
Qed.

(** X2. With a non-empty demand series and a positive horizon the returned
    daily_stock has exactly min(horizon, len(demand)) entries: never more
    days than were forecast, never more than the horizon. *)
Theorem daily_stock_length
    (np_std : list Q -> Q) (daily_forecast : list Q) (shelf_life horizon : Z) :
  daily_forecast <> [] -> (0 < horizon)%Z ->
  len (daily_stock (_optimize_single_product np_std daily_forecast shelf_life horizon))
  = Z.min horizon (len daily_forecast).
Proof.
  intros Hne Hh.
  assert (Hl : (0 < len daily_forecast)%Z).
  { destruct daily_forecast; [congruence|]. unfold len. cbn [List.length]. lia. }
  destruct (optimize_guard_cases np_std daily_forecast shelf_life horizon)
    as [[[H | H] _] | [_ [_ E]]]; [lia | congruence |].
  rewrite E. unfold rounded, len. cbn [daily_stock]. rewrite length_map.
  destruct (correction_cases daily_forecast shelf_life
              (before_correction np_std daily_forecast shelf_life
                 (Z.min horizon (Z.of_nat (List.length daily_forecast)))))
    as [[_ ->] | [_ ->]]; cbn [daily_stock before_correction];
    rewrite ?length_map; unfold range; rewrite length_seq; lia.
Qed.

(** X2, on a five-day forecast cut to a horizon of three days. *)
Lemma daily_stock_length_witness :
  len (daily_stock (allocate [40; 45; 50; 55; 60] 7 3)) = 3%Z.
Proof.
  apply (daily_stock_length population_std [40; 45; 50; 55; 60] 7 3);
    [discriminate | reflexivity].
Defined.

(** X3. With a non-empty demand series and a negative horizon the guard
    does not fire and the loop does not run: the allocation returned has no
    daily stock at all, a total of 0, a risk of 0 and a service level of 0. *)
Theorem negative_horizon_empty_allocation
    (np_std : list Q -> Q) (daily_forecast : list Q) (shelf_life horizon : Z) :
  daily_forecast <> [] -> (horizon < 0)%Z ->
  let r := _optimize_single_product np_std daily_forecast shelf_life horizon in
  daily_stock r = [] /\ total_stock r == 0 /\ wastage_risk r == 0 /\ service_level r == 0.
Proof.
  intros Hne Hh r. subst r.
  destruct (optimize_guard_cases np_std daily_forecast shelf_life horizon)
    as [[[H | H] _] | [_ [_ E]]];
    [pose proof (Nat2Z.is_nonneg (List.length daily_forecast)); unfold len in H; lia
    | congruence |].
  rewrite E.
  assert (Eb : before_correction np_std daily_forecast shelf_life
                 (Z.min horizon (len daily_forecast))
               = mkAllocation [] 0 0 (min 100 (0 / max (sum daily_forecast) 1 * 100))).
  { unfold before_correction, range.
    replace (Z.to_nat (Z.min horizon (len daily_forecast))) with O
      by (unfold len; lia).
    reflexivity. }
  rewrite Eb.
  assert (Es : min 100 (0 / max (sum daily_forecast) 1 * 100) == 0).
  { assert (Ez : 0 / max (sum daily_forecast) 1 * 100 == 0)
      by (unfold Qdiv; ring).
    rewrite Ez. reflexivity. }
  rewrite correction_runs by (cbn [service_level]; rewrite Es; reflexivity).
  cbn [daily_stock service_level map]. unfold rounded.
  cbn [daily_stock total_stock wastage_risk service_level map].
  rewrite risk_empty_stock, sum_nil.
  split; [reflexivity|]. split; [|split]; now apply round_zero.
Qed.

(** X3, on a three-day forecast with horizon -1. *)
Lemma negative_horizon_empty_allocation_witness :
  daily_stock (allocate [40; 45; 50] 7 (-1)) = [].
Proof.
  apply (negative_horizon_empty_allocation population_std [40; 45; 50] 7 (-1));
    [discriminate | reflexivity].
Defined.

Module CorrectionFacts.
Import Py PyFacts RiskFacts AllocFacts AllocMore.

(** A service level below 80 is the plain ratio: the cap at 100 is idle. *)
Lemma uncapped_level ts m :
  min 100 (ts / m * 100) < 80 -> min 100 (ts / m * 100) = ts / m * 100.
Proof.
  intros H. destruct (min_spec 100 (ts / m * 100)) as [[_ E] | [_ E]]; [exact E|].
  rewrite E in H. exfalso. revert H. now vm_compute.
Qed.

Lemma corrected_level_80 ts m :
  0 < m -> 1 <= min 100 (ts / m * 100) -> min 100 (ts / m * 100) < 80 ->
  ts * (80 / max (min 100 (ts / m * 100)) 1) == (80 # 100) * m /\
  min 100 (ts * (80 / max (min 100 (ts / m * 100)) 1) / m * 100) == 80.
Proof.
  intros Hm H1 H80. rewrite (uncapped_level _ _ H80) in *.
  set (x := ts / m * 100) in *.
  assert (Emax : max x 1 = x).
  { destruct (max_spec x 1) as [[Hlt _] | [_ E]]; [exfalso; lra | exact E]. }
  rewrite Emax.
  assert (Hts : ts == x * m / 100) by (subst x; field; lra).
  assert (Hx : ~ x == 0) by lra.
  assert (E1 : ts * (80 / x) == (80 # 100) * m) by (rewrite Hts; field; exact Hx).
  split; [exact E1|].
  assert (E2 : ts * (80 / x) / m * 100 == 80) by (rewrite E1; field; lra).
  rewrite E2. reflexivity.
Qed.

Lemma corrected_level_low ts m :
  0 < m -> 0 <= ts -> min 100 (ts / m * 100) < 1 ->
  min 100 (ts * (80 / max (min 100 (ts / m * 100)) 1) / m * 100)
  == 80 * min 100 (ts / m * 100).
Proof.
  intros Hm Hts H1.
  assert (H80 : min 100 (ts / m * 100) < 80) by lra.
  rewrite (uncapped_level _ _ H80) in *.
  set (x := ts / m * 100) in *.
  assert (Emax : max x 1 = 1).
  { destruct (max_spec x 1) as [[_ E] | [Hge _]]; [exact E | exfalso; lra]. }
  rewrite Emax.
  assert (E : ts * (80 / 1) / m * 100 == 80 * x) by (subst x; field; lra).
  rewrite E.
  destruct (min_spec 100 (80 * x)) as [[_ ->] | [Hge _]]; [reflexivity | exfalso; lra].
Qed.

(** The correction pass on any state whose total is the sum of its stocks
    and whose service level is the capped ratio. *)
Lemma correction_level df sl ds wr :
  Forall (fun x => 0 <= x) ds ->
  let a := mkAllocation ds (sum ds) wr (min 100 (sum ds / max (sum df) 1 * 100)) in
  let c := correction df sl a in
  (1 <= service_level a -> service_level a < 80 ->
     service_level c == 80 /\
     total_stock c == (80 # 100) * max (sum df) 1 /\
     service_level (rounded c) == 80) /\
  (service_level a < 1 ->
     service_level c == 80 * service_level a /\ service_level c < 80).
Proof.
  intros Hnn a c.
  pose proof (max_1_pos (sum df)) as Hm.
  pose proof (sum_nonneg _ Hnn) as Hts.
  set (m := max (sum df) 1) in *. set (ts := sum ds) in *.
  set (lvl := min 100 (ts / m * 100)).
  assert (Ec : lvl < 80 ->
               c = mkAllocation
                     (map (fun stock => stock * (80 / max lvl 1)) ds)
                     (sum (map (fun stock => stock * (80 / max lvl 1)) ds))
                     (_calculate_wastage_risk
                        (map (fun stock => stock * (80 / max lvl 1)) ds) df sl)
                     (min 100 (sum (map (fun stock => stock * (80 / max lvl 1)) ds)
                               / m * 100))).
  { intros H. subst c. apply (correction_runs df sl a H). }
  assert (Hsum : sum (map (fun stock => stock * (80 / max lvl 1)) ds)
                 == ts * (80 / max lvl 1)) by apply sum_scale.
  change (service_level a) with lvl. clearbody c. clear a.
  split.
  - intros H1 H80. rewrite (Ec H80). unfold rounded.
    cbn [service_level total_stock].
    destruct (corrected_level_80 ts m Hm H1 H80) as [Et Es]. fold lvl in Et, Es.
    assert (El : min 100 (sum (map (fun stock => stock * (80 / max lvl 1)) ds) / m * 100)
                 == 80).
    { rewrite Hsum. exact Es. }
    split; [exact El|]. split; [rewrite Hsum; exact Et|].
    rewrite (round_proper _ _ El 2%nat 2%nat eq_refl). now vm_compute.
  - intros H1. assert (H80 : lvl < 80) by lra.
    rewrite (Ec H80). cbn [service_level].
    pose proof (corrected_level_low ts m Hm Hts H1) as E. fold lvl in E.
    assert (El : min 100 (sum (map (fun stock => stock * (80 / max lvl 1)) ds) / m * 100)
                 == 80 * lvl).
    { rewrite Hsum. exact E. }
    split; [exact El|]. rewrite El. lra.
Qed.

End CorrectionFacts.

Import CorrectionFacts.

(** X4. One correction pass reaches a service level of exactly 80 whenever
    the level before it was at least 1 (and below 80): the total stock
    becomes 0.8 * max(total_demand, 1) and the returned service level is 80.
    When the level before the pass was below 1 the pass multiplies it by 80
    and the corrected level stays below 80. *)
Theorem correction_reaches_80
    (np_std : list Q -> Q) (daily_forecast : list Q) (shelf_life horizon : Z) :
  let n_days := Z.min horizon (len daily_forecast) in
  let b := before_correction np_std daily_forecast shelf_life n_days in
  let c := correction daily_forecast shelf_life b in
  (1 <= service_level b -> service_level b < 80 ->
     service_level c == 80 /\
     total_stock c == (80 # 100) * max (sum daily_forecast) 1 /\
     service_level (rounded c) == 80) /\
  (service_level b < 1 ->
     service_level c == 80 * service_level b /\ service_level c < 80).
Proof.
  intros n_days b c.
  exact (correction_level daily_forecast shelf_life (daily_stock b) (wastage_risk b)
           (before_daily_nonneg np_std daily_forecast shelf_life n_days)).
Qed.

(** X4, on the one-day series [0.5] (level 50 before the pass) and on the
    series [0.004] (stock 0.0, level 0 before the pass). *)
Lemma correction_reaches_80_witness :
  service_level (rounded (correction [1 # 2] 7
                            (before_correction population_std [1 # 2] 7 1))) == 80 /\
  service_level (correction [4 # 1000] 7
                   (before_correction population_std [4 # 1000] 7 1)) < 80.
Proof.
  split.
  - refine (proj2 (proj2 (proj1 (correction_reaches_80 population_std [1 # 2] 7 1) _ _)));
      now vm_compute.
  - refine (proj2 (proj2 (correction_reaches_80 population_std [4 # 1000] 7 1) _));
      now vm_compute.
Defined.

Module ZeroDemand.
Import Py PyFacts RiskFacts AllocFacts AllocMore.

Lemma nth_all_zero l d : Forall (fun x => x == 0) l -> nth d l 0 == 0.
Proof.
  intros H. revert d. induction H as [|x l Hx _ IH]; intros [|d]; simpl;
    try reflexivity; auto.
Qed.

Lemma loop_body_zero df avg ssf sl d :
  Forall (fun x => x == 0) df -> (Z.of_nat d < len df)%Z ->
  loop_body df avg ssf sl d == 0.
Proof.
  intros Hz Hd. unfold loop_body.
  assert (E : (Z.of_nat d <? len df)%Z = true) by now apply Z.ltb_lt.
  rewrite E. pose proof (nth_all_zero df d Hz) as Hx.
  set (x := nth d df 0) in *.
  assert (Hr : forall y, y == 0 -> max 0 (round y 2) == 0).
  { intros y Hy. rewrite (round_zero y 2 Hy). reflexivity. }
  apply Hr.
  destruct (Qltb (avg * (12 # 10)) x); [rewrite Hx; ring|].
  destruct (Qltb x (avg * (8 # 10))); rewrite Hx; ring.
Qed.

Lemma map_all_zero {A} (f : A -> Q) l :
  (forall a, In a l -> f a == 0) -> Forall (fun x => x == 0) (map f l).
Proof.
  intros H. apply Forall_forall. intros x Hx. apply in_map_iff in Hx.
  destruct Hx as [a [<- Ha]]. now apply H.
Qed.

Lemma risk_all_zero ds df sl :
  sum ds == 0 -> sum df == 0 -> _calculate_wastage_risk ds df sl = 0.
Proof.
  intros Hs Hf. destruct ds as [|s ds]; [apply risk_empty_stock|].
  destruct df as [|f df]; [apply risk_empty_forecast|].
  rewrite risk_unfold by discriminate.
  apply Qeq_bool_iff in Hf. rewrite Hf.
  assert (E : Qltb 0 (sum (s :: ds)) = false) by (apply Qltb_ge; lra).
  now rewrite E.
Qed.

Lemma level_zero ts m : ts == 0 -> min 100 (ts / m * 100) == 0.
Proof.
  intros H. assert (E : ts / m * 100 == 0) by (rewrite H; unfold Qdiv; ring).
  rewrite E. reflexivity.
Qed.

End ZeroDemand.

Import ZeroDemand.

(** X5. On a non-empty demand series of zeros only (positive horizon) the
    allocator returns zero stock for every day, a total of 0, a wastage risk
    of 0 and a service level of 0: the correction pass runs and changes
    nothing. *)
Theorem all_zero_demand_allocation
    (np_std : list Q -> Q) (daily_forecast : list Q) (shelf_life horizon : Z) :
  daily_forecast <> [] -> (0 < horizon)%Z ->
  Forall (fun x => x == 0) daily_forecast ->
  let r := _optimize_single_product np_std daily_forecast shelf_life horizon in
  Forall (fun x => x == 0) (daily_stock r) /\
  total_stock r == 0 /\ wastage_risk r == 0 /\ service_level r == 0.
Proof.
  intros Hne Hh Hz r. subst r.
  assert (Hl : (0 < len daily_forecast)%Z).
  { destruct daily_forecast; [congruence|]. unfold len. cbn [List.length]. lia. }
  destruct (optimize_guard_cases np_std daily_forecast shelf_life horizon)
    as [[[H | H] _] | [_ [_ E]]]; [lia | congruence |].
  rewrite E. set (n_days := Z.min horizon (len daily_forecast)).
  set (b := before_correction np_std daily_forecast shelf_life n_days).
  assert (Hb : Forall (fun x => x == 0) (daily_stock b)).
  { subst b. cbn [before_correction daily_stock]. apply map_all_zero.
    intros d Hd. apply loop_body_zero; [assumption|].
    unfold range in Hd. apply in_seq in Hd. lia. }
  assert (Hfz : sum daily_forecast == 0) by now apply sum_all_zero.
  assert (Hlow : service_level b < 80).
  { change (service_level b) with
      (min 100 (sum (daily_stock b) / max (sum daily_forecast) 1 * 100)).
    rewrite (level_zero _ _ (sum_all_zero _ Hb)). reflexivity. }
  rewrite (correction_runs _ _ _ Hlow).
  set (f := 80 / max (service_level b) 1).
  assert (Hc : Forall (fun x => x == 0) (map (fun stock => stock * f) (daily_stock b))).
  { apply map_all_zero. intros x Hx. rewrite Forall_forall in Hb.
    rewrite (Hb x Hx). ring. }
  clearbody b f. cbv zeta. unfold rounded.
  cbn [daily_stock total_stock wastage_risk service_level].
  split; [|split; [|split]].
  - apply map_all_zero. intros x Hx. apply round_zero.
    rewrite Forall_forall in Hc. now apply Hc.
  - apply round_zero, sum_all_zero, Hc.
  - apply round_zero. rewrite (risk_all_zero _ _ _ (sum_all_zero _ Hc) Hfz). reflexivity.
  - apply round_zero, level_zero, sum_all_zero, Hc.
Qed.

(** X5, on three days of zero demand. *)
Lemma all_zero_demand_allocation_witness :
  let r := allocate [0; 0; 0] 5 7 in
  Forall (fun x => x == 0) (daily_stock r) /\
  total_stock r == 0 /\ wastage_risk r == 0 /\ service_level r == 0.
Proof.
  apply (all_zero_demand_allocation population_std [0; 0; 0] 5 7).
  - discriminate.
  - reflexivity.
  - repeat constructor.
Defined.

Module RiskMore.
Import Py PyFacts RiskFacts AllocFacts AllocMore.

Lemma Qdiv_le_0 x d : 0 < d -> (x / d <= 0 <-> x <= 0).
Proof.
  intros Hd. split; intros H.
  - assert (E : x == x / d * d) by (field; lra). rewrite E. nra.
  - apply Qle_shift_div_r; [assumption | lra].
Qed.

Lemma Qdiv_le_compat x y d : 0 < d -> x <= y -> x / d <= y / d.
Proof.
  intros Hd H. apply Qmult_le_compat_r; [assumption|].
  apply Qinv_le_0_compat. lra.
Qed.

Lemma max_0_zero x : max 0 x == 0 <-> x <= 0.
Proof.
  destruct (max_spec 0 x) as [[H ->] | [H ->]]; split; intros; lra.
Qed.

Lemma min_1_mono a b : a <= b -> min 1 a <= min 1 b.
Proof.
  intros H. apply min_glb; [apply min_l|].
  eapply Qle_trans; [apply min_r | exact H].
Qed.

Lemma positive_sum_nonempty (l : list Q) : 0 < sum l -> l <> [].
Proof. intros H ->. rewrite sum_nil in H. lra. Qed.

Lemma horizon_days_pos (ds : list Q) : 0 < inject_Z (Z.max (len ds) 1).
Proof. change 0 with (inject_Z 0). rewrite <- Zlt_Qlt. lia. Qed.

End RiskMore.

Import RiskMore.

(** X6. For a demand series of positive total and a non-empty stock list,
    the wastage risk is zero exactly when the stock does not exceed the
    demand, the shelf life is at least 14 days and the shelf life is at least
    the number of planned days. *)
Theorem risk_zero_iff (daily_stock daily_forecast : list Q) (shelf_life : Z) :
  daily_stock <> [] -> 0 < sum daily_forecast ->
  (_calculate_wastage_risk daily_stock daily_forecast shelf_life == 0 <->
   sum daily_stock <= sum daily_forecast /\
   (14 <= shelf_life)%Z /\ (len daily_stock <= shelf_life)%Z).
Proof.
  intros Hs Hpos. pose proof (positive_sum_nonempty _ Hpos) as Hf.
  rewrite (risk_unfold _ _ _ Hs Hf).
  rewrite (Qeq_bool_false (sum daily_forecast) 0) by lra.
  set (e := (sum daily_stock - sum daily_forecast) / sum daily_forecast).
  set (s := inject_Z (14 - shelf_life) / 14).
  set (h := inject_Z (len daily_stock - shelf_life)
            / inject_Z (Z.max (len daily_stock) 1)).
  assert (He : e <= 0 <-> sum daily_stock <= sum daily_forecast).
  { subst e. rewrite (Qdiv_le_0 _ _ Hpos). split; intros; lra. }
  assert (H14 : s <= 0 <-> (14 <= shelf_life)%Z).
  { subst s. rewrite Qdiv_le_0 by reflexivity.
    change 0 with (inject_Z 0). rewrite <- Zle_Qle. lia. }
  assert (Hh : h <= 0 <-> (len daily_stock <= shelf_life)%Z).
  { subst h. rewrite (Qdiv_le_0 _ _ (horizon_days_pos daily_stock)).
    change 0 with (inject_Z 0). rewrite <- Zle_Qle. lia. }
  rewrite <- He, <- H14, <- Hh, <- !max_0_zero.
  pose proof (max_l 0 e). pose proof (max_l 0 s). pose proof (max_l 0 h).
  destruct (min_spec 1 (max 0 e * (5 # 10) + max 0 s * (3 # 10) + max 0 h * (2 # 10)))
    as [[Hlt ->] | [Hle ->]]; split; intros; lra.
Qed.

(** X6, on a stock equal to the demand for two days with a shelf life of
    30 days. *)
Lemma risk_zero_iff_witness :
  _calculate_wastage_risk [50; 50] [50; 50] 30 == 0.
Proof.
  apply (risk_zero_iff [50; 50] [50; 50] 30);
    [discriminate | now vm_compute |].
  split; [now vm_compute | split; now vm_compute].
Defined.

(** X7. For a demand series of positive total, a stock list with the same
    number of days and a larger total never has a smaller wastage risk. *)
Theorem risk_monotone_in_stock
    (daily_stock daily_stock' daily_forecast : list Q) (shelf_life : Z) :
  daily_stock <> [] -> len daily_stock = len daily_stock' ->
  0 < sum daily_forecast -> sum daily_stock <= sum daily_stock' ->
  _calculate_wastage_risk daily_stock daily_forecast shelf_life
  <= _calculate_wastage_risk daily_stock' daily_forecast shelf_life.
Proof.
  intros Hs Hlen Hpos Hle. pose proof (positive_sum_nonempty _ Hpos) as Hf.
  assert (Hs' : daily_stock' <> []).
  { intros ->. destruct daily_stock; [congruence|]. unfold len in Hlen.
    cbn [List.length] in Hlen. lia. }
  rewrite (risk_unfold _ _ _ Hs Hf), (risk_unfold _ _ _ Hs' Hf), <- Hlen.
  rewrite (Qeq_bool_false (sum daily_forecast) 0) by lra.
  apply min_1_mono.
  assert (He : max 0 ((sum daily_stock - sum daily_forecast) / sum daily_forecast)
               <= max 0 ((sum daily_stock' - sum daily_forecast) / sum daily_forecast)).
  { apply max_mono_r, Qdiv_le_compat; [assumption | lra]. }
  lra.
Qed.

(** X7, from a stock of [50, 50] to one of [60, 70] against a demand of
    [50, 50]. *)
Lemma risk_monotone_in_stock_witness :
  _calculate_wastage_risk [50; 50] [50; 50] 5
  <= _calculate_wastage_risk [60; 70] [50; 50] 5.
Proof.
  apply (risk_monotone_in_stock [50; 50] [60; 70] [50; 50] 5);
    [discriminate | reflexivity | now vm_compute | now vm_compute].
Defined.

(** X8. For a positive predicted demand the status follows the stock:
    with more recommended stock a product classified overstock stays
    overstock, and with less a product classified understock stays
    understock. *)
Theorem status_monotone_in_stock
    (recommended_stock recommended_stock' predicted_demand : Q) (shelf_life : Z) :
  0 < predicted_demand -> recommended_stock <= recommended_stock' ->
  (_determine_stock_status recommended_stock predicted_demand shelf_life = overstock ->
   _determine_stock_status recommended_stock' predicted_demand shelf_life = overstock) /\
  (_determine_stock_status recommended_stock' predicted_demand shelf_life = understock ->
   _determine_stock_status recommended_stock predicted_demand shelf_life = understock).
Proof.
  intros Hpd Hle. unfold _determine_stock_status.
  rewrite (Qeq_bool_false predicted_demand 0) by lra.
  pose proof (Qdiv_le_compat _ _ _ Hpd Hle) as Hr.
  set (r := recommended_stock / predicted_demand) in *.
  set (r' := recommended_stock' / predicted_demand) in *.
  destruct (shelf_life <=? 3)%Z; [|destruct (shelf_life <=? 7)%Z]; cbv zeta beta iota;
    repeat match goal with
    | |- context [Qltb ?a ?b] =>
      let E := fresh "E" in
      destruct (Qltb a b) eqn:E; [apply Qltb_lt in E | apply Qltb_ge in E]
    end; split; intros; try reflexivity; try discriminate; exfalso; lra.
Qed.

(** X8, from a stock of 150 to one of 160 against a demand of 100 with a
    shelf life of 5. *)
Lemma status_monotone_in_stock_witness :
  _determine_stock_status 160 100 5 = overstock.
Proof.
  refine (proj1 (status_monotone_in_stock 150 160 100 5 _ _) _);
    [now vm_compute | now vm_compute | reflexivity].
Defined.

(** X9. The bands widen with the shelf life: a stock that is optimal for
    some shelf life stays optimal for every longer shelf life, whatever the
    predicted demand. *)
Theorem status_optimal_for_longer_shelf_life
    (recommended_stock predicted_demand : Q) (shelf_life shelf_life' : Z) :
  (shelf_life <= shelf_life')%Z ->
  _determine_stock_status recommended_stock predicted_demand shelf_life = optimal ->
  _determine_stock_status recommended_stock predicted_demand shelf_life' = optimal.
Proof.
  intros Hsl. unfold _determine_stock_status.
  destruct (Qeq_bool predicted_demand 0); [trivial|].
  set (r := recommended_stock / predicted_demand).
  destruct (shelf_life <=? 3)%Z eqn:E3; destruct (shelf_life <=? 7)%Z eqn:E7;
    destruct (shelf_life' <=? 3)%Z eqn:E3'; destruct (shelf_life' <=? 7)%Z eqn:E7';
    try (apply Z.leb_le in E3); try (apply Z.leb_gt in E3);
    try (apply Z.leb_le in E7); try (apply Z.leb_gt in E7);
    try (apply Z.leb_le in E3'); try (apply Z.leb_gt in E3');
    try (apply Z.leb_le in E7'); try (apply Z.leb_gt in E7');
    try lia; cbv zeta beta iota;
    repeat match goal with
    | |- context [Qltb ?a ?b] =>
      let E := fresh "E" in
      destruct (Qltb a b) eqn:E; [apply Qltb_lt in E | apply Qltb_ge in E]
    end; intros; try reflexivity; try discriminate; exfalso; lra.
Qed.

(** X9, for a stock of 125 against a demand of 100, from a shelf life of 5
    days to one of 10. *)
Lemma status_optimal_for_longer_shelf_life_witness :
  _determine_stock_status 125 100 10 = optimal.
Proof.
  apply (status_optimal_for_longer_shelf_life 125 100 5 10); [lia | reflexivity].
Defined.

(** ** Recommendations, costs and summary *)

Module ReportFacts.
Import String Py PyFacts AllocMore Plan Report.

Lemma In_firstn {A} n (l : list A) x : In x (firstn n l) -> In x l.
Proof.
  revert l. induction n as [|n IH]; intros [|y l]; simpl; try tauto.
  intros [H | H]; [now left | right; now apply IH].
Qed.

Lemma status_eqb_eq a b : status_eqb a b = true <-> a = b.
Proof. destruct a, b; simpl; split; intros; congruence. Qed.

Lemma status_eqb_refl a : status_eqb a a = true.
Proof. now apply status_eqb_eq. Qed.

Lemma status_eqb_neq a b : a <> b -> status_eqb a b = false.
Proof.
  intros H. destruct (status_eqb a b) eqn:E; [|reflexivity].
  apply status_eqb_eq in E. contradiction.
Qed.

(** [status_counts[status]] after an assignment to the same key, and to
    another one. *)
Lemma counts_get_set_same s n d : counts_get s (counts_set s n d) = n.
Proof.
  induction d as [|[s0 m] d IH]; simpl.
  - now rewrite status_eqb_refl.
  - destruct (status_eqb s0 s) eqn:E; simpl; rewrite E; [reflexivity | exact IH].
Qed.

Lemma counts_get_set_other s s' n d :
  s <> s' -> counts_get s (counts_set s' n d) = counts_get s d.
Proof.
  intros Hne. induction d as [|[s0 m] d IH]; simpl.
  - rewrite status_eqb_neq by congruence. reflexivity.
  - destruct (status_eqb s0 s') eqn:E; simpl.
    + apply status_eqb_eq in E. subst s0.
      rewrite status_eqb_neq by congruence. reflexivity.
    + destruct (status_eqb s0 s); [reflexivity | exact IH].
Qed.

Lemma counts_set_keys s n d x :
  In x (map fst (counts_set s n d)) <-> x = s \/ In x (map fst d).
Proof.
  induction d as [|[s0 m] d IH]; simpl.
  - intuition.
  - destruct (status_eqb s0 s) eqn:E; simpl.
    + apply status_eqb_eq in E. subst s0. intuition.
    + rewrite IH. intuition.
Qed.

Lemma counts_set_NoDup s n d :
  NoDup (map fst d) -> NoDup (map fst (counts_set s n d)).
Proof.
  induction d as [|[s0 m] d IH]; simpl; intros H.
  - constructor; [intros [] | constructor].
  - inversion H as [|? ? Hnotin Hd]; subst.
    destruct (status_eqb s0 s) eqn:E; simpl.
    + constructor; assumption.
    + constructor; [|now apply IH].
      rewrite counts_set_keys. intros [-> | Hin]; [|contradiction].
      rewrite status_eqb_refl in E. discriminate.
Qed.

Lemma counts_set_total s n d :
  fold_right Z.add 0%Z (map snd (counts_set s n d))
  = (fold_right Z.add 0%Z (map snd d) - counts_get s d + n)%Z.
Proof.
  induction d as [|[s0 m] d IH]; simpl.
  - lia.
  - destruct (status_eqb s0 s); simpl; [lia | rewrite IH; lia].
Qed.

(** The invariant of the counting loop of [_generate_summary]. *)
Lemma count_loop stock_plan : forall acc,
  NoDup (map fst acc) ->
  let counts :=
    fold_left
      (fun status_counts item =>
         counts_set (rec_stock_status item)
           (counts_get (rec_stock_status item) status_counts + 1)%Z status_counts)
      stock_plan acc in
  NoDup (map fst counts) /\
  (forall s, counts_get s counts
             = (counts_get s acc
                + Z.of_nat (List.length
                              (filter (fun r => status_eqb (rec_stock_status r) s)
                                      stock_plan)))%Z) /\
  fold_right Z.add 0%Z (map snd counts)
  = (fold_right Z.add 0%Z (map snd acc) + len stock_plan)%Z.
Proof.
  induction stock_plan as [|r rs IH]; intros acc Hnd; cbn [fold_left].
  - cbv zeta. split; [assumption|]. split; [intros; simpl; lia|]. unfold len. simpl. lia.
  - specialize (IH _ (counts_set_NoDup (rec_stock_status r)
                        (counts_get (rec_stock_status r) acc + 1)%Z acc Hnd)).
    cbv zeta in IH |- *. destruct IH as [Hn [Hget Htot]].
    split; [exact Hn|]. split.
    + intros s. rewrite Hget. cbn [filter].
      destruct (status_eqb (rec_stock_status r) s) eqn:E.
      * apply status_eqb_eq in E. subst s. rewrite counts_get_set_same.
        cbn [List.length]. lia.
      * rewrite counts_get_set_other; [reflexivity|].
        intros ->. rewrite status_eqb_refl in E. discriminate.
    + rewrite Htot, counts_set_total. unfold len. cbn [List.length]. lia.
Qed.

(** The mean of numbers of an interval lies in the interval. *)
Lemma sum_bounds lo hi l :
  Forall (fun x => lo <= x /\ x <= hi) l ->
  inject_Z (len l) * lo <= sum l /\ sum l <= inject_Z (len l) * hi.
Proof.
  induction 1 as [|x l [Hlo Hhi] _ [IHlo IHhi]].
  - split; now vm_compute.
  - assert (E : inject_Z (len (x :: l)) == inject_Z (len l) + 1).
    { unfold len. cbn [List.length]. rewrite Nat2Z.inj_succ, <- Z.add_1_r, inject_Z_plus.
      reflexivity. }
    rewrite sum_cons, E. split; lra.
Qed.

Lemma mean_bounds lo hi l :
  l <> [] -> Forall (fun x => lo <= x /\ x <= hi) l ->
  lo <= sum l / inject_Z (len l) /\ sum l / inject_Z (len l) <= hi.
Proof.
  intros Hne H. destruct (sum_bounds lo hi l H) as [Hlo Hhi].
  assert (Hn : 0 < inject_Z (len l)).
  { change 0 with (inject_Z 0). rewrite <- Zlt_Qlt. destruct l; [congruence|].
    unfold len. cbn [List.length]. lia. }
  split.
  - apply Qle_shift_div_l; [assumption | lra].
  - apply Qle_shift_div_r; [assumption | lra].
Qed.

(** A summary exists for a non-empty plan only, and is then made of
    these five values. *)
Lemma summary_some stock_plan s :
  _generate_summary stock_plan = Some s ->
  stock_plan <> [] /\
  s = mkSummary
        (round (sum (map rec_recommended_stock stock_plan)) 2)
        (round (sum (map rec_predicted_demand stock_plan)) 2)
        (round (sum (map rec_service_level stock_plan) / inject_Z (len stock_plan)) 2)
        (round (sum (map rec_wastage_risk stock_plan) / inject_Z (len stock_plan)) 3)
        (count_statuses stock_plan).
Proof.
  destruct stock_plan as [|r rs]; [discriminate|].
  intros H. injection H as <-. split; [discriminate | reflexivity].
Qed.

End ReportFacts.

Import Report ReportFacts.

(** X10. Whatever the plan, the status and the shelf life, between one and
    four recommendations are given. *)
Theorem recommendations_count
    (optimized_plan : Allocation) (stock_status : StockStatus) (shelf_life : Z) :
  (1 <= List.length (_generate_recommendations optimized_plan stock_status shelf_life) <= 4)%nat.
Proof.
  unfold _generate_recommendations. rewrite length_firstn.
  split; [|apply Nat.le_min_l].
  apply Nat.min_glb; [lia|].
  destruct stock_status; cbn [app List.length]; lia.
Qed.

(** X11. For a plan returned by the allocator the advice to review the
    forecast, reserved for service levels above 120, is never given: the
    returned service level never exceeds 100. *)
Theorem no_over_forecasting_advice
    (np_std : list Q -> Q) (daily_forecast : list Q) (shelf_life horizon : Z)
    (stock_status : StockStatus) (shelf_life' : Z) :
  ~ In "Review forecasting accuracy - may be over-forecasting"%string
       (_generate_recommendations
          (_optimize_single_product np_std daily_forecast shelf_life horizon)
          stock_status shelf_life').
Proof.
  destruct (returned_invariants np_std daily_forecast shelf_life horizon)
    as [_ [_ [_ [_ [Hle _]]]]].
  set (r := _optimize_single_product np_std daily_forecast shelf_life horizon) in *.
  clearbody r. intros Hin. unfold _generate_recommendations in Hin.
  apply In_firstn in Hin. cbv zeta in Hin.
  assert (E : Qltb 120 (service_level r) = false) by (apply Qltb_ge; lra).
  rewrite E in Hin.
  set (n1 := Report.str (Z.max 5 _)) in Hin. set (n2 := Report.str (Z.max 10 _)) in Hin.
  clearbody n1 n2.
  destruct stock_status;
    destruct (shelf_life' <=? 7)%Z; destruct (shelf_life' <=? 3)%Z;
    destruct (Qltb (service_level r) 90);
    try destruct (Qltb (3 # 10) (wastage_risk r));
    cbn [app In String.append] in Hin;
    repeat (destruct Hin as [Hin | Hin]; [discriminate Hin|]); exact Hin.
Qed.

(** X12. For an overstocked product with a shelf life of at most 7 days
    exactly four recommendations are given, and the cut after the fourth
    drops the service-level advice and the daily-delivery advice, even when
    the service level is below 90. *)
Theorem overstock_perishable_recommendations
    (optimized_plan : Allocation) (shelf_life : Z) :
  (shelf_life <= 7)%Z ->
  let recommendations := _generate_recommendations optimized_plan overstock shelf_life in
  List.length recommendations = 4%nat /\
  nth_error recommendations 1
  = Some "Monitor closely for spoilage due to short shelf life"%string /\
  ~ In "Consider increasing safety stock to improve service level"%string recommendations /\
  ~ In "Consider daily delivery for very perishable items"%string recommendations.
Proof.
  intros Hsl recommendations. subst recommendations. unfold _generate_recommendations.
  set (n1 := Report.str _). clearbody n1.
  assert (E7 : (shelf_life <=? 7)%Z = true) by now apply Z.leb_le.
  rewrite E7.
  destruct (shelf_life <=? 3)%Z;
    destruct (Qltb (service_level optimized_plan) 90);
    try destruct (Qltb 120 (service_level optimized_plan));
    cbn [app firstn List.length nth_error In String.append];
    (split; [reflexivity|]); (split; [reflexivity|]);
    split; intros Hin;
    repeat (destruct Hin as [Hin | Hin]; [discriminate Hin|]); exact Hin.
Qed.

(** X12, on an overstocked plan with a service level of 50 and a shelf
    life of 2 days. *)
Lemma overstock_perishable_recommendations_witness :
  List.length (_generate_recommendations (mkAllocation [300] 300 (1 # 2) 50) overstock 2)
  = 4%nat.
Proof.
  apply (overstock_perishable_recommendations (mkAllocation [300] 300 (1 # 2) 50) 2).
  lia.
Defined.

(** X13. For a plan with a non-negative total stock and a wastage risk in
    [0, 1], as the allocator returns them, the potential spoilage cost lies
    between 0 and the estimated inventory value, the total cost risk is at
    least the holding cost and at least the spoilage cost, and the inventory
    value is exactly 5 times a total stock that has at most two decimals. *)
Theorem cost_bounds (optimized_plan : Allocation) :
  0 <= total_stock optimized_plan ->
  0 <= wastage_risk optimized_plan -> wastage_risk optimized_plan <= 1 ->
  let c := _calculate_costs optimized_plan in
  0 <= potential_spoilage_cost c /\
  potential_spoilage_cost c <= estimated_inventory_value c /\
  weekly_holding_cost c <= total_cost_risk c /\
  potential_spoilage_cost c <= total_cost_risk c /\
  (has_decimals 2 (total_stock optimized_plan) ->
   estimated_inventory_value c == 5 * total_stock optimized_plan).
Proof.
  intros Hts Hw0 Hw1 c. subst c. unfold _calculate_costs.
  cbn [potential_spoilage_cost estimated_inventory_value weekly_holding_cost total_cost_risk].
  set (ts := total_stock optimized_plan) in *.
  set (w := wastage_risk optimized_plan) in *.
  assert (Hp : 0 <= ts * 5 * w) by nra.
  assert (Hh : 0 <= ts * 5 * (2 # 100) * 7) by lra.
  split; [now apply round_nonneg|].
  split; [apply round_mono; nra|].
  split; [apply round_mono; lra|].
  split; [apply round_mono; lra|].
  intros [k Hk]. rewrite round_id; [ring|].
  exists (k * 5)%Z. rewrite inject_Z_mult, <- Hk. ring.
Qed.

(** X13, on the plan of a three-day forecast. *)
Lemma cost_bounds_witness :
  let c := _calculate_costs (allocate [40; 45; 50] 5 3) in
  0 <= potential_spoilage_cost c /\
  potential_spoilage_cost c <= estimated_inventory_value c /\
  weekly_holding_cost c <= total_cost_risk c /\
  potential_spoilage_cost c <= total_cost_risk c.
Proof.
  destruct (cost_bounds (allocate [40; 45; 50] 5 3)) as [H1 [H2 [H3 [H4 _]]]];
    [now vm_compute | now vm_compute | now vm_compute |].
  repeat split; assumption.
Defined.

(** X14. In a summary the status distribution has one entry per status
    met, each status is counted as many times as records carry it, and the
    counts add up to the number of records. *)
Theorem status_distribution_counts (stock_plan : list Plan.PlanRecord) (s : Summary) :
  _generate_summary stock_plan = Some s ->
  NoDup (map fst (stock_status_distribution s)) /\
  (forall status,
     counts_get status (stock_status_distribution s)
     = Z.of_nat (List.length
                   (filter (fun r => status_eqb (Plan.rec_stock_status r) status)
                           stock_plan))) /\
  fold_right Z.add 0%Z (map snd (stock_status_distribution s)) = len stock_plan.
Proof.
  intros H. destruct stock_plan as [|r rs]; [discriminate|].
  injection H as <-. cbn [stock_status_distribution]. unfold count_statuses.
  destruct (count_loop (r :: rs) [] (NoDup_nil _)) as [Hn [Hget Htot]].
  split; [exact Hn|]. split.
  - intros status. rewrite Hget. reflexivity.
  - rewrite Htot. reflexivity.
Qed.

(** X14, on a plan of three records, two of them overstock. *)
Lemma status_distribution_counts_witness :
  let record status :=
    Plan.mkPlanRecord "A" "A" 5 100 150 [150] status (1 # 2) 100 in
  counts_get overstock (count_statuses [record overstock; record optimal; record overstock])
  = 2%Z.
Proof.
  intros record.
  exact (proj1 (proj2 (status_distribution_counts
                         [record overstock; record optimal; record overstock] _ eq_refl))
               overstock).
Defined.

Module PlanMore.
Import String Py PyFacts AllocMore Plan PlanFacts Report ReportFacts.

Lemma plan_record_ranges p f h :
  let r := plan_record p f h in
  (0 <= rec_service_level r /\ rec_service_level r <= 100) /\
  (0 <= rec_wastage_risk r /\ rec_wastage_risk r <= 1) /\
  (0 <= rec_recommended_stock r /\ rec_recommended_stock r <= rec_recommended_stock r).
Proof.
  intros r. subst r. unfold plan_record.
  cbn [rec_service_level rec_wastage_risk rec_recommended_stock].
  destruct (returned_invariants population_std (daily_forecast f)
              (match shelf_life_days p with Some d => d | None => 7%Z end) h)
    as [_ [[Ht _] [[Hw0 [Hw1 _]] [Hs0 [Hs1 _]]]]].
  repeat split; try assumption. apply Qle_refl.
Qed.

Lemma stock_plan_loop_records predictions rows h ids r :
  In r (stock_plan_loop predictions rows h ids) -> exists p f, r = plan_record p f h.
Proof.
  unfold stock_plan_loop. rewrite in_flat_map. intros [pid [_ Hr]].
  destruct (dict_get pid predictions) as [f|]; [|contradiction].
  destruct (lookup rows pid) as [p|]; [|contradiction].
  destruct Hr as [<- | []]. now exists p, f.
Qed.

Lemma optimize_records fs product_ids h stock_plan r :
  optimize_stock_plan fs product_ids h = inr stock_plan ->
  In r stock_plan -> exists p f, r = plan_record p f h.
Proof.
  unfold optimize_stock_plan, predict_demand, read_products, bind.
  intros H Hin.
  destruct (products_csv fs) as [rows|].
  - destruct product_ids as [ids|]; destruct (load_model fs) as [e|m];
      try discriminate; injection H as <-;
      exact (stock_plan_loop_records _ _ _ _ _ Hin).
  - destruct product_ids as [ids|]; [|discriminate].
    destruct (load_model fs); discriminate.
Qed.






(** When no requested id is in the products data, nothing is predicted. *)
Lemma predictions_none fs m rows days ids :
  (forall pid, In pid ids -> lookup rows pid = None) ->
  forall acc, fold_left (predict_product fs m rows days) ids acc = acc.
Proof.
  induction ids as [|x ids IH]; intros H acc; simpl; [reflexivity|].
  rewrite IH by (intros pid Hp; apply H; now right).
  unfold predict_product. now rewrite (H x (or_introl eq_refl)).
Qed.

Lemma dict_get_in {V} pid (d : dict V) v : dict_get pid d = Some v -> In (pid, v) d.
Proof.
  unfold dict_get. destruct (find _ d) as [[k w]|] eqn:E; [|discriminate].
  intros H. injection H as <-. apply find_some in E. destruct E as [Hin Hk].
  cbn [fst] in Hk. apply String.eqb_eq in Hk. now subst k.
Qed.

(** Every entry of the predictions belongs to a requested id and holds
    the daily predictions of that id with their sum. *)
Lemma predictions_entries fs m rows days all_ids ids :
  incl ids all_ids ->
  forall acc,
    Forall (fun kv => In (fst kv) all_ids /\
                      snd kv = mkForecast (daily_predictions fs m (fst kv) days)
                                 (sum (daily_predictions fs m (fst kv) days))) acc ->
    Forall (fun kv => In (fst kv) all_ids /\
                      snd kv = mkForecast (daily_predictions fs m (fst kv) days)
                                 (sum (daily_predictions fs m (fst kv) days)))
           (fold_left (predict_product fs m rows days) ids acc).
Proof.
  induction ids as [|x ids IH]; intros Hincl acc Hacc; simpl; [assumption|].
  apply IH; [intros y Hy; apply Hincl; now right|].
  unfold predict_product. destruct (lookup rows x); [|assumption].
  unfold dict_set. constructor.
  - split; [apply Hincl; now left | reflexivity].
  - apply Forall_forall. intros kv Hkv. apply filter_In in Hkv.
    rewrite Forall_forall in Hacc. now apply Hacc.
Qed.

Lemma daily_predictions_valid fs m pid days :
  len (daily_predictions fs m pid days) = Z.max 0 days /\
  Forall (fun x => 0 <= x /\ has_decimals 2 x) (daily_predictions fs m pid days).
Proof.
  unfold daily_predictions, len, range. rewrite length_map, length_seq. split; [lia|].
  apply Forall_forall. intros x Hx. apply in_map_iff in Hx.
  destruct Hx as [day [<- _]].
  assert (H : forall y, 0 <= max 0 (round y 2) /\ has_decimals 2 (max 0 (round y 2))).
  { intros y. split; [apply max_l|].
    destruct (max_spec 0 (round y 2)) as [[_ ->] | [_ ->]];
      [apply round_decimal | apply zero_decimal]. }
  destruct (m pid day); apply H.
Qed.

End PlanMore.

Import PlanMore.

(** X15. Whatever the files and the request, the summary of a plan that
    the aggregator returns has an overall service level in [0, 100], an
    average wastage risk in [0, 1] and a non-negative total recommended
    stock. *)
Theorem summary_ranges
    (fs : Files) (product_ids : option (list String.string)) (horizon : Z)
    (stock_plan : list PlanRecord) (s : Summary) :
  optimize_stock_plan fs product_ids horizon = inr stock_plan ->
  _generate_summary stock_plan = Some s ->
  (0 <= overall_service_level s /\ overall_service_level s <= 100) /\
  (0 <= average_wastage_risk s /\ average_wastage_risk s <= 1) /\
  0 <= total_recommended_stock s.
Proof.
  intros Hopt Hs. destruct (summary_some _ _ Hs) as [Hne ->]. clear Hs.
  rename stock_plan into sp.
  assert (Hrec : forall r, In r sp ->
            (0 <= rec_service_level r /\ rec_service_level r <= 100) /\
            (0 <= rec_wastage_risk r /\ rec_wastage_risk r <= 1) /\
            (0 <= rec_recommended_stock r /\
             rec_recommended_stock r <= rec_recommended_stock r)).
  { intros r Hr. destruct (optimize_records _ _ _ _ _ Hopt Hr) as [p [f ->]].
    apply plan_record_ranges. }
  clear Hopt.
  cbn [overall_service_level average_wastage_risk total_recommended_stock].
  assert (Hlen : forall g : PlanRecord -> Q, len (map g sp) = len sp)
    by (intros g; unfold len; now rewrite length_map).
  assert (Hmap : forall g : PlanRecord -> Q, map g sp <> [])
    by (intros g E; apply map_eq_nil in E; contradiction).
  assert (Hsl : Forall (fun x => 0 <= x /\ x <= 100) (map rec_service_level sp)).
  { apply Forall_forall. intros x Hx. apply in_map_iff in Hx.
    destruct Hx as [r [<- Hr]]. apply (Hrec r Hr). }
  assert (Hwr : Forall (fun x => 0 <= x /\ x <= 1) (map rec_wastage_risk sp)).
  { apply Forall_forall. intros x Hx. apply in_map_iff in Hx.
    destruct Hx as [r [<- Hr]]. apply (Hrec r Hr). }
  assert (Hst : Forall (fun x => 0 <= x) (map rec_recommended_stock sp)).
  { apply Forall_forall. intros x Hx. apply in_map_iff in Hx.
    destruct Hx as [r [<- Hr]]. apply (Hrec r Hr). }
  destruct (mean_bounds 0 100 _ (Hmap rec_service_level) Hsl) as [Hs0 Hs1].
  destruct (mean_bounds 0 1 _ (Hmap rec_wastage_risk) Hwr) as [Hw0 Hw1].
  rewrite (Hlen rec_service_level) in Hs0, Hs1.
  rewrite (Hlen rec_wastage_risk) in Hw0, Hw1.
  split; [split|split; [split|]].
  - apply round_nonneg. exact Hs0.
  - apply (rounded_le_of_le _ 2 100). exact Hs1.
  - apply round_nonneg. exact Hw0.
  - apply (rounded_le_of_le _ 3 1). exact Hw1.
  - apply round_nonneg. now apply sum_nonneg.
Qed.

(** X15, on the plan of product A over three days. *)
Lemma summary_ranges_witness :
  let fs := mkFiles (Some [mkProduct "A" None (Some 5%Z)]) (Some [])
                    (Some (fun _ _ => Some 40)) None in
  exists stock_plan s,
    optimize_stock_plan fs (Some ["A"%string]) 3 = inr stock_plan /\
    _generate_summary stock_plan = Some s /\
    (0 <= overall_service_level s /\ overall_service_level s <= 100) /\
    (0 <= average_wastage_risk s /\ average_wastage_risk s <= 1) /\
    0 <= total_recommended_stock s.
Proof.
  intros fs.
  destruct (optimize_stock_plan_ids fs ["A"%string] [mkProduct "A" None (Some 5%Z)]
              (fun _ _ => Some 40) 3 eq_refl eq_refl) as [stock_plan [Hopt Hids]].
  destruct stock_plan as [|r rs]; [discriminate Hids|].
  eexists. eexists. split; [exact Hopt|]. split; [reflexivity|].
  exact (summary_ranges fs (Some ["A"%string]) 3 (r :: rs) _ Hopt eq_refl).
Defined.



(** X17. Every forecast that [predict_demand] returns belongs to a requested
    product id, has max(0, days_ahead) daily values, each non-negative with
    at most two decimals, and a total that is their sum. *)
Theorem forecast_entries_valid
    (fs : Files) (product_ids : list String.string) (days_ahead : Z)
    (predictions : dict Forecast) (pid : String.string) (f : Forecast) :
  Plan.predict_demand fs product_ids days_ahead = inr predictions ->
  dict_get pid predictions = Some f ->
  In pid product_ids /\
  len (daily_forecast f) = Z.max 0 days_ahead /\
  Forall (fun x => 0 <= x /\ has_decimals 2 x) (daily_forecast f) /\
  total_forecast f = sum (daily_forecast f).
Proof.
  unfold Plan.predict_demand, read_products, bind. intros H Hget.
  destruct (load_model fs) as [e|m]; [discriminate|].
  destruct (products_csv fs) as [rows|]; [|discriminate].
  injection H as <-.
  pose proof (predictions_entries fs m rows days_ahead product_ids product_ids
                (incl_refl _) [] (Forall_nil _)) as Hall.
  apply dict_get_in in Hget. rewrite Forall_forall in Hall.
  destruct (Hall _ Hget) as [Hin Hf]. cbn [fst snd] in Hin, Hf. subst f.
  cbn [daily_forecast total_forecast].
  destruct (daily_predictions_valid fs m pid days_ahead) as [Hl Hv].
  repeat split; assumption.
Qed.

(** X17, on the forecast of product A for three days. *)
Lemma forecast_entries_valid_witness :
  let fs := mkFiles (Some [mkProduct "A" None (Some 5%Z)]) (Some [])
                    (Some (fun _ _ => Some (-3))) None in
  exists f, dict_get "A" (fold_left (predict_product fs (fun _ _ => Some (-3))
                                       [mkProduct "A" None (Some 5%Z)] 3)
                                    ["A"%string] [])
            = Some f /\
            len (daily_forecast f) = 3%Z /\
            Forall (fun x => 0 <= x /\ has_decimals 2 x) (daily_forecast f).
Proof.
  intros fs. eexists. split; [reflexivity|].
  destruct (forecast_entries_valid fs ["A"%string] 3
              (fold_left (predict_product fs (fun _ _ => Some (-3))
                            [mkProduct "A" None (Some 5%Z)] 3) ["A"%string] [])
              "A"%string _ eq_refl eq_refl) as [_ [Hl [Hv _]]].
  split; [exact Hl | exact Hv].
Defined.

(** X18. The route POST /predict.  Without product ids and without the
    products data the answer is 400, where POST /plan answers 404.  With a
    non-empty list of ids the answer is 404 when the products data is missing
    or when neither a model nor sales data exist; with the products data and
    a model at hand it is 500 when none of the ids is in the products data,
    and 200 with at least one forecast as soon as one of them is. *)
Theorem predict_route_answers (fs : Files) (data : PredictRoute.Request) :
  let response := PredictRoute.predict_demand fs data in
  (PredictRoute.req_product_ids data = None \/ PredictRoute.req_product_ids data = Some [] ->
   products_csv fs = None -> response = PredictRoute.BadRequest) /\
  (forall ids,
     PredictRoute.req_product_ids data = Some ids -> ids <> [] ->
     (products_csv fs = None -> response = PredictRoute.NotFound) /\
     (model_pkl fs = None -> sales_csv fs = None -> response = PredictRoute.NotFound) /\
     (forall rows m,
        products_csv fs = Some rows -> load_model fs = inr m ->
        ((forall pid, In pid ids -> lookup rows pid = None) ->
         response = PredictRoute.ServerError) /\
        ((exists pid, In pid ids /\ lookup rows pid <> None) ->
         exists predictions,
           response = PredictRoute.Predicted predictions /\ predictions <> []))).
Proof.
  intros response. subst response. unfold PredictRoute.predict_demand. split.
  - intros [-> | ->] ->; reflexivity.
  - intros ids -> Hne. destruct ids as [|x ids]; [congruence|]. clear Hne.
    set (l := x :: ids). unfold Plan.predict_demand, read_products, bind.
    split; [|split].
    + intros Hp. rewrite Hp.
      destruct (load_model fs) as [[|]|m] eqn:E; try reflexivity.
      unfold load_model, train_model in E. rewrite Hp in E.
      destruct (model_pkl fs); [discriminate|].
      destruct (sales_csv fs); discriminate.
    + intros Hm Hs. unfold load_model, train_model. rewrite Hm, Hs. reflexivity.
    + intros rows m -> ->. split.
      * intros Hnone. rewrite (predictions_none fs m rows _ l Hnone []). reflexivity.
      * intros [pid [Hin Hsome]].
        destruct (lookup rows pid) as [p|] eqn:Ep; [|congruence].
        destruct (predictions_known fs m rows
                    (match PredictRoute.req_days_ahead data with
                     | Some d => d | None => 7%Z end)
                    pid p l Ep [] (or_introl Hin)) as [f Hf].
        match type of Hf with dict_get _ ?d = _ => destruct d as [|kv rest] end.
        -- discriminate Hf.
        -- eexists. split; [reflexivity | discriminate].
Qed.

(** X18, without ids and without files, and on the request [A, B] against
    a catalog holding A. *)
Lemma predict_route_answers_witness :
  let fs := mkFiles (Some [mkProduct "A" None (Some 5%Z)]) (Some [])
                    (Some (fun _ _ => Some 40)) None in
  PredictRoute.predict_demand (mkFiles None None None None)
    (PredictRoute.mkRequest None None) = PredictRoute.BadRequest /\
  exists predictions,
    PredictRoute.predict_demand fs
      (PredictRoute.mkRequest (Some ["A"%string; "B"%string]) (Some 3%Z))
    = PredictRoute.Predicted predictions /\ predictions <> [].
Proof.
  intros fs. split.
  - refine (proj1 (predict_route_answers (mkFiles None None None None)
                     (PredictRoute.mkRequest None None)) _ _);
      [now left | reflexivity].
  - refine (proj2 (proj2 (proj2 (proj2 (predict_route_answers fs
              (PredictRoute.mkRequest (Some ["A"%string; "B"%string]) (Some 3%Z)))
              ["A"%string; "B"%string] eq_refl _))
              [mkProduct "A" None (Some 5%Z)] (fun _ _ => Some 40) eq_refl eq_refl) _).
    + discriminate.
    + exists "A"%string. split; [now left | discriminate].
Defined.

(** ** The upload route *)

Module UploadFacts.
Import String Ascii Upload.

Lemma rsplit_no_dot s : contains_dot s = false -> rsplit_dot s = [s].
Proof.
  induction s as [|c rest IH]; simpl; [reflexivity|].
  intros H. apply orb_false_iff in H. destruct H as [Hc Hr].
  rewrite (IH Hr), Hc. reflexivity.
Qed.

Lemma rsplit_with_dot s :
  contains_dot s = true ->
  exists head tail,
    rsplit_dot s = [head; tail] /\ s = (head ++ String "." tail)%string /\
    contains_dot tail = false.
Proof.
  induction s as [|c rest IH]; simpl; [discriminate|].
  intros H. destruct (contains_dot rest) eqn:Er.
  - destruct (IH eq_refl) as [head [tail [E [Hs Ht]]]].
    exists (String c head), tail. rewrite E, Hs. repeat split. exact Ht.
  - rewrite orb_false_r in H. rewrite (rsplit_no_dot rest Er), H.
    apply Ascii.eqb_eq in H. subst c.
    exists EmptyString, rest. repeat split. exact Er.
Qed.

Lemma rsplit_at_last_dot head tail :
  contains_dot tail = false ->
  rsplit_dot (head ++ String "." tail) = [head; tail].
Proof.
  intros Ht. induction head as [|c head IH]; simpl.
  - now rewrite (rsplit_no_dot tail Ht).
  - now rewrite IH.
Qed.

Lemma contains_dot_append head tail :
  contains_dot (head ++ String "." tail) = true.
Proof.
  induction head as [|c head IH]; simpl; [reflexivity|].
  rewrite IH. apply orb_true_r.
Qed.

Lemma dotted base extension :
  (base ++ "." ++ extension)%string = (base ++ String "." extension)%string.
Proof. reflexivity. Qed.

Lemma lower_char_not_dot c x : lower_char c = x -> x <> "."%char -> Ascii.eqb c "." = false.
Proof.
  intros H Hx. apply Ascii.eqb_neq. intros ->. apply Hx. rewrite <- H. reflexivity.
Qed.

Lemma lower_csv_no_dot ext : lower ext = "csv"%string -> contains_dot ext = false.
Proof.
  destruct ext as [|a [|b [|c [|d e]]]]; simpl; try discriminate.
  intros H. injection H as Ha Hb Hc.
  rewrite (lower_char_not_dot a _ Ha), (lower_char_not_dot b _ Hb),
    (lower_char_not_dot c _ Hc) by discriminate.
  reflexivity.
Qed.

Lemma length_append a b :
  String.length (a ++ b) = (String.length a + String.length b)%nat.
Proof. induction a as [|c a IH]; simpl; [reflexivity | now rewrite IH]. Qed.

Lemma append_inj_l s : forall t t', (t ++ s)%string = (t' ++ s)%string -> t = t'.
Proof.
  induction t as [|c t IH]; intros [|c' t'] H; simpl in H.
  - reflexivity.
  - exfalso. apply (f_equal String.length) in H. simpl in H.
    rewrite length_append in H. lia.
  - exfalso. apply (f_equal String.length) in H. simpl in H.
    rewrite length_append in H. lia.
  - injection H as -> H. f_equal. now apply IH.
Qed.

Lemma to_csv_same folder name df : to_csv folder name df name = Some df.
Proof. unfold to_csv. now rewrite String.eqb_refl. Qed.

Lemma to_csv_other folder name df n : n <> name -> to_csv folder name df n = folder n.
Proof. intros H. unfold to_csv. apply String.eqb_neq in H. now rewrite H. Qed.

(** The loop writes only under the names of the file types it accepts. *)
Lemma loop_frame files types : forall folder uploaded res folder',
  upload_loop types files folder uploaded = (res, folder') ->
  forall n,
    (forall t, In t types -> (t ++ ".csv")%string = n ->
       files t = None \/ exists file, files t = Some file /\ filename file = ""%string) ->
    folder' n = folder n.
Proof.
  induction types as [|t rest IH]; intros folder uploaded res folder' H n Hn;
    cbn [upload_loop] in H.
  - now injection H as _ <-.
  - assert (Hrest : forall t', In t' rest -> (t' ++ ".csv")%string = n ->
              files t' = None \/
              exists file, files t' = Some file /\ filename file = ""%string)
      by (intros t' Ht'; apply Hn; now right).
    destruct (files t) as [file|] eqn:Ef; [|exact (IH _ _ _ _ H n Hrest)].
    destruct (String.eqb (filename file) "") eqn:En; [exact (IH _ _ _ _ H n Hrest)|].
    destruct (negb (allowed_file (filename file))); [now injection H as _ <-|].
    destruct (stream file) as [df|]; [|now injection H as _ <-].
    destruct (validate_csv_structure df t); try (now injection H as _ <-).
    rewrite (IH _ _ _ _ H n Hrest). apply to_csv_other. intros E.
    destruct (Hn t (or_introl eq_refl) (eq_sym E)) as [Hnone | [file' [Hf Hname]]].
    + congruence.
    + rewrite Ef in Hf. injection Hf as <-. rewrite Hname in En. discriminate.
Qed.

(** The loop keeps every listed file stored. *)
Lemma loop_listed files types : forall folder uploaded uploaded' folder',
  upload_loop types files folder uploaded = (inr uploaded', folder') ->
  NoDup types ->
  (forall t, In t types -> ~ In t (map fst uploaded)) ->
  (forall t info, In (t, info) uploaded -> stored files folder t info) ->
  forall t info, In (t, info) uploaded' -> stored files folder' t info.
Proof.
  induction types as [|t rest IH];
    intros folder uploaded uploaded' folder' H Hnd Hfresh Hst; cbn [upload_loop] in H.
  - injection H as <- <-. exact Hst.
  - inversion Hnd as [|? ? Hnotin Hnd']; subst.
    assert (Hfresh' : forall t', In t' rest -> ~ In t' (map fst uploaded))
      by (intros t' Ht'; apply Hfresh; now right).
    destruct (files t) as [file|] eqn:Ef; [|exact (IH _ _ _ _ H Hnd' Hfresh' Hst)].
    destruct (String.eqb (filename file) ""); [exact (IH _ _ _ _ H Hnd' Hfresh' Hst)|].
    destruct (negb (allowed_file (filename file))); [discriminate|].
    destruct (stream file) as [df|] eqn:Es; [|discriminate].
    destruct (validate_csv_structure df t) eqn:Ev; try discriminate.
    apply (IH _ _ _ _ H Hnd').
    + intros t' Ht' Hin. rewrite map_app, in_app_iff in Hin.
      destruct Hin as [Hin | [<- | []]]; [exact (Hfresh' t' Ht' Hin) | contradiction].
    + intros t0 info0 Hin. apply in_app_iff in Hin.
      destruct Hin as [Hin | [E | []]].
      * destruct (Hst t0 info0 Hin) as [file0 [df0 [H1 [H2 [H3 [H4 H5]]]]]].
        exists file0, df0. repeat split; try assumption.
        rewrite to_csv_other; [exact H4|].
        intros E. apply append_inj_l in E. subst t0.
        apply (Hfresh t (or_introl eq_refl)).
        apply in_map_iff. now exists (t, info0).
      * injection E as <- <-. exists file, df.
        repeat split; try assumption. apply to_csv_same.
Qed.

(** One turn of the loop on an accepted file. *)
Lemma loop_accepts files t rest folder uploaded file df :
  files t = Some file -> filename file <> ""%string ->
  allowed_file (filename file) = true -> stream file = Some df ->
  validate_csv_structure df t = Valid ->
  upload_loop (t :: rest) files folder uploaded
  = upload_loop rest files (to_csv folder (t ++ ".csv") df)
      (uploaded ++ [(t, mkFileInfo (t ++ ".csv") (Py.len (rows df)) (columns df))]).
Proof.
  intros Hf Hname Hallowed Hstream Hvalid. cbn [upload_loop].
  apply String.eqb_neq in Hname.
  rewrite Hf, Hname, Hallowed, Hstream, Hvalid. reflexivity.
Qed.

Lemma upload_files_folder files folder :
  snd (upload_files files folder)
  = snd (upload_loop ["sales"; "products"; "weather"]%string files folder []).
Proof.
  unfold upload_files.
  destruct (upload_loop _ files folder []) as [[cause | [|u us]] folder']; reflexivity.
Qed.

Lemma file_types_NoDup : NoDup ["sales"; "products"; "weather"]%string.
Proof.
  repeat constructor; simpl; intuition discriminate.
Qed.

Lemma missing_filter_nil (required cols : list string) :
  filter (fun col => negb (existsb (String.eqb col) cols)) required = []
  <-> (forall col, In col required -> In col cols).
Proof.
  induction required as [|r required IH]; simpl.
  - split; [intros _ col [] | reflexivity].
  - destruct (existsb (String.eqb r) cols) eqn:E; simpl.
    + rewrite IH. apply existsb_exists in E. destruct E as [x [Hx Hr]].
      apply String.eqb_eq in Hr. subst x.
      split; [intros H col [<- | Hc]; auto | intros H col Hc; apply H; now right].
    + split; [discriminate|]. intros H. exfalso.
      assert (Hin : In r cols) by (apply H; now left).
      assert (Et : existsb (String.eqb r) cols = true).
      { apply existsb_exists. exists r. split; [exact Hin | apply String.eqb_refl]. }
      congruence.
Qed.

End UploadFacts.

Import Upload UploadFacts.

(** X19. [allowed_file] accepts exactly the names that end in a dot
    followed by csv in any mix of cases; what precedes that last dot does not
    matter (it may be empty or hold other dots), and a name without a dot is
    refused. *)
Theorem allowed_file_iff (filename : String.string) :
  allowed_file filename = true <->
  exists base extension,
    filename = (base ++ "." ++ extension)%string /\ lower extension = "csv"%string.
Proof.
  unfold allowed_file. split.
  - intros H. apply andb_true_iff in H. destruct H as [Hdot Hext].
    destruct (rsplit_with_dot filename Hdot) as [head [tail [E [Hs _]]]].
    rewrite E in Hext. cbn [nth_error ALLOWED_EXTENSIONS existsb] in Hext.
    rewrite orb_false_r in Hext. apply String.eqb_eq in Hext.
    exists head, tail. split; assumption.
  - intros [base [extension [-> Hext]]].
    rewrite dotted, contains_dot_append, (rsplit_at_last_dot _ _ (lower_csv_no_dot _ Hext)).
    cbn [nth_error ALLOWED_EXTENSIONS existsb andb]. rewrite Hext. reflexivity.
Qed.

(** X19, on a name with two dots and an upper-case extension. *)
Lemma allowed_file_iff_witness :
  allowed_file "sales.2025.CSV" = true /\ allowed_file "sales.csv.txt" = false.
Proof.
  split.
  - apply (allowed_file_iff "sales.2025.CSV").
    exists "sales.2025"%string, "CSV"%string. split; reflexivity.
  - reflexivity.
Defined.

(** X20. Uploads are not rolled back: a sales file that is accepted is in
    the folder after the request whatever happens to the products and weather
    files, also when the request is answered 400 because of one of them.  And
    the request leaves every file of the folder alone except those of the
    file types it carries with a file name. *)
Theorem upload_not_rolled_back
    (files : String.string -> option FileStorage) (folder : Folder)
    (file : FileStorage) (df : DataFrame) :
  files "sales"%string = Some file ->
  filename file <> ""%string ->
  allowed_file (filename file) = true ->
  stream file = Some df ->
  validate_csv_structure df "sales" = Valid ->
  snd (upload_files files folder) "sales.csv"%string = Some df /\
  (forall n,
     (forall t, In t ["sales"; "products"; "weather"]%string ->
        (t ++ ".csv")%string = n ->
        files t = None \/ exists f, files t = Some f /\ filename f = ""%string) ->
     snd (upload_files files folder) n = folder n).
Proof.
  intros Hf Hname Hallowed Hstream Hvalid. rewrite upload_files_folder. split.
  - rewrite (loop_accepts files _ _ _ _ file df Hf Hname Hallowed Hstream Hvalid).
    match goal with
    | |- snd ?loop _ = _ => destruct loop as [res folder'] eqn:E
    end.
    cbn [snd]. rewrite (loop_frame _ _ _ _ _ _ E).
    + apply to_csv_same.
    + intros t [<- | [<- | []]] Ht; discriminate Ht.
  - intros n Hn.
    destruct (upload_loop ["sales"; "products"; "weather"]%string files folder [])
      as [res folder'] eqn:E.
    exact (loop_frame _ _ _ _ _ _ E n Hn).
Qed.

(** X20, on a request with a valid sales file and a products file that is
    not a CSV: the answer is 400 and the sales file has been written. *)
Lemma upload_not_rolled_back_witness :
  let df := mkDataFrame
              ["date"; "product_id"; "quantity_sold"; "day_of_week"; "promotion"]%string
              [] in
  let files t :=
    if String.eqb t "sales" then Some (mkFileStorage "s.csv" (Some df))
    else if String.eqb t "products" then Some (mkFileStorage "p.txt" None)
    else None in
  fst (upload_files files (fun _ => None)) = Rejected (InvalidFileType "products") /\
  snd (upload_files files (fun _ => None)) "sales.csv"%string = Some df.
Proof.
  intros df files. split; [reflexivity|].
  refine (proj1 (upload_not_rolled_back files (fun _ => None)
                   (mkFileStorage "s.csv" (Some df)) df eq_refl _ eq_refl eq_refl eq_refl)).
  discriminate.
Defined.

(** X21. When the upload is answered 200, at least one file is listed, and
    every listed file was parsed, found valid, and is in the folder under
    the name of its type with the row count and columns that are reported. *)
Theorem uploaded_files_are_stored
    (files : String.string -> option FileStorage) (folder folder' : Folder)
    (uploaded_files : list (String.string * FileInfo)) :
  upload_files files folder = (Uploaded uploaded_files, folder') ->
  uploaded_files <> [] /\
  (forall file_type info,
     In (file_type, info) uploaded_files -> stored files folder' file_type info).
Proof.
  unfold upload_files.
  destruct (upload_loop ["sales"; "products"; "weather"]%string files folder [])
    as [[cause | [|u us]] folder0] eqn:E; intros H; try discriminate.
  injection H as <- <-. split; [discriminate|].
  apply (loop_listed files _ _ _ _ _ E file_types_NoDup).
  - intros t _ [].
  - intros t info [].
Qed.

(** X21, on a request carrying a valid weather file only. *)
Lemma uploaded_files_are_stored_witness :
  let df := mkDataFrame ["date"; "temperature"; "humidity"; "precipitation"]%string
                        [["2025-07-01"; "22"; "60"; "0"]%string] in
  let files t :=
    if String.eqb t "weather" then Some (mkFileStorage "w.csv" (Some df)) else None in
  let info := mkFileInfo "weather.csv" 1 (columns df) in
  stored files (snd (upload_files files (fun _ => None))) "weather" info.
Proof.
  intros df files info.
  refine (proj2 (uploaded_files_are_stored files (fun _ => None)
                   (snd (upload_files files (fun _ => None)))
                   [("weather"%string, info)] eq_refl) "weather"%string info _).
  now left.
Defined.

(** X22. [validate_csv_structure] accepts a file of a known type exactly
    when every required column of that type is among its columns, whatever
    their order and whatever other columns it has; any other file type is
    reported unknown. *)
Theorem validate_csv_structure_iff (df : DataFrame) (file_type : String.string) :
  (forall required,
     In (file_type, required) required_columns ->
     (validate_csv_structure df file_type = Valid <->
      forall col, In col required -> In col (columns df))) /\
  (~ In file_type (map fst required_columns) ->
   validate_csv_structure df file_type = UnknownFileType).
Proof.
  split.
  - intros required Hin. unfold validate_csv_structure.
    assert (E : find (fun entry => String.eqb (fst entry) file_type) required_columns
                = Some (file_type, required)).
    { destruct Hin as [E | [E | [E | []]]]; injection E as <- <-; reflexivity. }
    rewrite E. rewrite <- missing_filter_nil.
    destruct (filter _ required); split; intros; congruence.
  - intros Hnot. unfold validate_csv_structure.
    destruct (find _ required_columns) as [[t req]|] eqn:E; [|reflexivity].
    apply find_some in E. destruct E as [Hin Ht]. cbn [fst] in Ht.
    apply String.eqb_eq in Ht. subst t. exfalso. apply Hnot.
    apply in_map_iff. now exists (file_type, req).
Qed.

(** X22, on a weather file with its columns in another order and one more
    column. *)
Lemma validate_csv_structure_iff_witness :
  validate_csv_structure
    (mkDataFrame ["station"; "precipitation"; "humidity"; "temperature"; "date"]%string [])
    "weather" = Valid.
Proof.
  apply (proj1 (validate_csv_structure_iff
                  (mkDataFrame ["station"; "precipitation"; "humidity";
                                "temperature"; "date"]%string [])
                  "weather")
               ["date"; "temperature"; "humidity"; "precipitation"]%string).
  - right. right. now left.
  - intros col [<- | [<- | [<- | [<- | []]]]]; simpl; tauto.
Defined.

(** ** make_json_serializable *)

Module JsonFacts.
Import String Py PyFacts Json.


(** Rounding twice is rounding once. *)
Lemma round_round x n : round (round x n) n = round x n.
Proof.
  unfold round at 1. now rewrite (round_half_even_Z _ _ (round_scaled x n)).
Qed.


End JsonFacts.

Import JsonFacts.


(** A response that carries a [np.int16] keeps it, next to the floats it
    rounds and the [np.int64] it converts. *)
Lemma make_json_serializable_fall_through :
  let obj := Json.Dict [("stock"%string, Json.NpFloat (123456 # 10000));
                        ("days"%string, Json.NpInt 7);
                        ("shelf"%string, Json.Unhandled "numpy.int16"%string)] in
  Json.make_json_serializable obj
  = Json.Dict [("stock"%string, Json.Float (1235 # 100));
               ("days"%string, Json.Int 7);
               ("shelf"%string, Json.Unhandled "numpy.int16"%string)] /\
  Json.serializable (Json.make_json_serializable obj) = false.
Proof. split; now vm_compute. Qed.

(** ** The product list *)

Module ProductsFacts.
Import String Products.

Lemma cell_eqb_eq a b : cell_eqb a b = true <-> a = b.
Proof.
  destruct a as [x|], b as [y|]; simpl; try (split; intros; congruence).
  rewrite String.eqb_eq. split; intros; congruence.
Qed.

Lemma unique_cells_In x l : In x (unique l) <-> In x l.
Proof.
  induction l as [|y l IH]; simpl; [tauto|].
  rewrite filter_In, IH. split.
  - intros [H | [H _]]; [now left | now right].
  - intros [H | H]; [now left|].
    destruct (cell_eqb y x) eqn:E.
    + apply cell_eqb_eq in E. now left.
    + right. split; [assumption | reflexivity].
Qed.

Lemma unique_cells_NoDup l : NoDup (unique l).
Proof.
  induction l as [|y l IH]; simpl; constructor.
  - rewrite filter_In. intros [_ H].
    assert (E : cell_eqb y y = true) by now apply cell_eqb_eq.
    rewrite E in H. discriminate.
  - now apply NoDup_filter.
Qed.

Lemma notna_str_In x l : In x (notna_str l) <-> In (Some x) l.
Proof.
  unfold notna_str. rewrite in_flat_map. split.
  - intros [[s|] [Hin Hx]]; [|contradiction]. destruct Hx as [<- | []]. exact Hin.
  - intros H. exists (Some x). split; [exact H | now left].
Qed.

Lemma notna_str_NoDup l : NoDup l -> NoDup (notna_str l).
Proof.
  induction 1 as [|c l Hc _ IH]; [constructor|].
  destruct c as [s|]; simpl; [|exact IH].
  constructor; [|exact IH]. rewrite notna_str_In. exact Hc.
Qed.

Lemma insert_In x y l : In x (insert y l) <-> x = y \/ In x l.
Proof.
  induction l as [|z l IH]; simpl; [intuition|].
  destruct (String.leb y z); simpl; [intuition|].
  rewrite IH. intuition.
Qed.

Lemma sort_In x l : In x (sort l) <-> In x l.
Proof.
  induction l as [|y l IH]; simpl; [tauto|].
  rewrite insert_In, IH. intuition.
Qed.

Lemma insert_NoDup y l : ~ In y l -> NoDup l -> NoDup (insert y l).
Proof.
  induction l as [|z l IH]; simpl; intros Hy Hl.
  - constructor; [tauto | constructor].
  - destruct (String.leb y z).
    + constructor; [simpl; tauto | assumption].
    + inversion Hl; subst. constructor.
      * rewrite insert_In. intuition.
      * apply IH; tauto.
Qed.

Lemma sort_NoDup l : NoDup l -> NoDup (sort l).
Proof.
  induction 1 as [|y l Hy _ IH]; simpl; [constructor|].
  apply insert_NoDup; [now rewrite sort_In | exact IH].
Qed.

Lemma insert_sorted y l :
  Sorted.Sorted (fun a b => String.leb a b = true) l ->
  Sorted.Sorted (fun a b => String.leb a b = true) (insert y l).
Proof.
  induction 1 as [|z l Hl IH Hz]; simpl.
  - repeat constructor.
  - destruct (String.leb y z) eqn:E.
    + constructor; [constructor; assumption | constructor; exact E].
    + constructor; [exact IH|].
      assert (Hzy : String.leb z y = true).
      { destruct (String.leb_total y z) as [H | H]; [congruence | exact H]. }
      destruct Hz as [|w l' Hw]; simpl.
      * constructor. exact Hzy.
      * destruct (String.leb y w); constructor; assumption.
Qed.

Lemma sort_sorted l : Sorted.Sorted (fun a b => String.leb a b = true) (sort l).
Proof.
  induction l as [|y l IH]; simpl; [constructor | now apply insert_sorted].
Qed.

End ProductsFacts.

Import ProductsFacts.

(** X24. GET /products answers 404 without the products file and 500 when
    the file has none of the possible id columns.  Otherwise it lists,
    in ascending order and without repetition, exactly the values other
    than NaN of the first possible id column present ([product_id] when
    there is one), with their number as total_count. *)
Theorem available_products_sorted_unique (file : option Products.DataFrame) :
  (file = None -> Products.get_available_products file = Products.NotFound) /\
  (forall df,
     file = Some df ->
     (Products.product_column df = None <->
      Products.get_available_products file = Products.ServerError) /\
     (forall products total_count,
        Products.get_available_products file = Products.Retrieved products total_count ->
        Sorted.Sorted (fun a b => String.leb a b = true) products /\
        NoDup products /\
        total_count = len products /\
        exists col,
          Products.product_column df = Some col /\
          In col Products.possible_columns /\ In col (Products.columns df) /\
          (In "product_id"%string (Products.columns df) -> col = "product_id"%string) /\
          forall x, In x products <-> In (Some x) (Products.series df col))).
Proof.
  split; [intros ->; reflexivity|].
  intros df ->. unfold Products.get_available_products.
  destruct (Products.product_column df) as [col|] eqn:Ecol.
  - split; [split; discriminate|].
    intros products total_count H. injection H as <- <-.
    split; [apply sort_sorted|].
    split; [apply sort_NoDup, notna_str_NoDup, unique_cells_NoDup|].
    split; [reflexivity|].
    exists col. split; [reflexivity|].
    unfold Products.product_column in Ecol.
    pose proof (find_some _ _ Ecol) as [Hin Hex].
    apply existsb_exists in Hex. destruct Hex as [c [Hc Heq]].
    apply String.eqb_eq in Heq. subst c.
    split; [exact Hin|]. split; [exact Hc|]. split.
    + intros Hpid.
      assert (Ex : existsb (String.eqb "product_id") (Products.columns df) = true).
      { apply existsb_exists. exists "product_id"%string.
        split; [exact Hpid | reflexivity]. }
      unfold Products.possible_columns in Ecol. cbn [find] in Ecol.
      rewrite Ex in Ecol. now injection Ecol as <-.
    + intros x. rewrite sort_In, notna_str_In, unique_cells_In. reflexivity.
  - split; [split; reflexivity|]. intros products total_count H. discriminate.
Qed.

(** X24, on a table whose id column holds B, NaN, A and B again. *)
Lemma available_products_sorted_unique_witness :
  let df := Products.mkDataFrame ["name"; "product_id"]%string
              [[Some "x"; Some "B"]; [Some "y"; None];
               [Some "z"; Some "A"]; [Some "w"; Some "B"]]%string in
  Products.get_available_products (Some df)
  = Products.Retrieved ["A"; "B"]%string 2 /\
  NoDup ["A"; "B"]%string.
Proof.
  intros df. split; [reflexivity|].
  exact (proj1 (proj2 (proj2 (proj2 (available_products_sorted_unique (Some df)) df eq_refl)
                                 ["A"; "B"]%string 2%Z eq_refl))).
Defined.

(** X25. In the answer of POST /plan the serialization to JSON leaves the
    recommended stock, the daily stock plan, the predicted demand and the
    service level of every record as the aggregator computed them; only the
    wastage risk changes: its third decimal is rounded away (a change of
    0.005 at most). *)
Theorem plan_serialization_keeps_stock
    (fs : Files) (product_ids : option (list String.string)) (horizon : Z)
    (stock_plan : list PlanRecord) (r : PlanRecord) :
  optimize_stock_plan fs product_ids horizon = inr stock_plan ->
  In r stock_plan ->
  let j := Plan.make_json_serializable r in
  rec_recommended_stock j == rec_recommended_stock r /\
  Forall2 Qeq (rec_daily_stock_plan j) (rec_daily_stock_plan r) /\
  rec_predicted_demand j == rec_predicted_demand r /\
  rec_service_level j == rec_service_level r /\
  has_decimals 2 (rec_wastage_risk j) /\
  Qabs (rec_wastage_risk j - rec_wastage_risk r) <= 5 # 1000.
Proof.
  intros Hopt Hin j. subst j.
  destruct (optimize_records _ _ _ _ _ Hopt Hin) as [p [f ->]].
  unfold Plan.make_json_serializable, plan_record.
  cbn [rec_recommended_stock rec_daily_stock_plan rec_predicted_demand
       rec_service_level rec_wastage_risk].
  destruct (returned_invariants population_std (daily_forecast f)
              (match shelf_life_days p with Some d => d | None => 7%Z end) horizon)
    as [Hd [[_ Ht] [_ [_ [_ Hs]]]]].
  set (a := _optimize_single_product population_std (daily_forecast f) _ horizon) in *.
  clearbody a.
  split; [now apply round_id|].
  split.
  { apply map_round_id. apply Forall_forall. intros x Hx.
    rewrite Forall_forall in Hd. now apply Hd. }
  split; [rewrite round_round; reflexivity|].
  split; [now apply round_id|].
  split; [apply round_decimal|].
  destruct (round2_near (wastage_risk a)). apply Qabs_Qle_condition. split; lra.
Qed.

(** X25, on the record of product A planned over three days. *)
Lemma plan_serialization_keeps_stock_witness :
  let fs := mkFiles (Some [mkProduct "A" None (Some 5%Z)]) (Some [])
                    (Some (fun _ _ => Some 40)) None in
  exists r,
    optimize_stock_plan fs (Some ["A"%string]) 3 = inr [r] /\
    rec_recommended_stock (Plan.make_json_serializable r) == rec_recommended_stock r.
Proof.
  intros fs. eexists. split; [reflexivity|].
  refine (proj1 (plan_serialization_keeps_stock fs (Some ["A"%string]) 3 _ _
                   eq_refl (or_introl eq_refl))).
Defined.
